(** * slackgammon: a Slack front end that drives one gnubg subprocess per game

    Shallow embedding of [slackgammon.py]: the bounded line reader
    [StreamReadlines], the subprocess owner [GnubgWorker] and the session
    registry [GnubgManager], followed by the properties of the registry and
    of the reader.

    Conventions of the model.
    - Text is a [string], whose characters stand for the code points
      below 256.  The pipes of a subprocess are taken at the level of
      text: [stdin_log] holds what is written before [str.encode], [tape]
      what is read after [bytes.decode] (a line of bytes is empty exactly
      when its text is).  Text with other code points, and output that
      does not decode, are outside the model.
    - A subprocess is a record [Process].  What it will print is not decided
      by the program, so each process carries the outcome of every bounded
      [readline] it will ever be asked for ([tape]) and whether it exits
      inside the grace period ([exits_in_grace]); every statement quantifies
      over them.
    - An [async for] loop over the reader has no bound of its own.  It is
      modelled with a [fuel] argument that limits the number of lines of one
      drain; running out of fuel is the result [Unfinished].  A bounded
      [readline] returns or times out; one that raises (a line beyond the
      limit of the stream) is outside the model.
    - A handler is run from its call to its return.  Where the statements
      speak of the states of the server, these are the states it is in
      when it serves its requests one after the other; what handlers do
      to each other when the event loop switches between them at an
      [await] is outside the model.
    - [GnubgManager.workers] is a dict: an association list in insertion
      order, which is also the order of iteration (as dicts have it since
      Python 3.7; for a caller with one session the order plays no part).
      It is keyed by the pair of player names; its values are handles into
      the table of all subprocesses spawned so far, so that a process can
      still be looked at once its session has left the dict.
    - What asyncio does is taken from its documentation and code: writing
      to the pipe of a process never raises; [readline] returns the empty
      bytes at the end of the stream; [wait] returns at once for a process
      that is gone; [kill] raises [ProcessLookupError] for such a process.
    - [IncomingWebhook.post] is the record of the message in [posts]. *)

From Stdlib Require Import List String Ascii ZArith Lia Bool Arith DecimalString.
Import ListNotations.
Open Scope string_scope.

(** ** Python string primitives used by the source *)

Module Py.

(** [str.isspace] on a character of code point below 256: TAB, LF, VT,
    FF, CR, the four separators FS, GS, RS, US, the space, NEL (U+0085)
    and the no-break space (U+00A0). *)
Definition isspace (c : ascii) : bool :=
  let n := nat_of_ascii c in
  (((9 <=? n) && (n <=? 13)) || ((28 <=? n) && (n <=? 32))
   || (n =? 133) || (n =? 160))%nat.

Definition snoc (s : string) (c : ascii) : string := s ++ String c "".

(** [str.split()] with no argument: the maximal runs of non-blank
    characters.  [cur] is the token being read, if any. *)
Fixpoint split_from (cur : option string) (s : string) : list string :=
  match s with
  | EmptyString => match cur with Some t => [t] | None => [] end
  | String c r =>
      if isspace c
      then match cur with
           | Some t => t :: split_from None r
           | None => split_from None r
           end
      else split_from (Some (snoc (match cur with Some t => t | None => "" end) c)) r
  end.

Definition split (s : string) : list string := split_from None s.

(** [s.startswith(p)] *)
Definition startswith (s p : string) : bool := String.prefix p s.

(** [sep.join(l)] *)
Definition join (sep : string) (l : list string) : string := String.concat sep l.

(** [s[1:]] *)
Definition tail (s : string) : string :=
  match s with EmptyString => "" | String _ r => r end.

(** [str(n)] for the integers that are formatted into messages. *)
Definition str_of_nat (n : nat) : string := NilZero.string_of_uint (Nat.to_uint n).
Definition str_of_Z (z : Z) : string := NilZero.string_of_int (Z.to_int z).

(** a nonempty [str]/[bytes] is truthy *)
Definition truthy (s : string) : bool :=
  match s with EmptyString => false | String _ _ => true end.

End Py.

Definition LF : string := String (ascii_of_nat 10) "".

(** ** Exceptions and the state-and-error monad *)

Inductive exn : Type :=
| RuntimeError         (* a [StopIteration] that leaves a coroutine: [next]
                          on an exhausted generator *)
| IndexError           (* [l[0]] on an empty list *)
| KeyError             (* [del d[k]] with [k] absent *)
| ProcessLookupError   (* [kill] on a process that is gone *)
| OSError              (* the executable could not be spawned *)
| DanglingWorker.      (* a handle outside the process table; no state built
                          by the program has one *)

Inductive result (A : Type) : Type :=
| Ok (a : A)
| Raised (e : exn)
| Unfinished.
Arguments Ok {A} a.
Arguments Raised {A} e.
Arguments Unfinished {A}.

(** ** The subprocess and its output stream *)

(** One [asyncio.wait_for(stream_reader.readline(), timeout)]: [readline]
    returned [line] in time ([b''] at end of stream), or [TimeoutError]. *)
Inductive read_outcome : Type :=
| Returned (line : string)
| TimedOut.

Record Process : Type := mkProcess {
  stdin_log : list string;        (* what was written to stdin, in order *)
  tape : nat -> read_outcome;     (* outcome of the n-th bounded readline *)
  reads : nat;                    (* bounded readlines performed so far *)
  exited : bool;                  (* the process has exited by itself *)
  exits_in_grace : bool;          (* a running process exits within the 0.1 s wait *)
  killed : bool                   (* [kill] was delivered *)
}.

Definition terminated (p : Process) : bool := exited p || killed p.

Module StreamReadlines.

(** [await asyncio.wait_for(self.stream_reader.readline(), self.timeout)] *)
Definition wait_for_readline (p : Process) : read_outcome * Process :=
  (tape p (reads p),
   mkProcess (stdin_log p) (tape p) (S (reads p)) (exited p) (exits_in_grace p) (killed p)).

(** [__anext__]: [Some line] is [return line], [None] is
    [raise StopAsyncIteration]. *)
Definition anext (p : Process) : option string * Process :=
  match wait_for_readline p with
  | (Returned line, p') => if Py.truthy line then (Some line, p') else (None, p')
  | (TimedOut, p') => (None, p')
  end.

(** [async for line in StreamReadlines(...): lines.append(line.decode())],
    the list built by the loop; [None] when [fuel] lines were read and the
    loop has not ended. *)
Fixpoint collect (fuel : nat) (p : Process) : option (list string) * Process :=
  match fuel with
  | O => (None, p)
  | S fuel' =>
      match anext p with
      | (Some line, p') =>
          match collect fuel' p' with
          | (Some lines, p'') => (Some (line :: lines), p'')
          | (None, p'') => (None, p'')
          end
      | (None, p') => (Some [], p')
      end
  end.

End StreamReadlines.

(** ** Program state *)

Definition player_pair := (string * string)%type.

Record State : Type := mkState {
  max_games : Z;                        (* [--max-games], any integer *)
  workers : list (player_pair * nat);       (* [self.workers], insertion order *)
  procs : list Process;                 (* every subprocess spawned so far *)
  spawner : nat -> option Process;      (* what the n-th spawn yields; [None]: it fails *)
  posts : list (string * string)        (* (channel, text) sent to the webhook *)
}.

(** A computation over a state [S] that returns, raises or does not end.
    The methods of a worker run over its own [Process]; the handlers of the
    manager run over the whole [State]. *)
Definition M (S A : Type) : Type := S -> result A * S.

Definition ret {S A} (a : A) : M S A := fun st => (Ok a, st).
Definition raise {S A} (e : exn) : M S A := fun st => (Raised e, st).
Definition bind {S A B} (m : M S A) (k : A -> M S B) : M S B :=
  fun st =>
    match m st with
    | (Ok a, st') => k a st'
    | (Raised e, st') => (Raised e, st')
    | (Unfinished, st') => (Unfinished, st')
    end.

Notation "x <- m ;; k" := (bind m (fun x => k))
  (at level 61, m at next level, right associativity).
Notation "m ;;; k" := (bind m (fun _ => k))
  (at level 61, right associativity).

Definition set_workers (ws : list (player_pair * nat)) (st : State) : State :=
  mkState (max_games st) ws (procs st) (spawner st) (posts st).
Definition set_procs (ps : list Process) (st : State) : State :=
  mkState (max_games st) (workers st) ps (spawner st) (posts st).

(** [l[h] = p] on the process table *)
Fixpoint replace_nth {A} (h : nat) (a : A) (l : list A) : list A :=
  match l, h with
  | [], _ => []
  | _ :: r, O => a :: r
  | x :: r, S h' => x :: replace_nth h' a r
  end.

(** [worker.method(...)]: run a method of the worker with handle [h] on its
    process, inside the state. *)
Definition on_proc {A} (h : nat) (f : M Process A) : M State A :=
  fun st =>
    match nth_error (procs st) h with
    | None => (Raised DanglingWorker, st)
    | Some p => let (r, p') := f p in (r, set_procs (replace_nth h p' (procs st)) st)
    end.

(** ** The dict [workers] *)

Module Dict.

Definition key_eqb (k1 k2 : player_pair) : bool :=
  (fst k1 =? fst k2) && (snd k1 =? snd k2).

(** [k in d] *)
Definition mem {V} (k : player_pair) (d : list (player_pair * V)) : bool :=
  existsb (fun kv => key_eqb (fst kv) k) d.

(** [d[k] = v]: an existing key keeps its place, a new one goes last *)
Fixpoint set {V} (k : player_pair) (v : V) (d : list (player_pair * V)) : list (player_pair * V) :=
  match d with
  | [] => [(k, v)]
  | (k', v') :: r => if key_eqb k' k then (k, v) :: r else (k', v') :: set k v r
  end.

(** [del d[k]]; [None] is [KeyError] *)
Fixpoint del {V} (k : player_pair) (d : list (player_pair * V)) : option (list (player_pair * V)) :=
  match d with
  | [] => None
  | (k', v') :: r =>
      if key_eqb k' k then Some r
      else match del k r with
           | Some r' => Some ((k', v') :: r')
           | None => None
           end
  end.

End Dict.

(** ** GnubgWorker *)

Module GnubgWorker.

Definition write (text : string) (p : Process) : Process :=
  mkProcess (stdin_log p ++ [text])%list (tape p) (reads p) (exited p) (exits_in_grace p) (killed p).

(** [self.proc.stdin.write(str.encode('{}\n'.format(text)))]; the pipe
    transport of asyncio raises nothing, also when the reader is gone. *)
Definition writeline (text : string) : M Process unit :=
  fun p => (Ok tt, write (text ++ LF) p).

(** the [async for] over [self.readlines()] *)
Definition readlines (fuel : nat) : M Process (list string) :=
  fun p =>
    match StreamReadlines.collect fuel p with
    | (Some lines, p') => (Ok lines, p')
    | (None, p') => (Unfinished, p')
    end.

(** a process as [create_subprocess_exec] hands it over: nothing written,
    nothing read, not killed *)
Definition fresh (p : Process) : Process :=
  mkProcess [] (tape p) 0 (exited p) (exits_in_grace p) false.

(** [start]: the new process enters the process table and its handle is
    the worker; then the banner is drained. *)
Definition start (fuel : nat) : M State nat :=
  fun st =>
    let h := List.length (procs st) in
    match spawner st h with
    | None => (Raised OSError, st)
    | Some p =>
        (* consume gnubg copyright output *)
        (on_proc h (readlines fuel) ;;; ret h) (set_procs (procs st ++ [fresh p])%list st)
    end.

Definition command (fuel : nat) (command : string) : M Process (list string) :=
  writeline command ;;;
  readlines fuel.

(** [await asyncio.wait_for(self.proc.wait(), 0.1)]: [true] when [wait]
    returned, [false] for [TimeoutError].  [wait] returns at once on a
    process that is gone. *)
Definition wait_for_wait : M Process bool :=
  fun p =>
    if terminated p then (Ok true, p)
    else if exits_in_grace p
         then (Ok true, mkProcess (stdin_log p) (tape p) (reads p) true (exits_in_grace p) (killed p))
         else (Ok false, p).

(** [self.proc.kill()]; asyncio raises [ProcessLookupError] when the process
    is gone. *)
Definition kill : M Process unit :=
  fun p =>
    if terminated p then (Raised ProcessLookupError, p)
    else (Ok tt, mkProcess (stdin_log p) (tape p) (reads p) (exited p) (exits_in_grace p) true).

Definition quit (fuel : nat) : M Process unit :=
  command fuel "quit" ;;;
  command fuel "y" ;;;
  returned <- wait_for_wait ;;
  if (returned : bool) then ret tt else kill.

End GnubgWorker.

(** ** Messages and responses *)

Module SlackTemplate.

Definition fence : string := "```" ++ LF.

Definition NewGame (challenger challenged board : string) : string :=
  challenger ++ " started a new game against " ++ challenged ++ ":" ++ LF
  ++ fence ++ board ++ "```".

Definition Command (player command gnubg_output : string) : string :=
  player ++ " attempted to `" ++ command ++ "`:" ++ LF
  ++ fence ++ gnubg_output ++ "```".

Definition Quit (quitter opponent : string) : string :=
  quitter ++ " quit game against " ++ opponent.

Definition Info (active_games : nat) (max_games : Z) (games : string) : string :=
  "There are currently " ++ Py.str_of_nat active_games ++ "/"
  ++ Py.str_of_Z max_games ++ " games:" ++ LF ++ games.

End SlackTemplate.

(** what a handler returns to aiohttp *)
Inductive response : Type :=
| Response (text : option string)            (* 200 *)
| HTTPForbidden (text : string)              (* 403 *)
| HTTPServiceUnavailable (text : string)     (* 503 *)
| HTTPBadRequest (text : string).            (* 400 *)

(** the three fields of [REQUIRED_SLACK_PARAMS] *)
Record slack_params : Type := mkSlack {
  user_id : string;
  user_name : string;
  channel_id : string
}.

Module IncomingWebhook.

(** [post]: the message is handed to Slack; a reply other than 200 is only
    printed. *)
Definition post (message channel : string) : M State unit :=
  fun st =>
    (Ok tt, mkState (max_games st) (workers st) (procs st) (spawner st)
                    (posts st ++ [(channel, message)])%list).

End IncomingWebhook.

(** ** GnubgManager *)

Module GnubgManager.

Definition COMMANDS : list (string * (list string * string)) :=
  [ ("help", ([], "Print a list of all commands"));
    ("info", ([], "Print info about running games."));
    ("new", (["player"], "Start a new game against <player> (default: gnubg)"));
    ("move", (["from1"; "to1"; "..."], "Move checkers"));
    ("double", ([], "Offer a double"));
    ("roll", ([], "Roll the dice"));
    ("accept", ([], "Accept a cube or resignation"));
    ("redouble", ([], "Accept the cube one level higher than it was offered"));
    ("reject", ([], "Reject a cube or resignation"));
    ("resign", ([], "Offer to end the current game"));
    ("quit", ([], "Quit active game")) ].

Definition HELP_TEXT : string :=
  "Commands:" ++ LF ++
  Py.join LF
    (map (fun cd : string * (list string * string) =>
            let (c, d) := cd in
            c ++ " " ++ Py.join " " (map (fun a => "<" ++ a ++ ">") (fst d))
              ++ ": " ++ snd d)
         COMMANDS).

(** a handler as the dispatcher calls it, and a handler as [game_required]
    calls the function it decorates *)
Definition handler : Type := nat -> list string -> slack_params -> M State response.
Definition inner_handler : Type :=
  nat -> list string -> slack_params -> string -> string -> nat -> M State response.

(** [user_name in ps] *)
Definition is_in (user_name : string) (ps : player_pair) : bool :=
  (fst ps =? user_name) || (snd ps =? user_name).

(** [next(p for p in players if p != user_name)] *)
Definition next_other (ps : player_pair) (user_name : string) : option string :=
  if negb (fst ps =? user_name) then Some (fst ps)
  else if negb (snd ps =? user_name) then Some (snd ps)
  else None.

Definition game_required (turn_required : bool) (f : inner_handler) : handler :=
  fun fuel params sp st =>
    let user_name := user_name sp in
    let game := filter (fun psw : player_pair * nat => is_in user_name (fst psw)) (workers st) in
    match game with
    | [] => (Ok (HTTPForbidden "You do not have a game in progress."), st)
    | (players, worker) :: _ =>
        match next_other players user_name with
        | None => (Raised RuntimeError, st)
        | Some opponent =>
            (lines <- on_proc worker (GnubgWorker.command fuel "show turn") ;;
             let gnubg_output := Py.join "" lines in
             match Py.split gnubg_output with
             | [] => raise IndexError
             | turn :: _ =>
                 if turn_required && negb (turn =? user_name)
                 then ret (HTTPForbidden "It's not your turn!")
                 else f fuel params sp user_name opponent worker
             end) st
        end
    end.

(** [run_command] applied to the function named [name] *)
Definition run_command (name : string) : inner_handler :=
  fun fuel params sp player opponent worker =>
    let command := Py.join " " (name :: params) in
    gnubg_output <- on_proc worker (GnubgWorker.command fuel command) ;;
    let slack_out := SlackTemplate.Command player command (Py.join "" gnubg_output) in
    IncomingWebhook.post slack_out (channel_id sp) ;;;
    lines <- on_proc worker (GnubgWorker.command fuel "show turn") ;;
    let gnubg_output := Py.join "" lines in
    if Py.startswith gnubg_output "No game"
    then on_proc worker (GnubgWorker.quit fuel) ;;; ret (Response None)
    else ret (Response None).

Definition help : handler :=
  fun _ _ _ => ret (Response (Some HELP_TEXT)).

Definition info : handler :=
  fun _ _ _ st =>
    let active := List.length (workers st) in
    let games :=
      Py.join LF (map (fun psw : player_pair * nat =>
                         fst (fst psw) ++ " vs. " ++ snd (fst psw)) (workers st)) in
    (Ok (Response (Some (SlackTemplate.Info active (max_games st) games))), st).

(** the lines of [new] that settle [challenged]; [None] is the
    [HTTPBadRequest] branch *)
Definition resolve_challenged (params : list string) : option string :=
  match params with
  | p0 :: _ =>
      if negb (p0 =? "gnubg")
      then if Py.startswith p0 "@" then Some (Py.tail p0) else None
      else Some "gnubg"
  | [] => Some "gnubg"
  end.

Definition new : handler :=
  fun fuel params sp st =>
    if (Z.of_nat (List.length (workers st)) =? max_games st)%Z
    then (Ok (HTTPServiceUnavailable
                "Max game limit reached. Try again after a game has finished."), st)
    else
      let user_name := user_name sp in
      if existsb (fun psw : player_pair * nat => is_in user_name (fst psw)) (workers st)
      then (Ok (HTTPForbidden "You already have a game in progress."), st)
      else
        match resolve_challenged params with
        | None =>
            (Ok (HTTPBadRequest
                   "You must challenge gnubg or an existing slack user (e.g. @austin)"), st)
        | Some challenged =>
            (worker <- GnubgWorker.start fuel ;;
             (fun st' => (Ok tt, set_workers (Dict.set (user_name, challenged) worker (workers st')) st')) ;;;
             on_proc worker (GnubgWorker.command fuel ("set player 1 name " ++ user_name)) ;;;
             (* set player name if opponent is human *)
             (if negb (challenged =? "gnubg")
              then on_proc worker (GnubgWorker.command fuel "set player 0 human") ;;;
                   on_proc worker (GnubgWorker.command fuel ("set player 0 name " ++ challenged)) ;;;
                   ret tt
              else ret tt) ;;;
             gnubg_output <- on_proc worker (GnubgWorker.command fuel "new game") ;;
             let slack_out := SlackTemplate.NewGame user_name challenged (Py.join "" gnubg_output) in
             IncomingWebhook.post slack_out (channel_id sp) ;;;
             ret (Response None)) st
        end.

Definition move : handler := game_required true (run_command "move").
Definition double : handler := game_required true (run_command "double").
Definition roll : handler := game_required true (run_command "roll").
Definition accept : handler := game_required false (run_command "accept").
Definition redouble : handler := game_required false (run_command "redouble").
Definition reject : handler := game_required false (run_command "reject").
Definition resign : handler := game_required true (run_command "resign").

Definition quit_body : inner_handler :=
  fun fuel params sp player opponent worker =>
    on_proc worker (GnubgWorker.quit fuel) ;;;
    (fun st =>
       let key := if Dict.mem (player, opponent) (workers st)
                  then (player, opponent) else (opponent, player) in
       match Dict.del key (workers st) with
       | None => (Raised KeyError, st)
       | Some ws => (Ok tt, set_workers ws st)
       end) ;;;
    let slack_out := SlackTemplate.Quit player opponent in
    IncomingWebhook.post slack_out (channel_id sp) ;;;
    ret (Response None).

Definition quit : handler := game_required false quit_body.

End GnubgManager.

(** ** The commands the dispatcher can reach *)

Inductive cmd : Type :=
| Chelp | Cinfo | Cnew | Cmove | Cdouble | Croll
| Caccept | Credouble | Creject | Cresign | Cquit.

(** [getattr(gnubg_manager, gnubg_command)] *)
Definition handler_of (c : cmd) : GnubgManager.handler :=
  match c with
  | Chelp => GnubgManager.help
  | Cinfo => GnubgManager.info
  | Cnew => GnubgManager.new
  | Cmove => GnubgManager.move
  | Cdouble => GnubgManager.double
  | Croll => GnubgManager.roll
  | Caccept => GnubgManager.accept
  | Credouble => GnubgManager.redouble
  | Creject => GnubgManager.reject
  | Cresign => GnubgManager.resign
  | Cquit => GnubgManager.quit
  end.

(** ** The dispatcher *)

Definition REQUIRED_SLACK_PARAMS : list string :=
  ["user_id"; "user_name"; "channel_id"].

Module Form.

(** The posted form, a multi-dict: [k in values] and [values[k]], which is
    the first value under [k]. *)
Fixpoint get (k : string) (values : list (string * string)) : option string :=
  match values with
  | [] => None
  | (k', v) :: r => if k' =? k then Some v else get k r
  end.

(** [values.get(k, default)] *)
Definition get_default (k default : string) (values : list (string * string)) : string :=
  match get k values with Some v => v | None => default end.

End Form.

(** The loop over [REQUIRED_SLACK_PARAMS] that fills the dict
    [slack_params]: [inl k] is the first [k] that the form lacks. *)
Fixpoint required_params (ks : list string) (values : list (string * string))
  (filled : list (string * string)) : string + list (string * string) :=
  match ks with
  | [] => inr filled
  | k :: more =>
      match Form.get k values with
      | None => inl k
      | Some v => required_params more values (filled ++ [(k, v)])%list
      end
  end.

(** the dict [slack_params] as the handlers read it, by its three keys *)
Definition slack_params_of (filled : list (string * string)) : slack_params :=
  mkSlack (Form.get_default "user_id" "" filled)
          (Form.get_default "user_name" "" filled)
          (Form.get_default "channel_id" "" filled).

(** the methods of [GnubgManager] that bear the name of a command *)
Definition cmd_named (name : string) : option cmd :=
  if name =? "help" then Some Chelp
  else if name =? "info" then Some Cinfo
  else if name =? "new" then Some Cnew
  else if name =? "move" then Some Cmove
  else if name =? "double" then Some Cdouble
  else if name =? "roll" then Some Croll
  else if name =? "accept" then Some Caccept
  else if name =? "redouble" then Some Credouble
  else if name =? "reject" then Some Creject
  else if name =? "resign" then Some Cresign
  else if name =? "quit" then Some Cquit
  else None.

(** what the dispatcher comes to: the outcome of what it ran, or the
    [AttributeError] of a [getattr] that finds no method *)
Inductive served : Type :=
| Handled (r : result response)
| AttributeError.

(** [slackgammon(request)], with [config.slash_token] and the posted form *)
Definition slackgammon (slash_token : string) (values : list (string * string))
  (fuel : nat) (st : State) : served * State :=
  match Form.get "token" values with
  | None => (Handled (Ok (HTTPForbidden "Missing or invalid token.")), st)
  | Some token =>
      if negb (token =? slash_token)
      then (Handled (Ok (HTTPForbidden "Missing or invalid token.")), st)
      else
        match required_params REQUIRED_SLACK_PARAMS values [] with
        | inl k =>
            (Handled (Ok (HTTPBadRequest ("Missing required Slack parameter: " ++ k))), st)
        | inr filled =>
            let gnubg_params := Py.split (Form.get_default "text" "" values) in
            match gnubg_params with
            | [] => (Handled (Ok (HTTPBadRequest "No command provided.")), st)
            | gnubg_command :: rest =>
                if negb (existsb (fun c => fst c =? gnubg_command) GnubgManager.COMMANDS)
                then (Handled (Ok (HTTPBadRequest "Invalid command.")), st)
                else
                  match cmd_named gnubg_command with
                  | None => (AttributeError, st)
                  | Some c =>
                      let (r, st') := handler_of c fuel rest (slack_params_of filled) st in
                      (Handled r, st')
                  end
            end
        end
  end.

(** ** Vocabulary of the statements *)

(** A bounded readline that ends the iteration: a timeout, or the empty
    read of an ended stream. *)
Definition stops (o : read_outcome) : bool :=
  match o with
  | Returned line => negb (Py.truthy line)
  | TimedOut => true
  end.

(** The process never prints [fuel] lines in a row without a pause or the
    end of its output: every drain by [StreamReadlines] ends within [fuel]
    reads. *)
Definition responsive (fuel : nat) (p : Process) : Prop :=
  forall n, exists k, k < fuel /\ stops (tape p (n + k)) = true.

(** what [writeline text] puts on the standard input of the engine *)
Definition sent (text : string) : string := text ++ LF.

(** [p] after [n] more bounded readlines *)
Definition advance (n : nat) (p : Process) : Process :=
  mkProcess (stdin_log p) (tape p) (reads p + n) (exited p) (exits_in_grace p) (killed p).

(** the lines the next drain of [p] collects *)
Definition next_response (fuel : nat) (p : Process) : option (list string) :=
  fst (StreamReadlines.collect fuel p).

(** the process after [command fuel c]: the line is written, the answer
    is drained *)
Definition asked (fuel : nat) (c : string) (p : Process) : Process :=
  GnubgWorker.write (sent c) (snd (StreamReadlines.collect fuel p)).

(** whether the engine, asked for the turn after [cmdline] was run, says
    that no game is on *)
Definition retires (fuel : nat) (cmdline : string) (p : Process) : bool :=
  match next_response fuel (asked fuel cmdline p) with
  | Some lines => Py.startswith (Py.join "" lines) "No game"
  | None => false
  end.

(** the state in which the process behind [h] has become [p] *)
Definition put (h : nat) (p : Process) (st : State) : State :=
  set_procs (replace_nth h p (procs st)) st.

(** a computation that leaves the dict of sessions as it found it *)
Definition keeps_workers {A} (m : M State A) : Prop :=
  forall st, workers (snd (m st)) = workers st.

(** the lines [new] sends to the engine it has started *)
Definition opening_lines (user challenged : string) : list string :=
  (sent ("set player 1 name " ++ user)
   :: (if negb (challenged =? "gnubg")
       then [sent "set player 0 human"; sent ("set player 0 name " ++ challenged)]
       else []) ++ [sent "new game"])%list.

(** a text with no token: empty, or blank characters only *)
Fixpoint blank (s : string) : bool :=
  match s with
  | EmptyString => true
  | String c r => Py.isspace c && blank r
  end.

(** The gating policy as the specification words it. *)
Inductive gate : Type := TurnGated | SessionGated | Ungated.

Definition policy (c : cmd) : gate :=
  match c with
  | Cmove | Croll | Cdouble | Cresign => TurnGated
  | Caccept | Credouble | Creject | Cquit => SessionGated
  | Chelp | Cinfo | Cnew => Ungated
  end.

(** the sessions of [user]: the entries of the dict whose key names them *)
Definition sessions_of (user : string) (ws : list (player_pair * nat)) : list (player_pair * nat) :=
  filter (fun psw : player_pair * nat => GnubgManager.is_in user (fst psw)) ws.

(** the dict without the first session of [user] *)
Fixpoint drop_session_of (user : string) (ws : list (player_pair * nat)) : list (player_pair * nat) :=
  match ws with
  | [] => []
  | e :: r => if GnubgManager.is_in user (fst e) then r else e :: drop_session_of user r
  end.

(** the claim that nobody plays in two sessions at once *)
Definition one_session_each (ws : list (player_pair * nat)) : Prop :=
  forall user, List.length (sessions_of user ws) <= 1.

(** a handler that, when it answers, answers with the empty 200 *)
Definition answers_200 (m : M State response) : Prop :=
  forall st r, fst (m st) = Ok r -> r = Response None.

(** The states of a server that serves its requests one after the other:
    it starts with no session and no subprocess, and every request runs
    one handler to its end (a handler that raises leaves the state it had
    reached) before the next one is taken up. *)
Inductive reachable : State -> Prop :=
| reach_start (max : Z) (sp : nat -> option Process) :
    reachable (mkState max [] [] sp [])
| reach_request (st : State) (c : cmd) (fuel : nat) (params : list string)
    (caller : slack_params) :
    reachable st ->
    reachable (snd (handler_of c fuel params caller st)).

(** ** Vocabulary of the further properties *)

(** from position [start] on, the engine prints [lines], one per bounded
    read, and then pauses or ends *)
Definition answers_with (p : Process) (start : nat) (lines : list string) : Prop :=
  Forall (fun line => Py.truthy line = true) lines
  /\ (forall i, i < List.length lines -> tape p (start + i) = Returned (nth i lines ""))
  /\ stops (tape p (start + List.length lines)) = true.

(** the name under which the dispatcher finds a command *)
Definition cmd_name (c : cmd) : string :=
  match c with
  | Chelp => "help" | Cinfo => "info" | Cnew => "new" | Cmove => "move"
  | Cdouble => "double" | Croll => "roll" | Caccept => "accept"
  | Credouble => "redouble" | Creject => "reject" | Cresign => "resign"
  | Cquit => "quit"
  end.

(** a computation whose every step keeps the relation [R] to the state it
    started from *)
Definition respects {A} (R : State -> State -> Prop) (m : M State A) : Prop :=
  forall st, R st (snd (m st)).

(** nothing was posted *)
Definition same_posts (st st' : State) : Prop := posts st' = posts st.

(** the configuration is the same *)
Definition same_config (st st' : State) : Prop :=
  max_games st' = max_games st /\ spawner st' = spawner st.

(** no process but the one behind [h] has changed, and none was started *)
Definition procs_only (h : nat) (st st' : State) : Prop :=
  List.length (procs st') = List.length (procs st)
  /\ forall h', h' <> h -> nth_error (procs st') h' = nth_error (procs st) h'.

(** the first [n] processes of the table are as they were *)
Definition procs_below (n : nat) (st st' : State) : Prop :=
  n <= List.length (procs st) ->
  n <= List.length (procs st')
  /\ forall h', h' < n -> nth_error (procs st') h' = nth_error (procs st) h'.

(** every session has a process of the table for its engine, and no two
    sessions have the same one *)
Definition workers_sound (st : State) : Prop :=
  Forall (fun e : player_pair * nat => snd e < List.length (procs st)) (workers st)
  /\ NoDup (map (fun e : player_pair * nat => snd e) (workers st)).

(** the line feed, as a character *)
Definition LF_char : ascii := ascii_of_nat 10.

(** [game_required] from the turn query on, once the session of the caller
    and the opponent are found *)
Definition after_lookup (turn_required : bool) (f : GnubgManager.inner_handler)
  (fuel : nat) (params : list string) (sp : slack_params) (opponent : string)
  (worker : nat) : M State response :=
  lines <- on_proc worker (GnubgWorker.command fuel "show turn") ;;
  match Py.split (Py.join "" lines) with
  | [] => raise IndexError
  | turn :: _ =>
      if turn_required && negb (turn =? user_name sp)
      then ret (HTTPForbidden "It's not your turn!")
      else f fuel params sp (user_name sp) opponent worker
  end.

(** the dict lost one key or is as it was *)
Definition dict_shrinks (ws ws' : list (player_pair * nat)) : Prop :=
  ws' = ws \/ exists k, Dict.del k ws = Some ws'.

(** a handler that, when it answers with the empty 200, has posted one
    message, to the channel [channel] *)
Definition announces (channel : string) (m : M State response) : Prop :=
  forall st,
    fst (m st) = Ok (Response None) ->
    exists text, posts (snd (m st)) = (posts st ++ [(channel, text)])%list.

(** between the two states only the engine behind [h], the dict and the
    posts may differ *)
Definition engine_only (h : nat) (st st' : State) : Prop :=
  same_config st st' /\ procs_only h st st'.

(** [new] from the point where the engine is started and the session is
    registered *)
Definition new_after_start (fuel : nat) (sp : slack_params) (challenged : string)
  (worker : nat) : M State response :=
  on_proc worker (GnubgWorker.command fuel ("set player 1 name " ++ user_name sp)) ;;;
  (if negb (challenged =? "gnubg")
   then on_proc worker (GnubgWorker.command fuel "set player 0 human") ;;;
        on_proc worker (GnubgWorker.command fuel ("set player 0 name " ++ challenged)) ;;;
        ret tt
   else ret tt) ;;;
  gnubg_output <- on_proc worker (GnubgWorker.command fuel "new game") ;;
  let slack_out :=
    SlackTemplate.NewGame (user_name sp) challenged (Py.join "" gnubg_output) in
  IncomingWebhook.post slack_out (channel_id sp) ;;;
  ret (Response None).

(** a request that the dispatcher turns down itself *)
Definition turned_down (s : served) : Prop :=
  exists msg, s = Handled (Ok (HTTPForbidden msg)) \/ s = Handled (Ok (HTTPBadRequest msg)).

(** the line that [run_command] makes of the name of a command and of the
    parameters of the request *)
Definition command_line (name : string) (params : list string) : string :=
  Py.join " " (name :: params).

(** a word: not empty and free of blank characters *)
Fixpoint unbroken (s : string) : bool :=
  match s with
  | EmptyString => true
  | String c r => negb (Py.isspace c) && unbroken r
  end.

Definition word (s : string) : Prop := s <> "" /\ unbroken s = true.

(** the characters of a text *)
Fixpoint chars (s : string) : list ascii :=
  match s with
  | EmptyString => []
  | String c r => c :: chars r
  end.

(** a computation that raises nothing and keeps the handle [h] inside the
    table of processes, when it starts with [h] inside *)
Definition calm (h : nat) {A} (m : M State A) : Prop :=
  forall st,
    h < List.length (procs st) ->
    (forall e, fst (m st) <> Raised e) /\ h < List.length (procs (snd (m st))).

(** a method of the worker that raises nothing *)
Definition quiet {A} (f : M Process A) : Prop :=
  forall p e, fst (f p) <> Raised e.

(** the engine [engine] as [new] leaves it, for the caller [user] and the
    opponent [challenged]: the banner is drained and the opening lines are
    sent, each with its answer drained *)
Definition opened (fuel : nat) (user challenged : string) (engine : Process) : Process :=
  let p1 := snd (StreamReadlines.collect fuel (GnubgWorker.fresh engine)) in
  let p2 := asked fuel ("set player 1 name " ++ user) p1 in
  let p3 := if negb (challenged =? "gnubg")
            then asked fuel ("set player 0 name " ++ challenged)
                       (asked fuel "set player 0 human" p2)
            else p2 in
  asked fuel "new game" p3.

(** ** Concrete engines and states used by the examples *)

(** an engine whose bounded reads have the outcomes [l], in this order, and
    that stays silent afterwards *)
Definition tape_of (l : list read_outcome) : nat -> read_outcome :=
  fun n => nth n l TimedOut.

(** a running gnubg that answers nothing at all *)
Definition mute : Process := mkProcess [] (tape_of []) 0 false false false.

(** the same engine, willing to exit when told to quit *)
Definition polite : Process := mkProcess [] (tape_of []) 0 false true false.

Definition alice : slack_params := mkSlack "U01" "alice" "C01".
Definition bob : slack_params := mkSlack "U02" "bob" "C01".
Definition carol : slack_params := mkSlack "U03" "carol" "C01".

(** a server that allows [max] games and whose engines are all [engine] *)
Definition server (max : Z) (engine : Process) : State :=
  mkState max [] [] (fun _ => Some engine) [].

(** alice, then bob, each start a game against gnubg *)
Definition two_against_gnubg : State :=
  snd (handler_of Cnew 1 [] bob (snd (handler_of Cnew 1 [] alice (server 2 mute)))).

(** alice has challenged bob; two games are allowed *)
Definition alice_challenged_bob : State :=
  snd (handler_of Cnew 1 ["@bob"] alice (server 2 mute)).

(** alice challenges bob; carol challenges bob as well *)
Definition bob_challenged_twice : State :=
  snd (handler_of Cnew 1 ["@bob"] carol
         (snd (handler_of Cnew 1 ["@bob"] alice (server 2 mute)))).

(** alice plays gnubg on a server that allows one game *)
Definition alice_plays : State :=
  snd (handler_of Cnew 1 [] alice (server 1 mute)).

(** an engine in the middle of a game: asked whose turn it is, it names
    gnubg; later reads find it silent *)
Definition gnubg_to_move : Process :=
  mkProcess [] (tape_of [Returned ("gnubg is on roll." ++ LF)]) 0 false false false.

(** alice plays gnubg and it is gnubg's turn *)
Definition waiting_for_gnubg : State :=
  mkState 1 [(("alice", "gnubg"), 0)] [gnubg_to_move] (fun _ => None) [].

(** A gnubg that prints its banner, is silent when a player is named,
    prints the board of the new game, says that alice is on roll, accepts
    her resignation, says that no game is on, and exits when told to. *)
Definition gnubg_script : list read_outcome :=
  [ Returned ("GNU Backgammon" ++ LF); TimedOut;
    TimedOut;
    Returned ("The score is: gnubg 0, alice 0" ++ LF); TimedOut;
    Returned ("alice is on roll." ++ LF); TimedOut;
    Returned ("gnubg accepts and wins a single game." ++ LF); TimedOut;
    Returned ("No game is being played." ++ LF); TimedOut ].

Definition gnubg_engine : Process :=
  mkProcess [] (tape_of gnubg_script) 0 false true false.

(** alice has started a game against gnubg; two games are allowed *)
Definition alice_game : State :=
  snd (handler_of Cnew 12 [] alice (server 2 gnubg_engine)).

(** the engine of that game, as [new] left it *)
Definition alice_engine : Process := nth 0 (procs alice_game) mute.

(** alice has resigned, gnubg has accepted, the game is over *)
Definition after_resign : State :=
  snd (handler_of Cresign 12 [] alice alice_game).

(** the engine of alice on the one-game server, which never answers *)
Definition silent_engine : Process := nth 0 (procs alice_plays) mute.

(** an engine that prints two lines and closes its output *)
Definition closing_engine : Process :=
  mkProcess [] (tape_of [Returned ("one" ++ LF); Returned ("two" ++ LF); Returned ""])
            0 true false false.

(** ** Further engines, states and requests *)

(** an engine that is too slow for the first command that it is sent and
    whose answer is there for the second *)
Definition slow_engine : Process :=
  mkProcess [] (tape_of [TimedOut; Returned ("alice is on roll." ++ LF)]) 0 false false false.

(** the engine of bob's game in [two_against_gnubg] *)
Definition bob_engine : Process := nth 1 (procs two_against_gnubg) mute.

(** alice has challenged herself *)
Definition alice_alone : State :=
  snd (handler_of Cnew 1 ["@alice"] alice (server 2 mute)).

(** a request of alice, as Slack posts it *)
Definition request_of_alice (text : string) : list (string * string) :=
  [("token", "s3cret"); ("user_id", "U01"); ("user_name", "alice");
   ("channel_id", "C01"); ("text", text)].

(** a server on which no game is allowed, and one without a limit *)
Definition closed_server : State := server 0 mute.
Definition unlimited_server : State := server (-1) mute.

(** an engine in a game in which alice is on roll *)
Definition alice_to_move : Process :=
  mkProcess [] (tape_of [Returned ("alice is on roll." ++ LF)]) 0 false false false.

(** The dict that two requests served at the same time leave behind:
    alice's [new @bob] and bob's [new @alice] have each passed the check
    of the caller before the other one registered its session. *)
Definition crossed_sessions : State :=
  mkState 2 [(("alice", "bob"), 0); (("bob", "alice"), 1)]
          [alice_to_move; alice_to_move] (fun _ => None) [].

(** an engine that prints line after line and never pauses *)
Definition chatty : Process :=
  mkProcess [] (fun _ => Returned ("gnubg is on roll." ++ LF)) 0 false false false.

(** alice plays gnubg on that engine *)
Definition alice_vs_chatty : State :=
  mkState 1 [(("alice", "gnubg"), 0)] [chatty] (fun _ => None) [].

(** a no-break space, U+00A0 *)
Definition NBSP : string := String (ascii_of_nat 160) "".

(** an engine that answers with a line that holds a no-break space and
    nothing else *)
Definition blank_engine : Process :=
  mkProcess [] (tape_of [Returned (NBSP ++ LF)]) 0 false false false.

(** alice plays gnubg on that engine *)
Definition alice_vs_blank : State :=
  mkState 1 [(("alice", "gnubg"), 0)] [blank_engine] (fun _ => None) [].

(** * Properties *)

(** ** The reader *)

Section Reader.

Import StreamReadlines.

Lemma advance_0 (p : Process) : advance 0 p = p.
Proof.
  destruct p; unfold advance; simpl. now rewrite Nat.add_0_r.
Qed.

Lemma advance_advance (a b : nat) (p : Process) :
  advance a (advance b p) = advance (b + a) p.
Proof.
  unfold advance; simpl. now rewrite Nat.add_assoc.
Qed.

Lemma anext_line (p : Process) (line : string) :
  tape p (reads p) = Returned line -> Py.truthy line = true ->
  anext p = (Some line, advance 1 p).
Proof.
  intros Ht Hl. unfold anext, wait_for_readline. rewrite Ht, Hl.
  unfold advance. now rewrite Nat.add_1_r.
Qed.

Lemma anext_stop (p : Process) :
  stops (tape p (reads p)) = true -> anext p = (None, advance 1 p).
Proof.
  intros Hs. unfold anext, wait_for_readline, advance. rewrite Nat.add_1_r.
  destruct (tape p (reads p)) as [line|]; simpl in *; [|reflexivity].
  destruct (Py.truthy line); [discriminate|reflexivity].
Qed.

Lemma anext_cases (p : Process) :
  (exists line, tape p (reads p) = Returned line /\ Py.truthy line = true)
  \/ stops (tape p (reads p)) = true.
Proof.
  destruct (tape p (reads p)) as [line|] eqn:E; simpl.
  - destruct (Py.truthy line) eqn:T; [left; eauto | now right].
  - now right.
Qed.

Lemma collect_lines (lines : list string) :
  forall (fuel : nat) (p : Process),
    List.length lines < fuel ->
    (forall i, i < List.length lines -> tape p (reads p + i) = Returned (nth i lines "")) ->
    Forall (fun line => Py.truthy line = true) lines ->
    stops (tape p (reads p + List.length lines)) = true ->
    collect fuel p = (Some lines, advance (S (List.length lines)) p).
Proof.
  induction lines as [|l ls IH]; intros fuel p Hf Ht Hne Hstop.
  - destruct fuel as [|fuel]; [simpl in Hf; lia|]. simpl in *.
    rewrite Nat.add_0_r in Hstop. now rewrite (anext_stop p Hstop).
  - destruct fuel as [|fuel]; [simpl in Hf; lia|].
    inversion Hne as [|? ? Hl Hls]; subst.
    assert (H0 : tape p (reads p) = Returned l).
    { specialize (Ht 0). simpl in Ht. rewrite Nat.add_0_r in Ht. apply Ht. lia. }
    cbn [collect]. rewrite (anext_line p l H0 Hl).
    rewrite (IH fuel (advance 1 p)).
    + rewrite advance_advance. reflexivity.
    + simpl in Hf. lia.
    + intros i Hi. simpl. replace (reads p + 1 + i) with (reads p + S i) by lia.
      apply (Ht (S i)). simpl. lia.
    + exact Hls.
    + simpl. simpl in Hstop.
      replace (reads p + 1 + List.length ls) with (reads p + S (List.length ls)) by lia.
      exact Hstop.
Qed.

Lemma collect_ends (fuel : nat) :
  forall p : Process,
    (exists k, k < fuel /\ stops (tape p (reads p + k)) = true) ->
    exists lines, collect fuel p = (Some lines, advance (S (List.length lines)) p).
Proof.
  induction fuel as [|fuel IH]; intros p [k [Hk Hs]]; [lia|].
  cbn [collect]. destruct (anext_cases p) as [[line [Ht Hl]]|Hstop].
  - rewrite (anext_line p line Ht Hl).
    destruct k as [|k].
    { rewrite Nat.add_0_r, Ht in Hs. simpl in Hs. rewrite Hl in Hs. discriminate. }
    destruct (IH (advance 1 p)) as [lines Hc].
    { exists k. split; [lia|]. simpl.
      replace (reads p + 1 + k) with (reads p + S k) by lia. exact Hs. }
    rewrite Hc. exists (line :: lines). rewrite advance_advance. reflexivity.
  - rewrite (anext_stop p Hstop). exists []. reflexivity.
Qed.

Lemma collect_responsive (fuel : nat) (p : Process) :
  responsive fuel p ->
  exists lines, collect fuel p = (Some lines, advance (S (List.length lines)) p).
Proof.
  intros H. apply collect_ends. apply H.
Qed.

(** What a drain collects depends on the tape and on the position only, and
    a drain moves nothing but the position. *)
Lemma collect_write (fuel : nat) (text : string) :
  forall p : Process,
    collect fuel (GnubgWorker.write text p)
    = (fst (collect fuel p), GnubgWorker.write text (snd (collect fuel p))).
Proof.
  induction fuel as [|fuel IH]; intros p; [reflexivity|].
  cbn [collect]. unfold anext, wait_for_readline. simpl.
  destruct (tape p (reads p)) as [line|]; [|reflexivity].
  destruct (Py.truthy line); [|reflexivity].
  assert (E := IH (mkProcess (stdin_log p) (tape p) (S (reads p)) (exited p)
                            (exits_in_grace p) (killed p))).
  remember (collect fuel (mkProcess (stdin_log p) (tape p) (S (reads p)) (exited p)
                            (exits_in_grace p) (killed p))) as r eqn:Er.
  unfold GnubgWorker.write in E. simpl in E. rewrite E.
  destruct r as [[lines|] p']; reflexivity.
Qed.

(** C8. One run of the reader over a stream: the lines that arrive in
    time, one per bounded read, are all yielded and in the order of their
    arrival; the run ends, without an error, at the first read that times
    out and just as well at the first empty read (end of stream), and it
    does no read after that one. *)
Theorem reader_yields_lines_then_stops
  (fuel : nat) (p : Process) (lines : list string) :
  Forall (fun line => Py.truthy line = true) lines ->
  (forall i, i < List.length lines -> tape p (reads p + i) = Returned (nth i lines "")) ->
  tape p (reads p + List.length lines) = TimedOut
  \/ tape p (reads p + List.length lines) = Returned "" ->
  List.length lines < fuel ->
  collect fuel p = (Some lines, advance (S (List.length lines)) p).
Proof.
  intros Hne Ht Hend Hf. apply collect_lines; auto.
  destruct Hend as [E|E]; rewrite E; reflexivity.
Qed.

Lemma reader_yields_lines_then_stops_witness :
  collect 3 closing_engine
  = (Some ["one" ++ LF; "two" ++ LF], advance 3 closing_engine).
Proof.
  apply (reader_yields_lines_then_stops 3 closing_engine ["one" ++ LF; "two" ++ LF]).
  - repeat constructor.
  - intros i Hi. destruct i as [|[|i]]; [reflexivity | reflexivity | simpl in Hi; lia].
  - right. reflexivity.
  - simpl. lia.
Defined.

End Reader.

(** ** The worker *)

Section Worker.

Import GnubgWorker.

Lemma responsive_tape (fuel : nat) (p q : Process) :
  tape q = tape p -> responsive fuel p -> responsive fuel q.
Proof.
  intros E H n. rewrite E. apply H.
Qed.

Lemma responsive_tape_of (l : list read_outcome) (fuel : nat) (p : Process) :
  tape p = tape_of l -> List.length l < fuel -> responsive fuel p.
Proof.
  intros E Hl n. rewrite E. unfold tape_of.
  destruct (Nat.le_gt_cases (List.length l) n) as [Hn|Hn].
  - exists 0. split; [lia|]. rewrite Nat.add_0_r.
    rewrite nth_overflow by exact Hn. reflexivity.
  - exists (List.length l - n). split; [lia|].
    rewrite nth_overflow by lia. reflexivity.
Qed.

Lemma command_run (fuel : nat) (c : string) (p : Process) :
  responsive fuel p ->
  exists lines,
    next_response fuel p = Some lines
    /\ command fuel c p = (Ok lines, write (c ++ LF) (advance (S (List.length lines)) p)).
Proof.
  intros Hr. destruct (collect_responsive fuel p Hr) as [lines Hc].
  exists lines. split.
  - unfold next_response. now rewrite Hc.
  - unfold command, bind, writeline, readlines.
    rewrite collect_write, Hc. reflexivity.
Qed.

(** the process [quit] leaves behind, when both of its drains end *)
Lemma quit_run (fuel : nat) (p : Process) :
  responsive fuel p ->
  exists n,
    quit fuel p =
    (Ok tt,
     mkProcess (stdin_log p ++ [sent "quit"; sent "y"])%list (tape p) (reads p + n)
               (exited p || negb (terminated p) && exits_in_grace p)
               (exits_in_grace p)
               (killed p || negb (terminated p) && negb (exits_in_grace p))).
Proof.
  intros Hr.
  destruct (command_run fuel "quit" p Hr) as [l1 [_ E1]].
  set (p1 := write ("quit" ++ LF) (advance (S (List.length l1)) p)) in *.
  assert (Hr1 : responsive fuel p1) by (apply (responsive_tape fuel p); [reflexivity|exact Hr]).
  destruct (command_run fuel "y" p1 Hr1) as [l2 [_ E2]].
  exists (S (List.length l1) + S (List.length l2)).
  unfold quit, bind at 1. rewrite E1. unfold bind at 1. rewrite E2.
  unfold bind, wait_for_wait, kill, terminated, ret, write, advance, p1; simpl.
  rewrite <- app_assoc. unfold sent. simpl.
  destruct (exited p), (killed p), (exits_in_grace p); simpl;
    apply f_equal; f_equal; lia.
Qed.

(** C9. [GnubgWorker.quit] on a worker whose engine lets the two drains
    end: it writes [quit] and then [y], nothing else; it returns without an
    error and leaves the process gone; a process that was running and exits
    inside the bounded wait is not killed, one that does not is killed; a
    process that was already gone is neither waited for nor killed, so a
    second call is as harmless as the first. *)
Theorem worker_quit_terminates (fuel : nat) (p : Process) :
  responsive fuel p ->
  exists p',
    quit fuel p = (Ok tt, p')
    /\ stdin_log p' = (stdin_log p ++ [sent "quit"; sent "y"])%list
    /\ terminated p' = true
    /\ (terminated p = false -> exits_in_grace p = true ->
        exited p' = true /\ killed p' = false)
    /\ (terminated p = false -> exits_in_grace p = false ->
        killed p' = true /\ exited p' = false)
    /\ (terminated p = true -> exited p' = exited p /\ killed p' = killed p)
    /\ exists p'',
         quit fuel p' = (Ok tt, p'')
         /\ exited p'' = exited p' /\ killed p'' = killed p'.
Proof.
  intros Hr. destruct (quit_run fuel p Hr) as [n E].
  eexists. split; [exact E|]. simpl.
  split; [reflexivity|].
  assert (T : forall b c d : bool,
             (b || negb (b || d) && c) || (d || negb (b || d) && negb c) = true)
    by (intros [] [] []; reflexivity).
  split; [apply T|].
  unfold terminated.
  split; [intros Ht Hg; rewrite Ht, Hg; simpl;
          destruct (exited p), (killed p); simpl in *; try discriminate; auto|].
  split; [intros Ht Hg; rewrite Ht, Hg; simpl;
          destruct (exited p), (killed p); simpl in *; try discriminate; auto|].
  split; [intros Ht; rewrite Ht; simpl; now rewrite !orb_false_r|].
  match goal with |- exists _, quit fuel ?q = _ /\ _ => set (p1 := q) end.
  assert (Hr1 : responsive fuel p1) by (apply (responsive_tape fuel p); [reflexivity|exact Hr]).
  destruct (quit_run fuel p1 Hr1) as [m E1].
  eexists. split; [exact E1|]. simpl.
  assert (Tp : terminated p1 = true) by (unfold terminated, p1; simpl; apply T).
  rewrite Tp. simpl. now rewrite !orb_false_r.
Qed.

Lemma worker_quit_terminates_witness :
  responsive 1 mute
  /\ exists p',
    quit 1 mute = (Ok tt, p')
    /\ stdin_log p' = (stdin_log mute ++ [sent "quit"; sent "y"])%list
    /\ terminated p' = true
    /\ (terminated mute = false -> exits_in_grace mute = true ->
        exited p' = true /\ killed p' = false)
    /\ (terminated mute = false -> exits_in_grace mute = false ->
        killed p' = true /\ exited p' = false)
    /\ (terminated mute = true -> exited p' = exited mute /\ killed p' = killed mute)
    /\ exists p'',
         quit 1 p' = (Ok tt, p'')
         /\ exited p'' = exited p' /\ killed p'' = killed p'.
Proof.
  assert (H : responsive 1 mute)
    by (apply (responsive_tape_of [] 1 mute); [reflexivity | simpl; lia]).
  split; [exact H | exact (worker_quit_terminates 1 mute H)].
Defined.

End Worker.

(** ** Handles and the process table *)

Section Table.

Context {A : Type}.

Lemma nth_error_replace_nth (l : list A) :
  forall (h : nat) (a b : A),
    nth_error l h = Some a -> nth_error (replace_nth h b l) h = Some b.
Proof.
  induction l as [|x l IH]; intros [|h] a b H; simpl in *; try discriminate; eauto.
Qed.

Lemma nth_error_replace_nth_other (l : list A) :
  forall (h h' : nat) (b : A),
    h <> h' -> nth_error (replace_nth h b l) h' = nth_error l h'.
Proof.
  induction l as [|x l IH]; intros [|h] [|h'] b H; simpl; try reflexivity;
    try congruence. apply IH. congruence.
Qed.

Lemma replace_nth_twice (l : list A) :
  forall (h : nat) (a b : A),
    replace_nth h b (replace_nth h a l) = replace_nth h b l.
Proof.
  induction l as [|x l IH]; intros [|h] a b; simpl; try reflexivity. now rewrite IH.
Qed.

Lemma replace_nth_length (l : list A) :
  forall (h : nat) (a : A), List.length (replace_nth h a l) = List.length l.
Proof.
  induction l as [|x l IH]; intros [|h] a; simpl; try reflexivity. now rewrite IH.
Qed.

End Table.

Section Frame.

Lemma on_proc_at {A} (h : nat) (f : M Process A) (st : State) (p : Process) :
  nth_error (procs st) h = Some p ->
  on_proc h f st = (fst (f p), put h (snd (f p)) st).
Proof.
  intros H. unfold on_proc. rewrite H. now destruct (f p).
Qed.

Lemma put_lookup (h : nat) (p q : Process) (st : State) :
  nth_error (procs st) h = Some p -> nth_error (procs (put h q st)) h = Some q.
Proof.
  intros H. unfold put; simpl. eapply nth_error_replace_nth; eauto.
Qed.

Lemma put_put (h : nat) (p q : Process) (st : State) :
  put h q (put h p st) = put h q st.
Proof.
  unfold put, set_procs; simpl. now rewrite replace_nth_twice.
Qed.

Lemma command_eq (fuel : nat) (c : string) (p : Process) :
  GnubgWorker.command fuel c p
  = (match next_response fuel p with Some lines => Ok lines | None => Unfinished end,
     asked fuel c p).
Proof.
  unfold GnubgWorker.command, bind, GnubgWorker.writeline, GnubgWorker.readlines,
    next_response, asked, sent.
  rewrite collect_write.
  destruct (StreamReadlines.collect fuel p) as [[lines|] p']; reflexivity.
Qed.

Lemma asked_tape (fuel : nat) (c : string) (p : Process) :
  tape (asked fuel c p) = tape p.
Proof.
  unfold asked; simpl. revert p.
  induction fuel as [|fuel IH]; intros p; [reflexivity|].
  cbn [StreamReadlines.collect]. unfold StreamReadlines.anext, StreamReadlines.wait_for_readline.
  destruct (tape p (reads p)) as [line|]; [|reflexivity].
  destruct (Py.truthy line); [|reflexivity].
  specialize (IH (mkProcess (stdin_log p) (tape p) (S (reads p)) (exited p)
                            (exits_in_grace p) (killed p))).
  destruct (StreamReadlines.collect fuel _) as [[lines|] p']; exact IH.
Qed.

Lemma asked_responsive (fuel : nat) (c : string) (p : Process) :
  responsive fuel p -> responsive fuel (asked fuel c p).
Proof.
  apply responsive_tape. apply asked_tape.
Qed.

Lemma responsive_answers (fuel : nat) (p : Process) :
  responsive fuel p -> exists lines, next_response fuel p = Some lines.
Proof.
  intros Hr. destruct (collect_responsive fuel p Hr) as [lines E].
  exists lines. unfold next_response. now rewrite E.
Qed.

(** what a drain leaves untouched *)
Lemma asked_fields (fuel : nat) (c : string) (p : Process) :
  stdin_log (asked fuel c p) = (stdin_log p ++ [sent c])%list
  /\ exited (asked fuel c p) = exited p
  /\ exits_in_grace (asked fuel c p) = exits_in_grace p
  /\ killed (asked fuel c p) = killed p.
Proof.
  unfold asked; simpl.
  assert (H : forall p, stdin_log (snd (StreamReadlines.collect fuel p)) = stdin_log p
            /\ exited (snd (StreamReadlines.collect fuel p)) = exited p
            /\ exits_in_grace (snd (StreamReadlines.collect fuel p)) = exits_in_grace p
            /\ killed (snd (StreamReadlines.collect fuel p)) = killed p).
  { clear p. induction fuel as [|fuel IH]; intros p; [simpl; auto|].
    cbn [StreamReadlines.collect].
    unfold StreamReadlines.anext, StreamReadlines.wait_for_readline.
    destruct (tape p (reads p)) as [line|]; [|simpl; auto].
    destruct (Py.truthy line); [|simpl; auto].
    specialize (IH (mkProcess (stdin_log p) (tape p) (S (reads p)) (exited p)
                              (exits_in_grace p) (killed p))).
    destruct (StreamReadlines.collect fuel _) as [[lines|] p']; exact IH. }
  destruct (H p) as [H1 [H2 [H3 H4]]]. rewrite H1. auto.
Qed.

Lemma keeps_ret {A} (a : A) : keeps_workers (ret a).
Proof. intros st. reflexivity. Qed.

Lemma keeps_raise {A} (e : exn) : keeps_workers (@raise State A e).
Proof. intros st. reflexivity. Qed.

Lemma keeps_on_proc {A} (h : nat) (f : M Process A) : keeps_workers (on_proc h f).
Proof.
  intros st. unfold on_proc. destruct (nth_error (procs st) h); [|reflexivity].
  now destruct (f p).
Qed.

Lemma keeps_post (message channel : string) :
  keeps_workers (IncomingWebhook.post message channel).
Proof. intros st. reflexivity. Qed.

Lemma keeps_bind {A B} (m : M State A) (k : A -> M State B) :
  keeps_workers m -> (forall a, keeps_workers (k a)) -> keeps_workers (bind m k).
Proof.
  intros Hm Hk st. unfold bind. specialize (Hm st).
  destruct (m st) as [[a|e|] st']; simpl in *; try exact Hm.
  now rewrite Hk.
Qed.

Lemma keeps_if {A} (b : bool) (m1 m2 : M State A) :
  keeps_workers m1 -> keeps_workers m2 -> keeps_workers (if b then m1 else m2).
Proof. now destruct b. Qed.

End Frame.

Create HintDb frame.
#[local] Hint Resolve keeps_ret keeps_raise keeps_on_proc keeps_post keeps_bind keeps_if
  : frame.

(** ** How the handlers change the dict of sessions *)

Section Sessions.

Import GnubgManager.

Lemma run_command_keeps (name : string) (fuel : nat) (params : list string)
  (sp : slack_params) (player opponent : string) (worker : nat) :
  keeps_workers (run_command name fuel params sp player opponent worker).
Proof.
  unfold run_command.
  apply keeps_bind; [auto with frame|]. intros l1.
  apply keeps_bind; [auto with frame|]. intros _.
  apply keeps_bind; [auto with frame|]. intros l2.
  apply keeps_if; auto with frame.
Qed.

Lemma set_fresh (user challenged : string) (h : nat) (ws : list (player_pair * nat)) :
  existsb (fun psw : player_pair * nat => is_in user (fst psw)) ws = false ->
  Dict.set (user, challenged) h ws = (ws ++ [((user, challenged), h)])%list.
Proof.
  induction ws as [|[k v] ws IH]; intros H; [reflexivity|].
  simpl in *. apply orb_false_elim in H. destruct H as [H1 H2].
  unfold Dict.key_eqb. simpl.
  destruct (fst k =? user) eqn:E.
  - unfold is_in in H1. rewrite E in H1. discriminate.
  - simpl. now rewrite IH.
Qed.

End Sessions.

(** ** Who can be in which session *)

Section Invariant.

Import GnubgManager.

Lemma existsb_sessions (user : string) (ws : list (player_pair * nat)) :
  existsb (fun psw : player_pair * nat => is_in user (fst psw)) ws = true
  <-> sessions_of user ws <> [].
Proof.
  unfold sessions_of. induction ws as [|e ws IH]; simpl.
  - split; [discriminate | congruence].
  - destruct (is_in user (fst e)); simpl.
    + split; [discriminate | reflexivity].
    + exact IH.
Qed.

Lemma answers_bind {A} (m : M State A) (k : A -> M State response) :
  (forall a, answers_200 (k a)) -> answers_200 (bind m k).
Proof.
  intros Hk st r. unfold bind.
  destruct (m st) as [[a|e|] st']; simpl; try discriminate. apply Hk.
Qed.

Lemma answers_ret : answers_200 (ret (Response None)).
Proof. intros st r H. simpl in H. congruence. Qed.

(** [new] from the point where the opponent is settled *)
Lemma new_outcomes (fuel : nat) (params : list string) (sp : slack_params) (st : State) :
  (Z.of_nat (List.length (workers st)) =? max_games st)%Z = false ->
  existsb (fun psw : player_pair * nat => is_in (user_name sp) (fst psw)) (workers st) = false ->
  forall r, fst (new fuel params sp st) = Ok r ->
            r = Response None
            \/ (resolve_challenged params = None /\ exists msg, r = HTTPBadRequest msg).
Proof.
  intros Hcap Hfree r. unfold new. rewrite Hcap, Hfree.
  destruct (resolve_challenged params) as [challenged|].
  - intros H. left. revert H. generalize st r.
    apply answers_bind. intros worker.
    apply answers_bind. intros _. apply answers_bind. intros _.
    apply answers_bind. intros _. apply answers_bind. intros out.
    apply answers_bind. intros _. apply answers_ret.
  - simpl. intros H. right. split; [reflexivity|]. inversion H. eauto.
Qed.

Lemma new_at_capacity (fuel : nat) (params : list string) (sp : slack_params) (st : State) :
  (Z.of_nat (List.length (workers st)) =? max_games st)%Z = true ->
  new fuel params sp st
  = (Ok (HTTPServiceUnavailable
           "Max game limit reached. Try again after a game has finished."), st).
Proof.
  intros H. unfold new. now rewrite H.
Qed.

Lemma new_in_conflict (fuel : nat) (params : list string) (sp : slack_params) (st : State) :
  (Z.of_nat (List.length (workers st)) =? max_games st)%Z = false ->
  existsb (fun psw : player_pair * nat => is_in (user_name sp) (fst psw)) (workers st) = true ->
  new fuel params sp st
  = (Ok (HTTPForbidden "You already have a game in progress."), st).
Proof.
  intros H1 H2. unfold new. now rewrite H1, H2.
Qed.

(** C5, as the code has it.  [new] answers 503 exactly when the number of
    sessions equals [max_games]; it answers 403 exactly when that number
    differs from [max_games] and the caller is named by some session; this
    holds for every list of parameters, a valid opponent or not; and with
    either answer the whole state, the dict included, is as before. *)
Theorem new_capacity_then_conflict
  (fuel : nat) (params : list string) (sp : slack_params) (st : State) :
  ((exists msg, fst (new fuel params sp st) = Ok (HTTPServiceUnavailable msg))
   <-> Z.of_nat (List.length (workers st)) = max_games st)
  /\ ((exists msg, fst (new fuel params sp st) = Ok (HTTPForbidden msg))
      <-> Z.of_nat (List.length (workers st)) <> max_games st
          /\ sessions_of (user_name sp) (workers st) <> [])
  /\ (forall msg,
         fst (new fuel params sp st) = Ok (HTTPServiceUnavailable msg)
         \/ fst (new fuel params sp st) = Ok (HTTPForbidden msg) ->
         snd (new fuel params sp st) = st).
Proof.
  pose proof (existsb_sessions (user_name sp) (workers st)) as Hex.
  destruct (Z.of_nat (List.length (workers st)) =? max_games st)%Z eqn:Hcap.
  - rewrite (new_at_capacity _ _ _ _ Hcap). apply Z.eqb_eq in Hcap. simpl.
    split; [split; eauto|].
    split; [split; [intros [msg H]; discriminate | intros [H _]; contradiction]|].
    reflexivity.
  - destruct (existsb (fun psw : player_pair * nat => is_in (user_name sp) (fst psw))
                      (workers st)) eqn:Hfree.
    + rewrite (new_in_conflict _ _ _ _ Hcap Hfree). apply Z.eqb_neq in Hcap. simpl.
      split; [split; [intros [msg H]; discriminate | intros H; contradiction]|].
      split; [split; [intros _; split; [exact Hcap | now apply Hex] | eauto]|].
      reflexivity.
    + pose proof (new_outcomes fuel params sp st Hcap Hfree) as Hout.
      apply Z.eqb_neq in Hcap.
      assert (Hnone : forall msg,
                 fst (new fuel params sp st) <> Ok (HTTPServiceUnavailable msg)
                 /\ fst (new fuel params sp st) <> Ok (HTTPForbidden msg)).
      { intros msg; split; intros H; apply Hout in H;
          destruct H as [H|[_ [m H]]]; discriminate. }
      split; [split; [intros [msg H]; exfalso; exact (proj1 (Hnone msg) H)
                     | intros H; contradiction]|].
      split; [split; [intros [msg H]; exfalso; exact (proj2 (Hnone msg) H)
                     | intros [_ H]; exfalso; apply Hex in H; discriminate]|].
      intros msg [H|H]; exfalso;
        [exact (proj1 (Hnone msg) H) | exact (proj2 (Hnone msg) H)].
Qed.

(** C5 as it is worded fails: with one game allowed and alice playing it,
    alice is named by a session, yet her [new] is answered 503, not 403. *)
Lemma new_conflict_hidden_by_capacity :
  sessions_of "alice" (workers alice_plays) <> []
  /\ fst (handler_of Cnew 1 [] alice alice_plays)
     = Ok (HTTPServiceUnavailable
             "Max game limit reached. Try again after a game has finished.")
  /\ forall msg, fst (handler_of Cnew 1 [] alice alice_plays) <> Ok (HTTPForbidden msg).
Proof.
  split; [vm_compute; discriminate|].
  split; [vm_compute; reflexivity|].
  intros msg. vm_compute. discriminate.
Qed.

End Invariant.

(** ** The wrapper [game_required] *)

Section Wrapper.

Import GnubgManager.


Lemma self_session_raises (turn_required : bool) (f : inner_handler) (fuel : nat)
  (params : list string) (sp : slack_params) (st : State)
  (players : player_pair) (h : nat) (rest : list (player_pair * nat)) :
  sessions_of (user_name sp) (workers st) = (players, h) :: rest ->
  next_other players (user_name sp) = None ->
  game_required turn_required f fuel params sp st = (Raised RuntimeError, st).
Proof.
  unfold sessions_of, game_required. intros H1 H2. now rewrite H1, H2.
Qed.

(** the wrapper, once the session, the opponent and the answer of the
    engine to the turn query are known *)
Lemma game_required_at (turn_required : bool) (f : inner_handler) (fuel : nat)
  (params : list string) (sp : slack_params) (st : State)
  (players : player_pair) (h : nat) (rest : list (player_pair * nat))
  (opponent : string) (p : Process) (lines : list string) :
  sessions_of (user_name sp) (workers st) = (players, h) :: rest ->
  next_other players (user_name sp) = Some opponent ->
  nth_error (procs st) h = Some p ->
  next_response fuel p = Some lines ->
  game_required turn_required f fuel params sp st
  = match Py.split (Py.join "" lines) with
    | [] => (Raised IndexError, put h (asked fuel "show turn" p) st)
    | turn :: _ =>
        if turn_required && negb (turn =? user_name sp)
        then (Ok (HTTPForbidden "It's not your turn!"), put h (asked fuel "show turn" p) st)
        else f fuel params sp (user_name sp) opponent h (put h (asked fuel "show turn" p) st)
    end.
Proof.
  unfold sessions_of, game_required. intros H1 H2 H3 H4. rewrite H1, H2.
  unfold bind. rewrite (on_proc_at _ _ _ _ H3), command_eq, H4. simpl.
  destruct (Py.split (Py.join "" lines)) as [|turn more]; [reflexivity|].
  destruct (turn_required && negb (turn =? user_name sp)); reflexivity.
Qed.

Lemma split_from_some (s : string) :
  forall t : string, Py.split_from (Some t) s <> [].
Proof.
  induction s as [|c r IH]; intros t; simpl; [discriminate|].
  destruct (Py.isspace c); [discriminate | apply IH].
Qed.

(** a text splits into no token exactly when it is blank *)
Lemma split_blank (s : string) : Py.split s = [] <-> blank s = true.
Proof.
  unfold Py.split. induction s as [|c r IH]; simpl.
  - split; reflexivity.
  - destruct (Py.isspace c); simpl.
    + exact IH.
    + split; [intros H; exfalso; exact (split_from_some r _ H) | discriminate].
Qed.

Lemma gated_handler (c : cmd) :
  policy c <> Ungated ->
  exists f, handler_of c = game_required (match policy c with TurnGated => true | _ => false end) f.
Proof.
  destruct c; simpl; intros H; try congruence; eexists; reflexivity.
Qed.

(** C3, as the code has it.  A command that needs the caller's turn, from
    a caller whose session is with somebody else and whose engine names
    another player as the one to move: the answer is the 403 of a wrong
    turn; the engine of the session has been sent one line, the turn
    query, and nothing after it; no other process and no session is
    touched. *)
Theorem wrong_turn_refused_after_query
  (c : cmd) (fuel : nat) (params : list string) (sp : slack_params) (st : State)
  (players : player_pair) (h : nat) (rest : list (player_pair * nat))
  (opponent : string) (p : Process) (lines : list string) (turn : string)
  (more : list string) :
  policy c = TurnGated ->
  sessions_of (user_name sp) (workers st) = (players, h) :: rest ->
  next_other players (user_name sp) = Some opponent ->
  nth_error (procs st) h = Some p ->
  next_response fuel p = Some lines ->
  Py.split (Py.join "" lines) = turn :: more ->
  turn <> user_name sp ->
  handler_of c fuel params sp st
  = (Ok (HTTPForbidden "It's not your turn!"), put h (asked fuel "show turn" p) st)
  /\ stdin_log (asked fuel "show turn" p) = (stdin_log p ++ [sent "show turn"])%list
  /\ workers (put h (asked fuel "show turn" p) st) = workers st
  /\ forall h', h' <> h ->
       nth_error (procs (put h (asked fuel "show turn" p) st)) h' = nth_error (procs st) h'.
Proof.
  intros Hpol Hs Ho Hp Hl Ht Hturn.
  destruct (gated_handler c) as [f Hf]; [congruence|]. rewrite Hpol in Hf.
  split.
  - rewrite Hf, (game_required_at _ _ _ _ _ _ _ _ _ _ _ _ Hs Ho Hp Hl), Ht.
    apply String.eqb_neq in Hturn. now rewrite Hturn.
  - split; [apply asked_fields|]. split; [reflexivity|].
    intros h' Hne. unfold put; simpl. apply nth_error_replace_nth_other. congruence.
Qed.

End Wrapper.

Section WrongTurn.

Lemma wrong_turn_refused_after_query_witness :
  handler_of Cmove 2 ["24"; "18"] alice waiting_for_gnubg
  = (Ok (HTTPForbidden "It's not your turn!"),
     put 0 (asked 2 "show turn" gnubg_to_move) waiting_for_gnubg)
  /\ stdin_log (asked 2 "show turn" gnubg_to_move)
     = (stdin_log gnubg_to_move ++ [sent "show turn"])%list
  /\ workers (put 0 (asked 2 "show turn" gnubg_to_move) waiting_for_gnubg)
     = workers waiting_for_gnubg
  /\ forall h', h' <> 0 ->
       nth_error (procs (put 0 (asked 2 "show turn" gnubg_to_move) waiting_for_gnubg)) h'
       = nth_error (procs waiting_for_gnubg) h'.
Proof.
  apply (wrong_turn_refused_after_query Cmove 2 ["24"; "18"] alice waiting_for_gnubg
           ("alice", "gnubg") 0 [] "gnubg" gnubg_to_move
           ["gnubg is on roll." ++ LF] "gnubg" ["is"; "on"; "roll."]);
    try reflexivity.
  intros H. discriminate H.
Defined.

(** C3 as it is worded fails: alice moves out of turn, she is refused, and
    the engine, which had been sent nothing, has been sent the turn query. *)
Lemma wrong_turn_costs_one_write :
  fst (handler_of Cmove 2 ["24"; "18"] alice waiting_for_gnubg)
  = Ok (HTTPForbidden "It's not your turn!")
  /\ map stdin_log (procs waiting_for_gnubg) = [[]]
  /\ map stdin_log (procs (snd (handler_of Cmove 2 ["24"; "18"] alice waiting_for_gnubg)))
     = [[sent "show turn"]].
Proof.
  repeat split; vm_compute; reflexivity.
Qed.

End WrongTurn.

(** ** Running a command in a session *)

Section Running.

Import GnubgManager.

Lemma run_command_run (name : string) (fuel : nat) (params : list string)
  (sp : slack_params) (player opponent : string) (h : nat) (st : State) (p : Process) :
  nth_error (procs st) h = Some p ->
  responsive fuel p ->
  exists p' st',
    run_command name fuel params sp player opponent h st = (Ok (Response None), st')
    /\ workers st' = workers st
    /\ procs st' = replace_nth h p' (procs st)
    /\ tape p' = tape p
    /\ stdin_log p'
       = (stdin_log p ++ [sent (Py.join " " (name :: params)); sent "show turn"]
            ++ (if retires fuel (Py.join " " (name :: params)) p
                then [sent "quit"; sent "y"] else []))%list
    /\ (retires fuel (Py.join " " (name :: params)) p = true -> terminated p' = true)
    /\ (retires fuel (Py.join " " (name :: params)) p = false ->
        exited p' = exited p /\ killed p' = killed p).
Proof.
  intros Hp Hr. unfold run_command.
  set (cmdline := Py.join " " (name :: params)).
  set (p1 := asked fuel cmdline p).
  set (p2 := asked fuel "show turn" p1).
  assert (Hr1 : responsive fuel p1) by now apply asked_responsive.
  assert (Hr2 : responsive fuel p2) by now apply asked_responsive.
  destruct (responsive_answers fuel p Hr) as [l1 E1].
  destruct (responsive_answers fuel p1 Hr1) as [l2 E2].
  destruct (asked_fields fuel cmdline p) as [L1 [X1 [G1 K1]]].
  destruct (asked_fields fuel "show turn" p1) as [L2 [X2 [G2 K2]]].
  fold p1 in L1, X1, G1, K1. fold p2 in L2, X2, G2, K2.
  assert (Hret : retires fuel cmdline p = Py.startswith (Py.join "" l2) "No game")
    by (unfold retires; fold p1; now rewrite E2).
  rewrite Hret. clear Hret.
  unfold bind at 1. rewrite (on_proc_at _ _ _ _ Hp), command_eq, E1. cbn [fst snd].
  fold p1. unfold bind at 1. unfold IncomingWebhook.post at 1.
  unfold bind at 1.
  match goal with
  | |- context [on_proc h (GnubgWorker.command fuel "show turn") ?s] =>
      assert (Hp1 : nth_error (procs s) h = Some p1)
        by (simpl; eapply nth_error_replace_nth; eauto);
      rewrite (on_proc_at _ _ s _ Hp1)
  end.
  rewrite command_eq, E2. cbn [fst snd]. fold p2.
  assert (T2 : tape p2 = tape p) by (unfold p2, p1; now rewrite !asked_tape).
  assert (LL : stdin_log p2 = (stdin_log p ++ [sent cmdline; sent "show turn"])%list)
    by (rewrite L2, L1, <- app_assoc; reflexivity).
  destruct (Py.startswith (Py.join "" l2) "No game").
  - destruct (quit_run fuel p2 Hr2) as [n Eq].
    unfold bind at 1.
    match goal with
    | |- context [on_proc h (GnubgWorker.quit fuel) ?s] =>
        assert (Hp2 : nth_error (procs s) h = Some p2)
          by (simpl; eapply nth_error_replace_nth; eauto);
        rewrite (on_proc_at _ _ s _ Hp2)
    end.
    rewrite Eq. cbn [fst snd]. unfold ret.
    eexists. eexists. split; [reflexivity|].
    split; [reflexivity|].
    split; [unfold put; cbn [procs set_procs]; rewrite !replace_nth_twice; reflexivity|].
    cbn [tape stdin_log exited killed].
    split; [exact T2|].
    split; [rewrite LL, <- app_assoc; reflexivity|].
    split; [intros _|discriminate].
    unfold terminated; cbn [exited killed].
    destruct (exited p2), (killed p2), (exits_in_grace p2); reflexivity.
  - unfold ret. eexists. eexists. split; [reflexivity|].
    split; [reflexivity|].
    split; [unfold put; cbn [procs set_procs]; rewrite !replace_nth_twice; reflexivity|].
    split; [exact T2|].
    split; [rewrite LL, app_nil_r; reflexivity|].
    split; [discriminate|intros _].
    rewrite X2, X1, K2, K1. auto.
Qed.

End Running.

(** ** Quitting *)

Section Quitting.

Import GnubgManager.

Lemma quit_body_run (fuel : nat) (params : list string) (sp : slack_params)
  (player opponent : string) (h : nat) (st : State) (p : Process)
  (ws' : list (player_pair * nat)) :
  nth_error (procs st) h = Some p ->
  responsive fuel p ->
  Dict.del (if Dict.mem (player, opponent) (workers st)
            then (player, opponent) else (opponent, player)) (workers st) = Some ws' ->
  exists p' st',
    quit_body fuel params sp player opponent h st = (Ok (Response None), st')
    /\ workers st' = ws'
    /\ procs st' = replace_nth h p' (procs st)
    /\ stdin_log p' = (stdin_log p ++ [sent "quit"; sent "y"])%list
    /\ terminated p' = true
    /\ posts st' = (posts st ++ [(channel_id sp, SlackTemplate.Quit player opponent)])%list.
Proof.
  intros Hp Hr Hd. unfold quit_body.
  destruct (quit_run fuel p Hr) as [n Eq].
  unfold bind at 1. rewrite (on_proc_at _ _ _ _ Hp), Eq. cbn [fst snd].
  unfold bind at 1. cbv beta zeta.
  match goal with
  | |- context [put h ?q st] => set (st1 := put h q st)
  end.
  change (workers st1) with (workers st).
  match goal with
  | |- context [Dict.del ?k ?w] =>
      replace (Dict.del k w) with (Some ws') by (symmetry; exact Hd)
  end.
  unfold bind, IncomingWebhook.post, ret. cbn [fst snd].
  eexists. eexists. split; [reflexivity|].
  split; [reflexivity|]. split; [reflexivity|]. split; [reflexivity|].
  split; [|reflexivity].
  unfold terminated; cbn [exited killed].
  destruct (exited p), (killed p), (exits_in_grace p); reflexivity.
Qed.

Lemma next_other_cases (ps : player_pair) (user opponent : string) :
  is_in user ps = true ->
  next_other ps user = Some opponent ->
  (ps = (user, opponent) /\ opponent <> user)
  \/ (ps = (opponent, user) /\ opponent <> user).
Proof.
  destruct ps as [a b]. unfold is_in, next_other. simpl.
  destruct (a =? user) eqn:Ea; simpl.
  - apply String.eqb_eq in Ea. subst a. intros _.
    destruct (b =? user) eqn:Eb; simpl; [discriminate|].
    intros H. inversion H; subst. apply String.eqb_neq in Eb. auto.
  - intros Hb H. inversion H; subst. apply String.eqb_eq in Hb. subst b.
    apply String.eqb_neq in Ea. auto.
Qed.

Lemma key_eqb_refl (k : player_pair) : Dict.key_eqb k k = true.
Proof.
  unfold Dict.key_eqb. now rewrite !String.eqb_refl.
Qed.

(** a key that names [user] is not the key of a session without them *)
Lemma key_eqb_outsider (k k' : player_pair) (user : string) :
  is_in user k = false -> is_in user k' = true -> Dict.key_eqb k k' = false.
Proof.
  destruct k as [a b], k' as [a' b']. unfold is_in, Dict.key_eqb. simpl.
  intros H H'. apply orb_false_elim in H. destruct H as [Ha Hb].
  destruct (a =? a') eqn:Ea; [|reflexivity].
  destruct (b =? b') eqn:Eb; [|reflexivity].
  apply String.eqb_eq in Ea, Eb. subst. rewrite Ha, Hb in H'. discriminate.
Qed.

(** The key that [quit] deletes is the key of the first session of the
    caller, unless that session was opened by the opponent and the dict
    also has the key (caller, opponent). *)
Lemma del_first_session (user opponent : string) :
  forall (ws : list (player_pair * nat)) (players : player_pair) (h : nat)
         (rest : list (player_pair * nat)),
    sessions_of user ws = (players, h) :: rest ->
    next_other players user = Some opponent ->
    (Dict.mem (user, opponent) ws = true -> players = (user, opponent)) ->
    Dict.del (if Dict.mem (user, opponent) ws then (user, opponent) else (opponent, user)) ws
    = Some (drop_session_of user ws).
Proof.
  induction ws as [|[k v] ws IH]; intros players h rest Hs Ho Hkey; [discriminate|].
  unfold sessions_of in Hs. simpl in Hs. simpl drop_session_of.
  destruct (is_in user k) eqn:Hin.
  - inversion Hs; subst. clear Hs.
    destruct (next_other_cases _ _ _ Hin Ho) as [[-> Hne]|[-> Hne]].
    + simpl. rewrite key_eqb_refl. simpl. now rewrite key_eqb_refl.
    + assert (Hm : Dict.mem (user, opponent) (((opponent, user), h) :: ws) = false).
      { match goal with |- ?x = false => destruct x eqn:E end; [|reflexivity].
        specialize (Hkey E). inversion Hkey. contradiction. }
      match goal with
      | |- context [Dict.mem ?k0 ?w] =>
          replace (Dict.mem k0 w) with false by (symmetry; exact Hm)
      end.
      simpl. now rewrite key_eqb_refl.
  - fold (sessions_of user ws) in Hs.
    assert (Hs' : is_in user players = true).
    { assert (I : In (players, h) (sessions_of user ws)) by (rewrite Hs; now left).
      unfold sessions_of in I. apply filter_In in I. apply I. }
    assert (K1 : Dict.key_eqb k (user, opponent) = false).
    { apply (key_eqb_outsider _ _ user); [exact Hin|].
      unfold is_in. simpl. now rewrite String.eqb_refl. }
    assert (K2 : Dict.key_eqb k (opponent, user) = false).
    { apply (key_eqb_outsider _ _ user); [exact Hin|].
      unfold is_in. simpl. now rewrite String.eqb_refl, orb_true_r. }
    assert (Hkey' : Dict.mem (user, opponent) ws = true -> players = (user, opponent)).
    { intros Hm. apply Hkey. simpl. rewrite Hm. apply orb_true_r. }
    specialize (IH players h rest Hs Ho Hkey').
    simpl Dict.mem. rewrite K1. simpl orb.
    destruct (Dict.mem (user, opponent) ws); simpl Dict.del;
      [rewrite K1 | rewrite K2]; now rewrite IH.
Qed.

(** without their first session, the sessions of [user] are the later ones *)
Lemma sessions_after_drop (user : string) (ws : list (player_pair * nat)) :
  sessions_of user (drop_session_of user ws) = tl (sessions_of user ws).
Proof.
  unfold sessions_of. induction ws as [|e ws IH]; simpl; [reflexivity|].
  destruct (is_in user (fst e)) eqn:E; simpl; [reflexivity|].
  now rewrite E, IH.
Qed.

End Quitting.

(** ** Opening a session *)

Section Opening.

Import GnubgManager.

Lemma replace_nth_last {A} (l : list A) (a b : A) :
  replace_nth (List.length l) b (l ++ [a]) = (l ++ [b])%list.
Proof.
  induction l as [|x l IH]; simpl; [reflexivity | now rewrite IH].
Qed.

Lemma nth_error_last {A} (l : list A) (a : A) :
  nth_error (l ++ [a]) (List.length l) = Some a.
Proof.
  rewrite nth_error_app2 by lia. now rewrite Nat.sub_diag.
Qed.

(** One command in the newest process of the table. *)
Lemma command_in_last (fuel : nat) (c : string) (st : State) (ps : list Process)
  (p : Process) :
  procs st = (ps ++ [p])%list ->
  responsive fuel p ->
  exists lines,
    on_proc (List.length ps) (GnubgWorker.command fuel c) st
    = (Ok lines, set_procs (ps ++ [asked fuel c p]) st).
Proof.
  intros Hps Hr. destruct (responsive_answers fuel p Hr) as [lines E].
  exists lines.
  assert (Hp : nth_error (procs st) (List.length ps) = Some p)
    by (rewrite Hps; apply nth_error_last).
  rewrite (on_proc_at _ _ _ _ Hp), command_eq, E. cbn [fst snd].
  unfold put. now rewrite Hps, replace_nth_last.
Qed.

Lemma new_run (fuel : nat) (params : list string) (sp : slack_params) (st : State)
  (challenged : string) (engine : Process) :
  Z.of_nat (List.length (workers st)) <> max_games st ->
  sessions_of (user_name sp) (workers st) = [] ->
  resolve_challenged params = Some challenged ->
  spawner st (List.length (procs st)) = Some engine ->
  responsive fuel engine ->
  exists p' st',
    new fuel params sp st = (Ok (Response None), st')
    /\ workers st'
       = (workers st ++ [((user_name sp, challenged), List.length (procs st))])%list
    /\ procs st' = (procs st ++ [p'])%list
    /\ stdin_log p' = opening_lines (user_name sp) challenged
    /\ tape p' = tape engine.
Proof.
  intros Hcap Hfree Hres Hsp Hr.
  assert (Hfree' : existsb (fun psw : player_pair * nat => is_in (user_name sp) (fst psw))
                           (workers st) = false).
  { destruct (existsb _ (workers st)) eqn:E; [|reflexivity].
    apply existsb_sessions in E. contradiction. }
  apply Z.eqb_neq in Hcap.
  unfold new. rewrite Hcap, Hfree', Hres.
  unfold bind at 1. unfold GnubgWorker.start. rewrite Hsp.
  set (h := List.length (procs st)).
  set (p0 := GnubgWorker.fresh engine).
  assert (Hr0 : responsive fuel p0) by (apply (responsive_tape fuel engine); auto).
  set (st0 := set_procs (procs st ++ [p0]) st).
  (* the banner *)
  destruct (collect_responsive fuel p0 Hr0) as [banner Eb].
  set (p1 := advance (S (List.length banner)) p0) in *.
  assert (E0 : (on_proc h (GnubgWorker.readlines fuel) ;;; ret h) st0
               = (Ok h, set_procs (procs st ++ [p1]) st0)).
  { unfold bind.
    assert (Hp : nth_error (procs st0) h = Some p0) by apply nth_error_last.
    rewrite (on_proc_at _ _ _ _ Hp). unfold GnubgWorker.readlines. rewrite Eb.
    cbn [fst snd]. unfold ret, put. simpl procs at 1.
    unfold h. now rewrite replace_nth_last. }
  rewrite E0. clear E0.
  assert (Hr1 : responsive fuel p1) by (apply (responsive_tape fuel p0); auto).
  (* the session is registered *)
  unfold bind at 1. cbv beta.
  set (st1 := set_workers _ _).
  assert (W1 : workers st1 = (workers st ++ [((user_name sp, challenged), h)])%list)
    by (unfold st1; simpl; now apply set_fresh).
  assert (P1 : procs st1 = (procs st ++ [p1])%list) by reflexivity.
  (* the player of the caller is named *)
  set (c1 := "set player 1 name " ++ user_name sp).
  destruct (command_in_last fuel c1 st1 (procs st) p1 P1 Hr1) as [l1 E1].
  unfold bind at 1. fold h in E1. rewrite E1. clear E1.
  set (p2 := asked fuel c1 p1).
  assert (Hr2 : responsive fuel p2) by now apply asked_responsive.
  set (st2 := set_procs (procs st ++ [p2]) st1).
  assert (L2 : stdin_log p2 = [sent c1]).
  { unfold p2. destruct (asked_fields fuel c1 p1) as [L _]. rewrite L. reflexivity. }
  assert (T2 : tape p2 = tape engine) by (unfold p2; now rewrite asked_tape).
  (* the opponent is named when human; then the game starts *)
  unfold opening_lines. fold c1.
  destruct (negb (challenged =? "gnubg")).
  - destruct (command_in_last fuel "set player 0 human" st2 (procs st) p2 eq_refl Hr2)
      as [l2 E2].
    set (p3 := asked fuel "set player 0 human" p2) in *.
    assert (Hr3 : responsive fuel p3) by now apply asked_responsive.
    set (st3 := set_procs (procs st ++ [p3]) st2) in *.
    set (c3 := "set player 0 name " ++ challenged).
    destruct (command_in_last fuel c3 st3 (procs st) p3 eq_refl Hr3) as [l3 E3].
    set (p4 := asked fuel c3 p3) in *.
    assert (Hr4 : responsive fuel p4) by now apply asked_responsive.
    set (st4 := set_procs (procs st ++ [p4]) st3) in *.
    destruct (command_in_last fuel "new game" st4 (procs st) p4 eq_refl Hr4) as [l4 E4].
    fold h in E2, E3, E4.
    unfold bind. rewrite E2, E3. unfold ret at 1. rewrite E4.
    unfold IncomingWebhook.post, ret.
    eexists. eexists. split; [reflexivity|].
    split; [exact W1|]. split; [reflexivity|].
    split.
    + destruct (asked_fields fuel "new game" p4) as [L _]. rewrite L.
      destruct (asked_fields fuel c3 p3) as [L3 _]. fold p4 in L3. rewrite L3.
      destruct (asked_fields fuel "set player 0 human" p2) as [L2' _].
      fold p3 in L2'. rewrite L2', L2. reflexivity.
    + rewrite asked_tape. unfold p4. rewrite asked_tape. unfold p3.
      rewrite asked_tape. exact T2.
  - destruct (command_in_last fuel "new game" st2 (procs st) p2 eq_refl Hr2) as [l4 E4].
    fold h in E4.
    unfold bind. unfold ret at 1. rewrite E4.
    unfold IncomingWebhook.post, ret.
    eexists. eexists. split; [reflexivity|].
    split; [exact W1|]. split; [reflexivity|].
    split.
    + destruct (asked_fields fuel "new game" p2) as [L _]. rewrite L, L2. reflexivity.
    + rewrite asked_tape. exact T2.
Qed.

End Opening.

Section OneSession.

Import GnubgManager.

Lemma resolve_at (name : string) (more : list string) :
  resolve_challenged (("@" ++ name) :: more) = Some name.
Proof.
  unfold resolve_challenged, Py.startswith, Py.tail. simpl.
  destruct name; reflexivity.
Qed.

(** C2, against the code.  [new @name] from a caller who has no session,
    on a server whose number of sessions differs from [max_games], is
    accepted although [name] already takes part in a session: [new] looks
    for the caller in the keys of the dict and never for the one who is
    challenged.  The session (caller, [name]) is registered after the ones
    that are there, and [name] is then in at least two sessions. *)
Theorem opponent_joins_second_session
  (fuel : nat) (name : string) (more : list string) (sp : slack_params) (st : State)
  (engine : Process) :
  Z.of_nat (List.length (workers st)) <> max_games st ->
  sessions_of (user_name sp) (workers st) = [] ->
  sessions_of name (workers st) <> [] ->
  spawner st (List.length (procs st)) = Some engine ->
  responsive fuel engine ->
  exists st',
    new fuel (("@" ++ name) :: more) sp st = (Ok (Response None), st')
    /\ workers st'
       = (workers st ++ [((user_name sp, name), List.length (procs st))])%list
    /\ 2 <= List.length (sessions_of name (workers st'))
    /\ ~ one_session_each (workers st').
Proof.
  intros Hcap Hfree Hplays Hsp Hr.
  destruct (new_run fuel (("@" ++ name) :: more) sp st name engine
              Hcap Hfree (resolve_at name more) Hsp Hr)
    as [p' [st' [E [W _]]]].
  assert (Htwo : 2 <= List.length (sessions_of name (workers st'))).
  { rewrite W. unfold sessions_of. rewrite filter_app, length_app.
    fold (sessions_of name (workers st)).
    destruct (sessions_of name (workers st)); [contradiction|].
    unfold is_in. simpl. rewrite String.eqb_refl, orb_true_r. simpl. lia. }
  exists st'. split; [exact E|]. split; [exact W|]. split; [exact Htwo|].
  intros H. specialize (H name). lia.
Qed.

Lemma opponent_joins_second_session_witness :
  exists st',
    new 1 ["@bob"] carol alice_challenged_bob = (Ok (Response None), st')
    /\ workers st'
       = (workers alice_challenged_bob
            ++ [((user_name carol, "bob"), List.length (procs alice_challenged_bob))])%list
    /\ 2 <= List.length (sessions_of "bob" (workers st'))
    /\ ~ one_session_each (workers st').
Proof.
  apply (opponent_joins_second_session 1 "bob" [] carol alice_challenged_bob mute).
  - vm_compute. discriminate.
  - reflexivity.
  - vm_compute. discriminate.
  - reflexivity.
  - apply (responsive_tape_of [] 1 mute); [reflexivity | simpl; lia].
Defined.

(** The run behind it: alice challenges bob, carol challenges bob, and
    both requests are answered 200; bob is then named by two sessions. *)
Lemma bob_in_two_sessions :
  workers alice_challenged_bob = [(("alice", "bob"), 0)]
  /\ fst (handler_of Cnew 1 ["@bob"] carol alice_challenged_bob) = Ok (Response None)
  /\ workers bob_challenged_twice = [(("alice", "bob"), 0); (("carol", "bob"), 1)]
  /\ sessions_of "bob" (workers bob_challenged_twice)
     = [(("alice", "bob"), 0); (("carol", "bob"), 1)].
Proof.
  repeat split; vm_compute; reflexivity.
Qed.

End OneSession.

(** ** The gated commands, run to their end *)

Section Gated.

Import GnubgManager.

Lemma gated_body (c : cmd) :
  policy c <> Ungated ->
  exists f,
    handler_of c
    = game_required (match policy c with TurnGated => true | _ => false end) f
    /\ ((exists name, f = run_command name) \/ (c = Cquit /\ f = quit_body)).
Proof.
  destruct c; simpl; intros H; try congruence; eexists; (split; [reflexivity|]);
    try (left; eexists; reflexivity).
  right. split; reflexivity.
Qed.

Lemma mem_del {V} (k : player_pair) (ws : list (player_pair * V)) :
  Dict.mem k ws = true -> exists ws', Dict.del k ws = Some ws'.
Proof.
  induction ws as [|[k' v] ws IH]; simpl; [discriminate|].
  destruct (Dict.key_eqb k' k); simpl; [eauto|].
  intros H. destruct (IH H) as [ws' E]. rewrite E. eauto.
Qed.

Lemma in_mem {V} (k : player_pair) (v : V) (ws : list (player_pair * V)) :
  In (k, v) ws -> Dict.mem k ws = true.
Proof.
  intros H. apply existsb_exists. exists (k, v). split; [exact H|apply key_eqb_refl].
Qed.

(** [quit] always finds the key it deletes *)
Lemma quit_key_present (user opponent : string) (ws : list (player_pair * nat))
  (players : player_pair) (h : nat) (rest : list (player_pair * nat)) :
  sessions_of user ws = (players, h) :: rest ->
  next_other players user = Some opponent ->
  exists ws',
    Dict.del (if Dict.mem (user, opponent) ws then (user, opponent) else (opponent, user)) ws
    = Some ws'.
Proof.
  intros Hs Ho.
  assert (I : In (players, h) (sessions_of user ws)) by (rewrite Hs; now left).
  unfold sessions_of in I. apply filter_In in I. destruct I as [I Hin]. simpl in Hin.
  destruct (Dict.mem (user, opponent) ws) eqn:Hm; [now apply mem_del|].
  apply mem_del.
  destruct (next_other_cases _ _ _ Hin Ho) as [[E _]|[E _]]; subst players.
  - apply in_mem in I. congruence.
  - eapply in_mem; eauto.
Qed.

(** A gated command that passes the wrapper answers 200, whatever the
    command, as long as the engine lets the drains end. *)
Lemma gated_runs (c : cmd) (fuel : nat) (params : list string) (sp : slack_params)
  (st : State) (players : player_pair) (h : nat) (rest : list (player_pair * nat))
  (opponent : string) (p : Process) (lines : list string) (turn : string)
  (more : list string) :
  policy c <> Ungated ->
  sessions_of (user_name sp) (workers st) = (players, h) :: rest ->
  next_other players (user_name sp) = Some opponent ->
  nth_error (procs st) h = Some p ->
  responsive fuel p ->
  next_response fuel p = Some lines ->
  Py.split (Py.join "" lines) = turn :: more ->
  (policy c = TurnGated -> turn = user_name sp) ->
  exists st', handler_of c fuel params sp st = (Ok (Response None), st').
Proof.
  intros Hpol Hs Ho Hp Hr Hl Ht Hturn.
  destruct (gated_body c Hpol) as [f [Hf Hbody]].
  rewrite Hf, (game_required_at _ _ _ _ _ _ _ _ _ _ _ _ Hs Ho Hp Hl), Ht.
  assert (Hgo : (match policy c with TurnGated => true | _ => false end)
                && negb (turn =? user_name sp) = false).
  { destruct (policy c); try reflexivity.
    rewrite (Hturn eq_refl), String.eqb_refl. reflexivity. }
  rewrite Hgo.
  set (p1 := asked fuel "show turn" p).
  assert (Hp1 : nth_error (procs (put h p1 st)) h = Some p1) by (eapply put_lookup; eauto).
  assert (Hr1 : responsive fuel p1) by now apply asked_responsive.
  destruct Hbody as [[name ->]|[_ ->]].
  - destruct (run_command_run name fuel params sp (user_name sp) opponent h _ p1 Hp1 Hr1)
      as [p' [st' [E _]]]. eauto.
  - destruct (quit_key_present _ _ _ _ _ _ Hs Ho) as [ws' Hd].
    destruct (quit_body_run fuel params sp (user_name sp) opponent h (put h p1 st) p1 ws'
                Hp1 Hr1 Hd) as [p' [st' [E _]]]. eauto.
Qed.

(** C10.  A gated command or [quit], from a caller who has a session whose
    engine answers the turn query with a text without any token (nothing,
    or blank characters only): the handler raises instead of answering;
    when the session is with somebody else the exception is the
    [IndexError] of [split()[0]], raised after the query was sent.  With
    at least one token in the answer, somebody else in the session and an
    engine that lets the drains end, the handler does answer. *)
Theorem blank_turn_answer_raises
  (c : cmd) (fuel : nat) (params : list string) (sp : slack_params) (st : State)
  (players : player_pair) (h : nat) (rest : list (player_pair * nat))
  (p : Process) (lines : list string) :
  policy c <> Ungated ->
  sessions_of (user_name sp) (workers st) = (players, h) :: rest ->
  nth_error (procs st) h = Some p ->
  next_response fuel p = Some lines ->
  (blank (Py.join "" lines) = true ->
   (exists e, fst (handler_of c fuel params sp st) = Raised e)
   /\ forall opponent,
        next_other players (user_name sp) = Some opponent ->
        handler_of c fuel params sp st
        = (Raised IndexError, put h (asked fuel "show turn" p) st))
  /\ (blank (Py.join "" lines) = false ->
      forall opponent,
        next_other players (user_name sp) = Some opponent ->
        responsive fuel p ->
        exists r, fst (handler_of c fuel params sp st) = Ok r).
Proof.
  intros Hpol Hs Hp Hl. split.
  - intros Hb. apply split_blank in Hb.
    assert (Hidx : forall opponent,
               next_other players (user_name sp) = Some opponent ->
               handler_of c fuel params sp st
               = (Raised IndexError, put h (asked fuel "show turn" p) st)).
    { intros opponent Ho. destruct (gated_body c Hpol) as [f [Hf _]].
      now rewrite Hf, (game_required_at _ _ _ _ _ _ _ _ _ _ _ _ Hs Ho Hp Hl), Hb. }
    split; [|exact Hidx].
    destruct (next_other players (user_name sp)) as [opponent|] eqn:Ho.
    + exists IndexError. now rewrite (Hidx opponent eq_refl).
    + exists RuntimeError. destruct (gated_body c Hpol) as [f [Hf _]].
      now rewrite Hf, (self_session_raises _ _ _ _ _ _ _ _ _ Hs Ho).
  - intros Hb opponent Ho Hr.
    destruct (Py.split (Py.join "" lines)) as [|turn more] eqn:Ht.
    { apply split_blank in Ht. congruence. }
    destruct (gated_body c Hpol) as [f [Hf Hbody]].
    destruct (policy c) eqn:Epol; try congruence.
    + destruct (turn =? user_name sp) eqn:Eturn.
      * apply String.eqb_eq in Eturn.
        destruct (gated_runs c fuel params sp st players h rest opponent p lines turn more)
          as [st' E]; auto; try congruence.
        rewrite E. eexists; reflexivity.
      * rewrite Hf, (game_required_at _ _ _ _ _ _ _ _ _ _ _ _ Hs Ho Hp Hl), Ht, Eturn.
        eexists; reflexivity.
    + destruct (gated_runs c fuel params sp st players h rest opponent p lines turn more)
        as [st' E]; auto; try congruence.
      rewrite E. eexists; reflexivity.
Qed.

Lemma blank_turn_answer_raises_witness :
  blank (Py.join "" [NBSP ++ LF]) = true
  /\ (blank (Py.join "" [NBSP ++ LF]) = true ->
      (exists e, fst (handler_of Cquit 2 [] alice alice_vs_blank) = Raised e)
      /\ forall opponent,
           GnubgManager.next_other ("alice", "gnubg") (user_name alice) = Some opponent ->
           handler_of Cquit 2 [] alice alice_vs_blank
           = (Raised IndexError, put 0 (asked 2 "show turn" blank_engine) alice_vs_blank))
  /\ (blank (Py.join "" [NBSP ++ LF]) = false ->
      forall opponent,
        GnubgManager.next_other ("alice", "gnubg") (user_name alice) = Some opponent ->
        responsive 2 blank_engine ->
        exists r, fst (handler_of Cquit 2 [] alice alice_vs_blank) = Ok r).
Proof.
  split; [reflexivity|].
  apply (blank_turn_answer_raises Cquit 2 [] alice alice_vs_blank ("alice", "gnubg") 0 []
           blank_engine [NBSP ++ LF]).
  - discriminate.
  - reflexivity.
  - reflexivity.
  - reflexivity.
Defined.

End Gated.

Section QuitClaim.

Import GnubgManager.

(** a drain of an engine that never pauses does not end, whatever the
    bound *)
Lemma collect_endless (fuel : nat) :
  forall p : Process,
    (forall n, stops (tape p n) = false) ->
    fst (StreamReadlines.collect fuel p) = None.
Proof.
  induction fuel as [|fuel IH]; intros p Hp; [reflexivity|].
  cbn [StreamReadlines.collect].
  unfold StreamReadlines.anext, StreamReadlines.wait_for_readline.
  pose proof (Hp (reads p)) as H0. unfold stops in H0.
  destruct (tape p (reads p)) as [line|]; [|discriminate].
  apply negb_false_iff in H0. rewrite H0.
  specialize (IH (mkProcess (stdin_log p) (tape p) (S (reads p)) (exited p)
                            (exits_in_grace p) (killed p)) Hp).
  destruct (StreamReadlines.collect fuel _) as [[lines|] p']; [discriminate|reflexivity].
Qed.

(** the wrapper in front of an engine whose answer to the turn query does
    not end *)
Lemma game_required_stuck (turn_required : bool) (f : inner_handler) (fuel : nat)
  (params : list string) (sp : slack_params) (st : State)
  (players : player_pair) (h : nat) (rest : list (player_pair * nat))
  (opponent : string) (p : Process) :
  sessions_of (user_name sp) (workers st) = (players, h) :: rest ->
  next_other players (user_name sp) = Some opponent ->
  nth_error (procs st) h = Some p ->
  next_response fuel p = None ->
  fst (game_required turn_required f fuel params sp st) = Unfinished.
Proof.
  unfold sessions_of, game_required. intros H1 H2 H3 H4. rewrite H1, H2.
  unfold bind. now rewrite (on_proc_at _ _ _ _ H3), command_eq, H4.
Qed.

(** C4, as the code has it.  [quit] from a caller whose first session is
    with somebody else, when the dict does not also hold a session that
    the caller opened against the opponent who opened that first session,
    with an engine that lets the drains end and answers the turn query
    with at least one token: whoever that token names, the answer is 200;
    the engine was sent the turn query first, then [quit] and [y], and is
    gone; the first session that names the caller, as initiator or as
    opponent, is out of the dict, the other sessions stay, and the caller
    is left with the sessions that came after it, none when it was the
    only one. *)
Theorem quit_asks_turn_then_removes
  (fuel : nat) (params : list string) (sp : slack_params) (st : State)
  (players : player_pair) (h : nat) (rest : list (player_pair * nat))
  (opponent : string) (p : Process) (lines : list string) :
  sessions_of (user_name sp) (workers st) = (players, h) :: rest ->
  next_other players (user_name sp) = Some opponent ->
  (Dict.mem (user_name sp, opponent) (workers st) = true ->
   players = (user_name sp, opponent)) ->
  nth_error (procs st) h = Some p ->
  responsive fuel p ->
  next_response fuel p = Some lines ->
  blank (Py.join "" lines) = false ->
  exists p' st',
    quit fuel params sp st = (Ok (Response None), st')
    /\ workers st' = drop_session_of (user_name sp) (workers st)
    /\ sessions_of (user_name sp) (workers st') = rest
    /\ procs st' = replace_nth h p' (procs st)
    /\ stdin_log p' = (stdin_log p ++ [sent "show turn"; sent "quit"; sent "y"])%list
    /\ terminated p' = true.
Proof.
  intros Hs Ho Hkey Hp Hr Hl Hb.
  destruct (Py.split (Py.join "" lines)) as [|turn more] eqn:Ht.
  { apply split_blank in Ht. congruence. }
  unfold quit. rewrite (game_required_at _ _ _ _ _ _ _ _ _ _ _ _ Hs Ho Hp Hl), Ht.
  cbn [andb].
  set (p1 := asked fuel "show turn" p).
  assert (Hp1 : nth_error (procs (put h p1 st)) h = Some p1) by (eapply put_lookup; eauto).
  assert (Hr1 : responsive fuel p1) by now apply asked_responsive.
  pose proof (del_first_session (user_name sp) opponent (workers st) players h rest
                Hs Ho Hkey) as Hd.
  destruct (quit_body_run fuel params sp (user_name sp) opponent h (put h p1 st) p1
              (drop_session_of (user_name sp) (workers st)) Hp1 Hr1 Hd)
    as [p' [st' [E [W [P [L [T _]]]]]]].
  exists p', st'. split; [exact E|]. split; [exact W|].
  split; [rewrite W, sessions_after_drop, Hs; reflexivity|].
  split; [rewrite P; unfold put; cbn [procs set_procs]; apply replace_nth_twice|].
  split; [|exact T].
  rewrite L. unfold p1. destruct (asked_fields fuel "show turn" p) as [L1 _].
  rewrite L1, <- app_assoc. reflexivity.
Qed.

Lemma alice_engine_responsive : responsive 12 alice_engine.
Proof.
  apply (responsive_tape_of gnubg_script); [reflexivity | simpl; lia].
Qed.

Lemma quit_asks_turn_then_removes_witness :
  exists p' st',
    quit 12 [] alice alice_game = (Ok (Response None), st')
    /\ workers st' = drop_session_of (user_name alice) (workers alice_game)
    /\ sessions_of (user_name alice) (workers st') = []
    /\ procs st' = replace_nth 0 p' (procs alice_game)
    /\ stdin_log p'
       = (stdin_log alice_engine ++ [sent "show turn"; sent "quit"; sent "y"])%list
    /\ terminated p' = true.
Proof.
  apply (quit_asks_turn_then_removes 12 [] alice alice_game ("alice", "gnubg") 0 []
           "gnubg" alice_engine ["alice is on roll." ++ LF]).
  - reflexivity.
  - reflexivity.
  - intros _. reflexivity.
  - reflexivity.
  - exact alice_engine_responsive.
  - reflexivity.
  - reflexivity.
Defined.

(** C4 as it is worded fails, and none of the conditions above can be left
    out.  Alice quits the game she has just started, and the first thing
    her engine is sent is the turn query.  When the engine answers that
    query with nothing, her [quit] raises [IndexError]: the session stays
    and the engine runs on.  When her session is with herself, her [quit]
    raises before anything is sent.  When the engine prints without a
    pause, the drain of the answer does not end.  And when alice has
    challenged bob while bob challenged alice, bob's [quit] is answered
    200, stops the engine of the session ("alice", "bob") and deletes the
    key ("bob", "alice"): bob is left in a session whose engine is gone,
    and the engine of the session that was deleted runs on. *)
Lemma quit_queries_the_turn :
  (fst (handler_of Cquit 12 [] alice alice_game) = Ok (Response None)
   /\ map stdin_log (procs alice_game)
      = [[sent "set player 1 name alice"; sent "new game"]]
   /\ map stdin_log (procs (snd (handler_of Cquit 12 [] alice alice_game)))
      = [[sent "set player 1 name alice"; sent "new game";
          sent "show turn"; sent "quit"; sent "y"]])
  /\ (next_response 1 silent_engine = Some []
      /\ fst (handler_of Cquit 1 [] alice alice_plays) = Raised IndexError
      /\ workers (snd (handler_of Cquit 1 [] alice alice_plays)) = [(("alice", "gnubg"), 0)]
      /\ map terminated (procs (snd (handler_of Cquit 1 [] alice alice_plays))) = [false])
  /\ (workers alice_alone = [(("alice", "alice"), 0)]
      /\ fst (handler_of Cquit 1 [] alice alice_alone) = Raised RuntimeError
      /\ map stdin_log (procs (snd (handler_of Cquit 1 [] alice alice_alone)))
         = map stdin_log (procs alice_alone))
  /\ (forall fuel, fst (handler_of Cquit fuel [] alice alice_vs_chatty) = Unfinished)
  /\ (workers crossed_sessions = [(("alice", "bob"), 0); (("bob", "alice"), 1)]
      /\ fst (handler_of Cquit 2 [] bob crossed_sessions) = Ok (Response None)
      /\ workers (snd (handler_of Cquit 2 [] bob crossed_sessions))
         = [(("alice", "bob"), 0)]
      /\ map terminated (procs (snd (handler_of Cquit 2 [] bob crossed_sessions)))
         = [true; false]
      /\ map stdin_log (procs (snd (handler_of Cquit 2 [] bob crossed_sessions)))
         = [[sent "show turn"; sent "quit"; sent "y"]; []]).
Proof.
  split; [repeat split; vm_compute; reflexivity|].
  split; [repeat split; vm_compute; reflexivity|].
  split; [repeat split; vm_compute; reflexivity|].
  split; [|repeat split; vm_compute; reflexivity].
  intros fuel.
  apply (game_required_stuck false quit_body fuel [] alice alice_vs_chatty
           ("alice", "gnubg") 0 [] "gnubg" chatty); try reflexivity.
  apply collect_endless. intros n. reflexivity.
Qed.

End QuitClaim.

Section Retirement.

Import GnubgManager.

(** The seven generic commands never change the dict of sessions. *)
Lemma generic_command_keeps_sessions (c : cmd) (fuel : nat) (params : list string)
  (sp : slack_params) (st : State) :
  policy c <> Ungated -> c <> Cquit ->
  workers (snd (handler_of c fuel params sp st)) = workers st.
Proof.
  intros Hpol Hq. destruct (gated_body c Hpol) as [f [Hf [[name ->]|[Hc _]]]];
    [|contradiction].
  rewrite Hf. unfold game_required.
  destruct (filter _ (workers st)) as [|[players worker] rest]; [reflexivity|].
  destruct (next_other players (user_name sp)) as [opponent|]; [|reflexivity].
  match goal with
  | |- workers (snd (?m st)) = _ => assert (K : keeps_workers m)
  end.
  { apply keeps_bind; [auto with frame|]. intros lines.
    destruct (Py.split _) as [|turn more]; [auto with frame|].
    destruct (_ && _); [auto with frame | apply run_command_keeps]. }
  apply K.
Qed.

(** C1 on the code.  alice resigns, gnubg accepts, and the turn query that
    follows is answered "No game is being played.": the request is
    answered 200 and the engine, told to quit, is gone; but the session of
    alice is still in the dict, it still counts as a game, alice cannot
    open a new one, and her [quit] raises. *)
Theorem finished_game_stays_registered :
  fst (handler_of Cresign 12 [] alice alice_game) = Ok (Response None)
  /\ retires 12 "resign" (asked 12 "show turn" alice_engine) = true
  /\ map stdin_log (procs after_resign)
     = [[sent "set player 1 name alice"; sent "new game"; sent "show turn";
         sent "resign"; sent "show turn"; sent "quit"; sent "y"]]
  /\ map terminated (procs after_resign) = [true]
  /\ workers after_resign = [(("alice", "gnubg"), 0)]
  /\ fst (handler_of Cnew 12 [] alice after_resign)
     = Ok (HTTPForbidden "You already have a game in progress.")
  /\ fst (handler_of Cquit 12 [] alice after_resign) = Raised IndexError.
Proof.
  repeat split; vm_compute; reflexivity.
Qed.

End Retirement.

Section Opponent.

Import GnubgManager.

Lemma resolve_table :
  resolve_challenged [] = Some "gnubg"
  /\ (forall more, resolve_challenged ("gnubg" :: more) = Some "gnubg")
  /\ (forall name more, resolve_challenged (("@" ++ name) :: more) = Some name)
  /\ (forall p0 more,
         p0 <> "gnubg" -> Py.startswith p0 "@" = false ->
         resolve_challenged (p0 :: more) = None).
Proof.
  split; [reflexivity|]. split; [reflexivity|]. split.
  - intros name more. destruct name; reflexivity.
  - intros p0 more Hne Hat. unfold resolve_challenged.
    apply String.eqb_neq in Hne. now rewrite Hne, Hat.
Qed.

(** C6.  [new] from a caller without a session, below the limit of games.
    No parameter means gnubg; the parameter [gnubg] means gnubg; a
    parameter [@name] means the human [name]; any other parameter is
    answered 400 and the state is as before: no process was started, no
    session was added.  An accepted opponent, with an engine that starts
    and lets the drains end, gives the answer 200, one more process and
    one more session, of the caller against that opponent. *)
Theorem new_resolves_opponent
  (fuel : nat) (params : list string) (sp : slack_params) (st : State) :
  Z.of_nat (List.length (workers st)) <> max_games st ->
  sessions_of (user_name sp) (workers st) = [] ->
  (resolve_challenged [] = Some "gnubg"
   /\ (forall more, resolve_challenged ("gnubg" :: more) = Some "gnubg")
   /\ (forall name more, resolve_challenged (("@" ++ name) :: more) = Some name)
   /\ (forall p0 more,
          p0 <> "gnubg" -> Py.startswith p0 "@" = false ->
          resolve_challenged (p0 :: more) = None))
  /\ (resolve_challenged params = None ->
      new fuel params sp st
      = (Ok (HTTPBadRequest
               "You must challenge gnubg or an existing slack user (e.g. @austin)"), st))
  /\ (forall challenged engine,
         resolve_challenged params = Some challenged ->
         spawner st (List.length (procs st)) = Some engine ->
         responsive fuel engine ->
         exists p' st',
           new fuel params sp st = (Ok (Response None), st')
           /\ workers st'
              = (workers st ++ [((user_name sp, challenged), List.length (procs st))])%list
           /\ procs st' = (procs st ++ [p'])%list).
Proof.
  intros Hcap Hfree. split; [exact resolve_table|]. split.
  - intros Hnone. unfold new.
    assert (Hfree' : existsb (fun psw : player_pair * nat => is_in (user_name sp) (fst psw))
                             (workers st) = false).
    { destruct (existsb _ (workers st)) eqn:E; [|reflexivity].
      apply existsb_sessions in E. contradiction. }
    apply Z.eqb_neq in Hcap. now rewrite Hcap, Hfree', Hnone.
  - intros challenged engine Hres Hsp Hr.
    destruct (new_run fuel params sp st challenged engine Hcap Hfree Hres Hsp Hr)
      as [p' [st' [E [W [P _]]]]].
    exists p', st'. auto.
Qed.

Lemma new_resolves_opponent_witness :
  (resolve_challenged ["bob"] = None ->
   new 1 ["bob"] alice (server 2 mute)
   = (Ok (HTTPBadRequest
            "You must challenge gnubg or an existing slack user (e.g. @austin)"),
      server 2 mute))
  /\ (resolve_challenged ["@bob"] = Some "bob" ->
      spawner (server 2 mute) 0 = Some mute ->
      responsive 1 mute ->
      exists p' st',
        new 1 ["@bob"] alice (server 2 mute) = (Ok (Response None), st')
        /\ workers st' = [(("alice", "bob"), 0)]
        /\ procs st' = [p']).
Proof.
  split.
  - apply (new_resolves_opponent 1 ["bob"] alice (server 2 mute));
      [simpl; lia | reflexivity].
  - apply (new_resolves_opponent 1 ["@bob"] alice (server 2 mute));
      [simpl; lia | reflexivity].
Defined.

End Opponent.

Section Policy.

Import GnubgManager.




End Policy.

(** * Further properties of the code *)

(** ** The worker and the stream it reads *)

Section WorkerMore.

Import GnubgWorker.

Lemma command_answers (fuel : nat) (c : string) (p : Process) (lines : list string) :
  answers_with p (reads p) lines ->
  List.length lines < fuel ->
  command fuel c p = (Ok lines, write (sent c) (advance (S (List.length lines)) p)).
Proof.
  intros [Hne [Ht Hstop]] Hf.
  unfold command, bind, writeline, readlines, sent.
  rewrite collect_write, (collect_lines lines fuel p Hf Ht Hne Hstop). reflexivity.
Qed.

(** X1.  Each command reads on from where the last one stopped.  When the
    engine prints [first], pauses, prints [second] and pauses, a command
    returns [first] and the command after it returns [second], whatever
    the two commands were: an answer that comes after the pause (with
    [first] empty, the whole of it) is taken for the answer to the next
    command. *)
Theorem commands_read_on
  (fuel : nat) (c1 c2 : string) (p : Process) (first second : list string) :
  answers_with p (reads p) first ->
  answers_with p (reads p + S (List.length first)) second ->
  List.length first < fuel ->
  List.length second < fuel ->
  exists p',
    (r1 <- command fuel c1 ;; r2 <- command fuel c2 ;; ret (r1, r2)) p
    = (Ok (first, second), p')
    /\ stdin_log p' = (stdin_log p ++ [sent c1; sent c2])%list
    /\ reads p' = reads p + S (List.length first) + S (List.length second).
Proof.
  intros H1 H2 Hf1 Hf2.
  unfold bind at 1. rewrite (command_answers fuel c1 p first H1 Hf1).
  set (p1 := write (sent c1) (advance (S (List.length first)) p)).
  assert (H2' : answers_with p1 (reads p1) second) by exact H2.
  unfold bind at 1. rewrite (command_answers fuel c2 p1 second H2' Hf2).
  eexists. split; [reflexivity|]. simpl.
  split; [now rewrite <- app_assoc | reflexivity].
Qed.

Lemma commands_read_on_witness :
  exists p',
    (r1 <- command 2 "show turn" ;; r2 <- command 2 "roll" ;; ret (r1, r2)) slow_engine
    = (Ok ([], ["alice is on roll." ++ LF]), p')
    /\ stdin_log p' = (stdin_log slow_engine ++ [sent "show turn"; sent "roll"])%list
    /\ reads p' = reads slow_engine + 1 + 2.
Proof.
  apply (commands_read_on 2 "show turn" "roll" slow_engine [] ["alice is on roll." ++ LF]).
  - split; [constructor|]. split; [intros i Hi; simpl in Hi; lia | reflexivity].
  - split; [repeat constructor|].
    split; [intros i Hi; destruct i; [reflexivity | simpl in Hi; lia] | reflexivity].
  - simpl; lia.
  - simpl; lia.
Defined.

Lemma command_keeps_fate (fuel : nat) (c : string) (p : Process) :
  terminated (snd (command fuel c p)) = terminated p
  /\ exits_in_grace (snd (command fuel c p)) = exits_in_grace p.
Proof.
  rewrite command_eq. cbn [snd].
  destruct (asked_fields fuel c p) as [_ [X [G K]]].
  unfold terminated. now rewrite X, G, K.
Qed.

(** X2.  As long as every bounded read returns a line or times out,
    [GnubgWorker.quit] raises nothing, whether the process runs, has
    exited or was killed, and whatever lines it prints: [kill] is reached
    only for a process that is still there.  And when [quit] returns, the
    process is gone.  (A read that raises, for a line beyond the limit of
    the stream or for output that does not decode, is not an outcome of
    [tape].) *)
Theorem worker_quit_kill_is_safe (fuel : nat) (p : Process) :
  (forall e, fst (quit fuel p) <> Raised e)
  /\ (fst (quit fuel p) = Ok tt -> terminated (snd (quit fuel p)) = true).
Proof.
  unfold quit, bind.
  destruct (command_keeps_fate fuel "quit" p) as [T1 _].
  destruct (command fuel "quit" p) as [[l1|e1|] p1] eqn:E1; cbn [fst snd] in *.
  - destruct (command_keeps_fate fuel "y" p1) as [T2 _].
    destruct (command fuel "y" p1) as [[l2|e2|] p2] eqn:E2; cbn [fst snd] in *.
    + unfold wait_for_wait, kill, ret.
      destruct (terminated p2) eqn:Tp2; cbn [fst snd].
      * split; [discriminate | now rewrite Tp2].
      * destruct (exits_in_grace p2); cbn [fst snd].
        -- split; [discriminate|]. intros _. unfold terminated. simpl. reflexivity.
        -- rewrite Tp2. cbn [fst snd]. split; [discriminate|]. intros _.
           unfold terminated. simpl. apply orb_true_r.
    + rewrite command_eq in E2. destruct (next_response fuel p1); discriminate E2.
    + split; [discriminate | discriminate].
  - rewrite command_eq in E1. destruct (next_response fuel p); discriminate E1.
  - split; [discriminate | discriminate].
Qed.

End WorkerMore.

(** ** What a computation leaves alone *)

Section Respect.

Variable R : State -> State -> Prop.
Hypothesis R_refl : forall st, R st st.
Hypothesis R_trans : forall a b c, R a b -> R b c -> R a c.

Lemma respects_ret {A} (a : A) : respects R (ret a).
Proof. intros st. apply R_refl. Qed.

Lemma respects_raise {A} (e : exn) : respects R (@raise State A e).
Proof. intros st. apply R_refl. Qed.

Lemma respects_bind {A B} (m : M State A) (k : A -> M State B) :
  respects R m -> (forall a, respects R (k a)) -> respects R (bind m k).
Proof.
  intros Hm Hk st. unfold bind. specialize (Hm st).
  destruct (m st) as [[a|e|] st1]; simpl in *; try exact Hm.
  eapply R_trans; [exact Hm | apply Hk].
Qed.

Lemma respects_if {A} (b : bool) (m1 m2 : M State A) :
  respects R m1 -> respects R m2 -> respects R (if b then m1 else m2).
Proof. now destruct b. Qed.

(** When [R] is blind to the process behind [worker], to what is posted
    and to the dict, the whole of a gated command respects it. *)
Hypothesis R_post : forall message channel, respects R (IncomingWebhook.post message channel).
Hypothesis R_workers : forall ws st, R st (set_workers ws st).

Section OneWorker.

Variable worker : nat.
Hypothesis R_proc : forall A (f : M Process A), respects R (on_proc worker f).

Lemma run_command_respects (name : string) (fuel : nat) (params : list string)
  (sp : slack_params) (player opponent : string) :
  respects R (GnubgManager.run_command name fuel params sp player opponent worker).
Proof.
  unfold GnubgManager.run_command.
  apply respects_bind; [apply R_proc|]. intros l1.
  apply respects_bind; [apply R_post|]. intros _.
  apply respects_bind; [apply R_proc|]. intros l2.
  apply respects_if.
  - apply respects_bind; [apply R_proc | intros _; apply respects_ret].
  - apply respects_ret.
Qed.

Lemma quit_body_respects (fuel : nat) (params : list string)
  (sp : slack_params) (player opponent : string) :
  respects R (GnubgManager.quit_body fuel params sp player opponent worker).
Proof.
  unfold GnubgManager.quit_body.
  apply respects_bind; [apply R_proc|]. intros _.
  apply respects_bind.
  - intros st. cbv beta zeta. destruct (Dict.del _ (workers st)); simpl;
      [apply R_workers | apply R_refl].
  - intros _. apply respects_bind; [apply R_post | intros _; apply respects_ret].
Qed.

Lemma after_lookup_respects (turn_required : bool) (f : GnubgManager.inner_handler)
  (fuel : nat) (params : list string) (sp : slack_params) (opponent : string) :
  respects R (f fuel params sp (user_name sp) opponent worker) ->
  respects R (after_lookup turn_required f fuel params sp opponent worker).
Proof.
  intros Hf. unfold after_lookup.
  apply respects_bind; [apply R_proc|]. intros lines.
  destruct (Py.split _) as [|turn more]; [apply respects_raise|].
  apply respects_if; [apply respects_ret | exact Hf].
Qed.

End OneWorker.

End Respect.

Section Lookup.

Import GnubgManager.

Lemma game_required_lookup (turn_required : bool) (f : inner_handler) (fuel : nat)
  (params : list string) (sp : slack_params) (st : State) :
  game_required turn_required f fuel params sp st
  = match sessions_of (user_name sp) (workers st) with
    | [] => (Ok (HTTPForbidden "You do not have a game in progress."), st)
    | (players, worker) :: _ =>
        match next_other players (user_name sp) with
        | None => (Raised RuntimeError, st)
        | Some opponent => after_lookup turn_required f fuel params sp opponent worker st
        end
    end.
Proof.
  reflexivity.
Qed.

(** a gated command is the wrapper around [run_command] or around the body
    of [quit] *)
Lemma gated_shape (c : cmd) :
  policy c <> Ungated ->
  exists turn_required f,
    handler_of c = game_required turn_required f
    /\ ((exists name, f = run_command name) \/ f = quit_body).
Proof.
  intros H. destruct (gated_body c H) as [f [Hf [Hb|[_ Hb]]]]; eauto.
Qed.

(** Any relation that a gated command respects for the engine it works
    with holds between the state before and after the request. *)
Lemma gated_respects (R : nat -> State -> State -> Prop) (c : cmd) :
  (forall h st, R h st st) ->
  (forall h a b d, R h a b -> R h b d -> R h a d) ->
  (forall h message channel, respects (R h) (IncomingWebhook.post message channel)) ->
  (forall h ws st, R h st (set_workers ws st)) ->
  (forall h A (f : M Process A), respects (R h) (on_proc h f)) ->
  policy c <> Ungated ->
  forall fuel params sp st,
    match sessions_of (user_name sp) (workers st) with
    | [] => snd (handler_of c fuel params sp st) = st
    | (_, h) :: _ => R h st (snd (handler_of c fuel params sp st))
    end.
Proof.
  intros Rrefl Rtrans Rpost Rws Rproc Hpol fuel params sp st.
  destruct (gated_shape c Hpol) as [tr [f [Hf Hb]]].
  rewrite Hf, game_required_lookup.
  destruct (sessions_of (user_name sp) (workers st)) as [|[players h] rest];
    [reflexivity|].
  destruct (next_other players (user_name sp)) as [opponent|]; [|apply Rrefl].
  apply (after_lookup_respects (R h) (Rrefl h) (Rtrans h) h (Rproc h)).
  destruct Hb as [[name ->] | ->].
  - apply (run_command_respects (R h) (Rrefl h) (Rtrans h) (Rpost h) h (Rproc h)).
  - apply (quit_body_respects (R h) (Rrefl h) (Rtrans h) (Rpost h) (Rws h) h (Rproc h)).
Qed.

End Lookup.

Section EngineOnly.

Import GnubgManager.

Lemma engine_only_refl (h : nat) (st : State) : engine_only h st st.
Proof. repeat split. Qed.

Lemma engine_only_trans (h : nat) (a b d : State) :
  engine_only h a b -> engine_only h b d -> engine_only h a d.
Proof.
  intros [[M1 S1] [L1 N1]] [[M2 S2] [L2 N2]]. repeat split; try congruence.
  intros h' Hne. rewrite N2, N1; auto.
Qed.

Lemma engine_only_post (h : nat) (message channel : string) :
  respects (engine_only h) (IncomingWebhook.post message channel).
Proof. intros st. repeat split. Qed.

Lemma engine_only_workers (h : nat) (ws : list (player_pair * nat)) (st : State) :
  engine_only h st (set_workers ws st).
Proof. repeat split. Qed.

Lemma engine_only_proc (h : nat) (A : Type) (f : M Process A) :
  respects (engine_only h) (on_proc h f).
Proof.
  intros st. unfold on_proc.
  destruct (nth_error (procs st) h) as [p|]; [|apply engine_only_refl].
  destruct (f p) as [r p']. simpl. repeat split; simpl.
  - apply replace_nth_length.
  - intros h' Hne. apply nth_error_replace_nth_other. congruence.
Qed.

Lemma new_after_start_engine_only (fuel : nat) (sp : slack_params)
  (challenged : string) (worker : nat) :
  respects (engine_only worker) (new_after_start fuel sp challenged worker).
Proof.
  pose proof (engine_only_refl worker) as Rr.
  pose proof (engine_only_trans worker) as Rt.
  unfold new_after_start.
  apply (respects_bind _ Rt); [apply engine_only_proc|]. intros _.
  apply (respects_bind _ Rt).
  { apply respects_if; [|apply (respects_ret _ Rr)].
    apply (respects_bind _ Rt); [apply engine_only_proc|]. intros _.
    apply (respects_bind _ Rt); [apply engine_only_proc|]. intros _.
    apply (respects_ret _ Rr). }
  intros _. apply (respects_bind _ Rt); [apply engine_only_proc|]. intros out.
  apply (respects_bind _ Rt); [apply engine_only_post|]. intros _.
  apply (respects_ret _ Rr).
Qed.

Lemma new_after_start_keeps (fuel : nat) (sp : slack_params)
  (challenged : string) (worker : nat) :
  keeps_workers (new_after_start fuel sp challenged worker).
Proof.
  unfold new_after_start.
  apply keeps_bind; [auto with frame|]. intros _.
  apply keeps_bind; [destruct (negb (challenged =? "gnubg")); auto 10 with frame|].
  intros _. apply keeps_bind; [auto with frame|]. intros out.
  apply keeps_bind; auto with frame.
Qed.

(** what [new] does to the state, whatever its outcome *)
Lemma new_shape (fuel : nat) (params : list string) (sp : slack_params) (st : State) :
  same_config st (snd (new fuel params sp st))
  /\ procs_below (List.length (procs st)) st (snd (new fuel params sp st))
  /\ (workers (snd (new fuel params sp st)) = workers st
      \/ exists challenged,
           workers (snd (new fuel params sp st))
           = (workers st ++ [((user_name sp, challenged), List.length (procs st))])%list
           /\ List.length (procs st) < List.length (procs (snd (new fuel params sp st)))
           /\ Z.of_nat (List.length (workers st)) <> max_games st
           /\ sessions_of (user_name sp) (workers st) = []
           /\ resolve_challenged params = Some challenged).
Proof.
  assert (Same : forall st',
             st' = st ->
             same_config st st'
             /\ procs_below (List.length (procs st)) st st'
             /\ (workers st' = workers st
                 \/ exists challenged,
                      workers st'
                      = (workers st ++ [((user_name sp, challenged), List.length (procs st))])%list
                      /\ List.length (procs st) < List.length (procs st')
                      /\ Z.of_nat (List.length (workers st)) <> max_games st
                      /\ sessions_of (user_name sp) (workers st) = []
                      /\ resolve_challenged params = Some challenged)).
  { intros st' ->. repeat split; auto. }
  remember (snd (new fuel params sp st)) as st' eqn:E.
  unfold new in E.
  destruct (Z.of_nat (List.length (workers st)) =? max_games st)%Z eqn:Hcap;
    [apply Same; exact E|].
  destruct (existsb _ (workers st)) eqn:Hfree; [apply Same; exact E|].
  destruct (resolve_challenged params) as [challenged|] eqn:Hres;
    [|apply Same; exact E].
  change (bind (GnubgWorker.start fuel) _)
    with (worker <- GnubgWorker.start fuel ;;
          (fun st' => (Ok tt, set_workers
                                (Dict.set (user_name sp, challenged) worker (workers st')) st'))
          ;;; new_after_start fuel sp challenged worker) in E.
  unfold bind at 1 in E. unfold GnubgWorker.start in E.
  destruct (spawner st (List.length (procs st))) as [engine|]; [|apply Same; exact E].
  set (h := List.length (procs st)) in *.
  set (st0 := set_procs (procs st ++ [GnubgWorker.fresh engine]) st) in *.
  pose proof (engine_only_proc h _ (GnubgWorker.readlines fuel) st0) as F0.
  pose proof (keeps_on_proc h (GnubgWorker.readlines fuel) st0) as W0.
  unfold bind at 1 in E.
  assert (Len0 : List.length (procs st0) = S h)
    by (unfold st0; simpl; rewrite length_app; simpl; unfold h; lia).
  assert (Old0 : forall h', h' < h -> nth_error (procs st0) h' = nth_error (procs st) h')
    by (intros h' Hlt; unfold st0; simpl; apply nth_error_app1; exact Hlt).
  revert E F0 W0.
  destruct (on_proc h (GnubgWorker.readlines fuel) st0) as [[ls|e|] st1];
    cbn [fst snd]; intros E [[M0 S0] [L0 N0]] W0.
  - unfold ret at 1 in E. unfold bind at 1 in E. cbv beta in E.
    set (st2 := set_workers _ st1) in E.
    pose proof (new_after_start_engine_only fuel sp challenged h st2) as F2.
    pose proof (new_after_start_keeps fuel sp challenged h st2) as W2.
    revert E F2 W2.
    destruct (new_after_start fuel sp challenged h st2) as [r st3]; cbn [fst snd].
    intros E [[M2 S2] [L2 N2]] W2. subst st'.
    assert (E2 : procs st2 = procs st1) by reflexivity.
    assert (E3 : max_games st2 = max_games st1 /\ spawner st2 = spawner st1)
      by (split; reflexivity).
    assert (E0 : max_games st0 = max_games st /\ spawner st0 = spawner st)
      by (split; reflexivity).
    destruct E3 as [E3 E4]. destruct E0 as [E5 E6].
    split; [split; congruence|]. split.
    + intros _. split; [rewrite L2, E2, L0, Len0; lia|].
      intros h' Hlt. rewrite N2 by lia. rewrite E2, N0 by lia. now apply Old0.
    + right. exists challenged. split.
      * rewrite W2. unfold st2; simpl. rewrite W0. unfold st0; simpl.
        apply set_fresh. exact Hfree.
      * split; [rewrite L2, E2, L0, Len0; lia|].
        split; [now apply Z.eqb_neq|]. split; [|reflexivity].
        destruct (sessions_of (user_name sp) (workers st)) eqn:Es; [reflexivity|].
        assert (T : sessions_of (user_name sp) (workers st) <> [])
          by (rewrite Es; discriminate).
        apply existsb_sessions in T. congruence.
  - subst st'.
    assert (E0 : max_games st0 = max_games st /\ spawner st0 = spawner st)
      by (split; reflexivity).
    destruct E0 as [E5 E6].
    split; [split; congruence|]. split.
    + intros _. split; [rewrite L0, Len0; lia|].
      intros h' Hlt. rewrite N0 by lia. now apply Old0.
    + left. rewrite W0. reflexivity.
  - subst st'.
    assert (E0 : max_games st0 = max_games st /\ spawner st0 = spawner st)
      by (split; reflexivity).
    destruct E0 as [E5 E6].
    split; [split; congruence|]. split.
    + intros _. split; [rewrite L0, Len0; lia|].
      intros h' Hlt. rewrite N0 by lia. now apply Old0.
    + left. rewrite W0. reflexivity.
Qed.

End EngineOnly.

(** ** Sessions, engines and the limit of games *)

Section Registry.

Import GnubgManager.

Lemma gated_engine_only (c : cmd) (fuel : nat) (params : list string)
  (sp : slack_params) (st : State) :
  policy c <> Ungated ->
  match sessions_of (user_name sp) (workers st) with
  | [] => snd (handler_of c fuel params sp st) = st
  | (_, h) :: _ => engine_only h st (snd (handler_of c fuel params sp st))
  end.
Proof.
  intros Hpol.
  apply (gated_respects engine_only c engine_only_refl engine_only_trans
           engine_only_post engine_only_workers engine_only_proc Hpol).
Qed.

Lemma ungated_cases (c : cmd) :
  policy c = Ungated -> c = Chelp \/ c = Cinfo \/ c = Cnew.
Proof.
  destruct c; simpl; intros H; try discriminate; auto.
Qed.

(** X3.  A request leaves alone every engine but the one of the caller's
    own session (the first that names them): whatever the command and its
    outcome, any other process of the table is afterwards exactly what it
    was, and [new] touches no engine that was already there. *)
Theorem request_leaves_other_engines
  (c : cmd) (fuel : nat) (params : list string) (sp : slack_params) (st : State)
  (h' : nat) (p : Process) :
  nth_error (procs st) h' = Some p ->
  (forall players rest,
      sessions_of (user_name sp) (workers st) <> (players, h') :: rest) ->
  nth_error (procs (snd (handler_of c fuel params sp st))) h' = Some p.
Proof.
  intros Hp Hother.
  destruct (policy c) eqn:Epol.
  1, 2: assert (Hpol : policy c <> Ungated) by congruence;
    pose proof (gated_engine_only c fuel params sp st Hpol) as G;
    destruct (sessions_of (user_name sp) (workers st)) as [|[players h] rest];
    [ now rewrite G
    | destruct G as [_ [_ N]]; rewrite N; [exact Hp|];
      intros ->; now apply (Hother players rest) ].
  destruct (ungated_cases c Epol) as [-> | [-> | ->]]; try exact Hp.
  simpl. destruct (new_shape fuel params sp st) as [_ [B _]].
  destruct (B (le_n _)) as [_ N]. rewrite N; [exact Hp|].
  apply nth_error_Some. congruence.
Qed.

Lemma request_leaves_other_engines_witness :
  nth_error (procs (snd (handler_of Croll 1 [] alice two_against_gnubg))) 1
  = Some bob_engine.
Proof.
  apply (request_leaves_other_engines Croll 1 [] alice two_against_gnubg 1 bob_engine).
  - reflexivity.
  - intros players rest H. vm_compute in H. inversion H.
Defined.

Lemma bind_shrinks {A B} (m : M State A) (k : A -> M State B) :
  keeps_workers m ->
  (forall a st, dict_shrinks (workers st) (workers (snd (k a st)))) ->
  forall st, dict_shrinks (workers st) (workers (snd (bind m k st))).
Proof.
  intros Hm Hk st. unfold bind. specialize (Hm st).
  destruct (m st) as [[a|e|] st']; simpl in *.
  - rewrite <- Hm. apply Hk.
  - left. exact Hm.
  - left. exact Hm.
Qed.

Lemma quit_body_shrinks (fuel : nat) (params : list string) (sp : slack_params)
  (player opponent : string) (worker : nat) (st : State) :
  dict_shrinks (workers st)
               (workers (snd (quit_body fuel params sp player opponent worker st))).
Proof.
  unfold quit_body. revert st.
  apply bind_shrinks; [auto with frame|]. intros _ st.
  unfold bind at 1. cbv beta zeta.
  destruct (Dict.del _ (workers st)) as [ws|] eqn:E; [|left; reflexivity].
  match goal with
  | |- dict_shrinks _ (workers (snd (?m ?s))) =>
      assert (K : workers (snd (m s)) = workers s)
  end.
  { apply (keeps_bind _ (fun _ => ret (Response None))); auto with frame. }
  rewrite K. simpl. right. eauto.
Qed.

(** a gated command takes at most one key out of the dict *)
Lemma gated_shrinks (c : cmd) (fuel : nat) (params : list string)
  (sp : slack_params) (st : State) :
  policy c <> Ungated ->
  dict_shrinks (workers st) (workers (snd (handler_of c fuel params sp st))).
Proof.
  intros Hpol. destruct (gated_shape c Hpol) as [tr [f [Hf Hb]]].
  rewrite Hf, game_required_lookup.
  destruct (sessions_of (user_name sp) (workers st)) as [|[players h] rest];
    [left; reflexivity|].
  destruct (next_other players (user_name sp)) as [opponent|]; [|left; reflexivity].
  unfold after_lookup. revert st.
  apply bind_shrinks; [auto with frame|]. intros lines st.
  destruct (Py.split _) as [|turn more]; [left; reflexivity|].
  destruct (_ && _); [left; reflexivity|].
  destruct Hb as [[name ->] | ->].
  - left. apply run_command_keeps.
  - apply quit_body_shrinks.
Qed.

Lemma del_splits {V} (k : player_pair) :
  forall ws ws' : list (player_pair * V),
    Dict.del k ws = Some ws' ->
    exists l1 e l2, ws = (l1 ++ e :: l2)%list /\ ws' = (l1 ++ l2)%list.
Proof.
  induction ws as [|[k' v] ws IH]; intros ws' H; simpl in H; [discriminate|].
  destruct (Dict.key_eqb k' k).
  - inversion H; subst. exists [], (k', v), ws'. auto.
  - destruct (Dict.del k ws) as [r|] eqn:E; [|discriminate].
    inversion H; subst. destruct (IH r eq_refl) as [l1 [e [l2 [E1 E2]]]].
    exists ((k', v) :: l1), e, l2. subst. auto.
Qed.

Lemma shrinks_sound (st st' : State) :
  dict_shrinks (workers st) (workers st') ->
  List.length (procs st') = List.length (procs st) ->
  workers_sound st -> workers_sound st'.
Proof.
  intros Hs Hl [Hv Hd]. unfold workers_sound. rewrite Hl.
  destruct Hs as [E|[k E]]; [rewrite E; auto|].
  destruct (del_splits k _ _ E) as [l1 [e [l2 [E1 E2]]]].
  rewrite E1 in Hv, Hd. rewrite E2. split.
  - apply Forall_app in Hv. destruct Hv as [H1 H2]. inversion H2; subst.
    apply Forall_app. auto.
  - rewrite map_app in *. simpl in Hd. eapply NoDup_remove_1; eauto.
Qed.

Lemma handler_sound (c : cmd) (fuel : nat) (params : list string)
  (sp : slack_params) (st : State) :
  workers_sound st -> workers_sound (snd (handler_of c fuel params sp st)).
Proof.
  intros Hsound. destruct (policy c) eqn:Epol.
  1, 2: assert (Hpol : policy c <> Ungated) by congruence;
    apply (shrinks_sound st); [now apply gated_shrinks| |exact Hsound];
    pose proof (gated_engine_only c fuel params sp st Hpol) as G;
    destruct (sessions_of (user_name sp) (workers st)) as [|[players h] rest];
    [now rewrite G | now destruct G as [_ [L _]]].
  destruct (ungated_cases c Epol) as [-> | [-> | ->]]; try exact Hsound.
  simpl. destruct (new_shape fuel params sp st) as [_ [B W]].
  destruct (B (le_n _)) as [Hle _]. destruct Hsound as [Hv Hd].
  destruct W as [W|[challenged [W [Hlt _]]]]; unfold workers_sound; rewrite W.
  - split; [|exact Hd]. eapply Forall_impl; [|exact Hv]. simpl. intros e He. lia.
  - split.
    + apply Forall_app. split.
      * eapply Forall_impl; [|exact Hv]. simpl. intros e He. lia.
      * constructor; [exact Hlt | constructor].
    + rewrite map_app. simpl.
      apply NoDup_app; [exact Hd | constructor; [intros []|constructor] |].
      intros a Hin [Ha|[]]. apply in_map_iff in Hin. destruct Hin as [e [He Hin]].
      rewrite Forall_forall in Hv. specialize (Hv e Hin). simpl in He. lia.
Qed.

(** X4.  When the requests are served one after the other, each session
    of the dict has its engine in the table of processes and no two
    sessions have the same engine, in every state the server comes to. *)
Theorem sessions_have_their_engines (st : State) :
  reachable st ->
  (forall players h, In (players, h) (workers st) ->
                     exists p, nth_error (procs st) h = Some p)
  /\ NoDup (map (fun e : player_pair * nat => snd e) (workers st)).
Proof.
  intros Hr.
  assert (Hs : workers_sound st).
  { induction Hr as [max sp|st c fuel params caller _ IH].
    - split; constructor.
    - now apply handler_sound. }
  destruct Hs as [Hv Hd]. split; [|exact Hd].
  intros players h Hin. rewrite Forall_forall in Hv. specialize (Hv _ Hin). simpl in Hv.
  destruct (nth_error (procs st) h) as [p|] eqn:E; [eauto|].
  apply nth_error_None in E. lia.
Qed.

Lemma sessions_have_their_engines_witness :
  (forall players h, In (players, h) (workers two_against_gnubg) ->
                     exists p, nth_error (procs two_against_gnubg) h = Some p)
  /\ NoDup (map (fun e : player_pair * nat => snd e) (workers two_against_gnubg)).
Proof.
  apply sessions_have_their_engines.
  unfold two_against_gnubg. apply reach_request. apply reach_request. apply reach_start.
Defined.

End Registry.

Section Limit.

Import GnubgManager.

Lemma handler_config (c : cmd) (fuel : nat) (params : list string)
  (sp : slack_params) (st : State) :
  same_config st (snd (handler_of c fuel params sp st)).
Proof.
  destruct (policy c) eqn:Epol.
  1, 2: assert (Hpol : policy c <> Ungated) by congruence;
    pose proof (gated_engine_only c fuel params sp st Hpol) as G;
    destruct (sessions_of (user_name sp) (workers st)) as [|[players h] rest];
    [rewrite G; split; reflexivity | apply G].
  destruct (ungated_cases c Epol) as [-> | [-> | ->]]; try (split; reflexivity).
  apply new_shape.
Qed.

Lemma del_length {V} (k : player_pair) (ws ws' : list (player_pair * V)) :
  Dict.del k ws = Some ws' -> List.length ws = S (List.length ws').
Proof.
  intros H. destruct (del_splits k _ _ H) as [l1 [e [l2 [-> ->]]]].
  rewrite !length_app. simpl. lia.
Qed.

(** a request adds at most one session, and adds none when the dict holds
    [max_games] of them *)
Lemma handler_count (c : cmd) (fuel : nat) (params : list string)
  (sp : slack_params) (st : State) :
  List.length (workers (snd (handler_of c fuel params sp st))) <= List.length (workers st)
  \/ (List.length (workers (snd (handler_of c fuel params sp st)))
      = S (List.length (workers st))
      /\ Z.of_nat (List.length (workers st)) <> max_games st).
Proof.
  destruct (policy c) eqn:Epol.
  1, 2: assert (Hpol : policy c <> Ungated) by congruence; left;
    destruct (gated_shrinks c fuel params sp st Hpol) as [E|[k E]];
    [rewrite E; lia | apply del_length in E; lia].
  destruct (ungated_cases c Epol) as [-> | [-> | ->]]; try (left; simpl; lia).
  simpl. destruct (new_shape fuel params sp st) as [_ [_ W]].
  destruct W as [W|[challenged [W [_ [Hcap _]]]]]; rewrite W.
  - left. lia.
  - right. rewrite length_app. simpl. split; [lia | exact Hcap].
Qed.

(** X5.  When the requests are served one after the other and the limit
    is not negative, the number of sessions does not exceed [max_games]
    in any state the server comes to.  (Nothing is said of requests that
    are served at the same time: [new] compares the count before it waits
    for the engine to start and registers the session after.) *)
Theorem games_within_limit (st : State) :
  reachable st ->
  (0 <= max_games st)%Z ->
  (Z.of_nat (List.length (workers st)) <= max_games st)%Z.
Proof.
  induction 1 as [max sp|st c fuel params caller _ IH]; intros Hmax.
  - simpl in *. lia.
  - destruct (handler_config c fuel params caller st) as [Hm _].
    rewrite Hm in *. specialize (IH Hmax).
    destruct (handler_count c fuel params caller st) as [Hle|[Heq Hne]]; lia.
Qed.

Lemma games_within_limit_witness :
  (Z.of_nat (List.length (workers two_against_gnubg)) <= max_games two_against_gnubg)%Z.
Proof.
  apply games_within_limit.
  - unfold two_against_gnubg. apply reach_request. apply reach_request. apply reach_start.
  - vm_compute. discriminate.
Defined.

End Limit.

(** ** What is posted to Slack *)

Section Posts.

Import GnubgManager.

Lemma same_posts_refl (st : State) : same_posts st st.
Proof. reflexivity. Qed.

Lemma same_posts_trans (a b d : State) :
  same_posts a b -> same_posts b d -> same_posts a d.
Proof. unfold same_posts. congruence. Qed.

Lemma same_posts_proc (h : nat) (A : Type) (f : M Process A) :
  respects same_posts (on_proc h f).
Proof.
  intros st. unfold on_proc. destruct (nth_error (procs st) h); [|reflexivity].
  now destruct (f p).
Qed.

Lemma answers_raise (e : exn) : answers_200 (raise e).
Proof. intros st r H. discriminate H. Qed.

Lemma run_command_answers (name : string) (fuel : nat) (params : list string)
  (sp : slack_params) (player opponent : string) (worker : nat) :
  answers_200 (run_command name fuel params sp player opponent worker).
Proof.
  unfold run_command.
  apply answers_bind. intros l1. apply answers_bind. intros _.
  apply answers_bind. intros l2.
  destruct (Py.startswith _ _); [|apply answers_ret].
  apply answers_bind. intros _. apply answers_ret.
Qed.

Lemma quit_body_answers (fuel : nat) (params : list string)
  (sp : slack_params) (player opponent : string) (worker : nat) :
  answers_200 (quit_body fuel params sp player opponent worker).
Proof.
  unfold quit_body.
  apply answers_bind. intros _. apply answers_bind. intros _.
  apply answers_bind. intros _. apply answers_ret.
Qed.

Lemma new_bad_request (fuel : nat) (params : list string) (sp : slack_params) (st : State) :
  (Z.of_nat (List.length (workers st)) =? max_games st)%Z = false ->
  existsb (fun psw : player_pair * nat => is_in (user_name sp) (fst psw)) (workers st) = false ->
  resolve_challenged params = None ->
  new fuel params sp st
  = (Ok (HTTPBadRequest
           "You must challenge gnubg or an existing slack user (e.g. @austin)"), st).
Proof.
  intros H1 H2 H3. unfold new. now rewrite H1, H2, H3.
Qed.

(** X6.  A request that is answered with a refusal (403, 503 or 400) has
    posted nothing to Slack and has changed no session. *)
Theorem refusal_posts_nothing
  (c : cmd) (fuel : nat) (params : list string) (sp : slack_params) (st : State)
  (r : response) :
  fst (handler_of c fuel params sp st) = Ok r ->
  (forall text, r <> Response text) ->
  posts (snd (handler_of c fuel params sp st)) = posts st
  /\ workers (snd (handler_of c fuel params sp st)) = workers st.
Proof.
  intros Hr Hrefused.
  destruct (policy c) eqn:Epol.
  1, 2: assert (Hpol : policy c <> Ungated) by congruence;
    destruct (gated_shape c Hpol) as [tr [f [Hf Hb]]];
    rewrite Hf, game_required_lookup in *;
    destruct (sessions_of (user_name sp) (workers st)) as [|[players h] rest];
    [split; reflexivity|];
    destruct (next_other players (user_name sp)) as [opponent|]; [|discriminate Hr];
    unfold after_lookup, bind in *;
    pose proof (same_posts_proc h _ (GnubgWorker.command fuel "show turn") st) as P;
    pose proof (keeps_on_proc h (GnubgWorker.command fuel "show turn") st) as W;
    destruct (on_proc h (GnubgWorker.command fuel "show turn") st) as [[lines|e|] st1];
    cbn [fst snd] in *; try discriminate Hr;
    destruct (Py.split (Py.join "" lines)) as [|turn more]; [discriminate Hr|];
    destruct (tr && negb (turn =? user_name sp)); [split; assumption|];
    exfalso;
    (destruct Hb as [[name ->] | ->];
     [ apply run_command_answers in Hr | apply quit_body_answers in Hr ];
     exact (Hrefused None Hr)).
  destruct (ungated_cases c Epol) as [-> | [-> | ->]]; simpl in *.
  - inversion Hr; subst. exfalso. eapply Hrefused; reflexivity.
  - inversion Hr; subst. exfalso. eapply Hrefused; reflexivity.
  - destruct (Z.of_nat (List.length (workers st)) =? max_games st)%Z eqn:Hcap.
    { rewrite (new_at_capacity _ _ _ _ Hcap). split; reflexivity. }
    destruct (existsb (fun psw : player_pair * nat => is_in (user_name sp) (fst psw))
                      (workers st)) eqn:Hfree.
    { rewrite (new_in_conflict _ _ _ _ Hcap Hfree). split; reflexivity. }
    destruct (new_outcomes fuel params sp st Hcap Hfree r Hr) as [->|[Hnone _]].
    + exfalso. eapply Hrefused; reflexivity.
    + rewrite (new_bad_request _ _ _ _ Hcap Hfree Hnone). split; reflexivity.
Qed.

Lemma refusal_posts_nothing_witness :
  posts (snd (handler_of Cmove 2 ["24"; "18"] alice waiting_for_gnubg))
  = posts waiting_for_gnubg
  /\ workers (snd (handler_of Cmove 2 ["24"; "18"] alice waiting_for_gnubg))
     = workers waiting_for_gnubg.
Proof.
  apply (refusal_posts_nothing Cmove 2 ["24"; "18"] alice waiting_for_gnubg
           (HTTPForbidden "It's not your turn!")).
  - reflexivity.
  - intros text H. discriminate H.
Defined.

End Posts.

Section Announce.

Import GnubgManager.

Lemma announces_after {A} (channel : string) (m : M State A) (k : A -> M State response) :
  respects same_posts m ->
  (forall a, announces channel (k a)) ->
  announces channel (bind m k).
Proof.
  intros Hm Hk st. unfold bind. specialize (Hm st). unfold same_posts in Hm.
  destruct (m st) as [[a|e|] st1]; cbn [fst snd] in *; try discriminate.
  intros H. destruct (Hk a st1 H) as [text E]. exists text. now rewrite E, Hm.
Qed.

Lemma announces_post (channel message : string) (k : unit -> M State response) :
  (forall a, respects same_posts (k a)) ->
  announces channel (bind (IncomingWebhook.post message channel) k).
Proof.
  intros Hk st _. unfold bind, IncomingWebhook.post. exists message.
  rewrite (Hk tt). reflexivity.
Qed.

Lemma same_posts_ret {A} (a : A) : respects same_posts (ret a).
Proof. intros st. reflexivity. Qed.

Lemma same_posts_bind {A B} (m : M State A) (k : A -> M State B) :
  respects same_posts m -> (forall a, respects same_posts (k a)) ->
  respects same_posts (bind m k).
Proof. apply respects_bind. exact same_posts_trans. Qed.

Lemma run_command_announces (name : string) (fuel : nat) (params : list string)
  (sp : slack_params) (player opponent : string) (worker : nat) :
  announces (channel_id sp) (run_command name fuel params sp player opponent worker).
Proof.
  unfold run_command.
  apply announces_after; [apply same_posts_proc|]. intros l1.
  apply announces_post. intros _.
  apply same_posts_bind; [apply same_posts_proc|]. intros l2.
  destruct (Py.startswith _ _); [|apply same_posts_ret].
  apply same_posts_bind; [apply same_posts_proc|]. intros _. apply same_posts_ret.
Qed.

Lemma quit_body_announces (fuel : nat) (params : list string)
  (sp : slack_params) (player opponent : string) (worker : nat) :
  announces (channel_id sp) (quit_body fuel params sp player opponent worker).
Proof.
  unfold quit_body.
  apply announces_after; [apply same_posts_proc|]. intros _.
  apply announces_after.
  { intros st. cbv beta zeta. destruct (Dict.del _ (workers st)); reflexivity. }
  intros _. apply announces_post. intros _. apply same_posts_ret.
Qed.

Lemma new_after_start_announces (fuel : nat) (sp : slack_params)
  (challenged : string) (worker : nat) :
  announces (channel_id sp) (new_after_start fuel sp challenged worker).
Proof.
  unfold new_after_start.
  apply announces_after; [apply same_posts_proc|]. intros _.
  apply announces_after.
  { destruct (negb (challenged =? "gnubg")); [|apply same_posts_ret].
    apply same_posts_bind; [apply same_posts_proc|]. intros _.
    apply same_posts_bind; [apply same_posts_proc|]. intros _. apply same_posts_ret. }
  intros _. apply announces_after; [apply same_posts_proc|]. intros out.
  apply announces_post. intros _. apply same_posts_ret.
Qed.

Lemma start_same_posts (fuel : nat) : respects same_posts (GnubgWorker.start fuel).
Proof.
  intros st. unfold GnubgWorker.start.
  destruct (spawner st (List.length (procs st))) as [p|]; [|reflexivity].
  match goal with
  | |- same_posts _ (snd (?m ?s)) => assert (K : same_posts s (snd (m s)))
  end.
  { apply same_posts_bind; [apply same_posts_proc | intros _; apply same_posts_ret]. }
  unfold same_posts in *. rewrite K. reflexivity.
Qed.

(** X7.  A request that is answered with the empty 200 (a game command
    that ran, a [new] that opened a game, a [quit]) has posted one
    message to Slack, in the channel the request came from. *)
Theorem served_request_posts_once
  (c : cmd) (fuel : nat) (params : list string) (sp : slack_params) (st : State) :
  fst (handler_of c fuel params sp st) = Ok (Response None) ->
  exists text,
    posts (snd (handler_of c fuel params sp st)) = (posts st ++ [(channel_id sp, text)])%list.
Proof.
  destruct (policy c) eqn:Epol.
  1, 2: assert (Hpol : policy c <> Ungated) by congruence;
    destruct (gated_shape c Hpol) as [tr [f [Hf Hb]]];
    rewrite Hf, game_required_lookup;
    destruct (sessions_of (user_name sp) (workers st)) as [|[players h] rest];
    [discriminate|];
    destruct (next_other players (user_name sp)) as [opponent|]; [|discriminate];
    revert st; unfold after_lookup;
    apply announces_after; [apply same_posts_proc|]; intros lines;
    destruct (Py.split (Py.join "" lines)) as [|turn more]; [discriminate|];
    destruct (tr && negb (turn =? user_name sp)); [discriminate|];
    (destruct Hb as [[name ->] | ->];
     [apply run_command_announces | apply quit_body_announces]).
  destruct (ungated_cases c Epol) as [-> | [-> | ->]]; try discriminate.
  simpl. unfold new.
  destruct (Z.of_nat (List.length (workers st)) =? max_games st)%Z; [discriminate|].
  destruct (existsb _ (workers st)); [discriminate|].
  destruct (resolve_challenged params) as [challenged|]; [|discriminate].
  change (bind (GnubgWorker.start fuel) _)
    with (worker <- GnubgWorker.start fuel ;;
          (fun st' => (Ok tt, set_workers
                                (Dict.set (user_name sp, challenged) worker (workers st')) st'))
          ;;; new_after_start fuel sp challenged worker).
  revert st. apply announces_after; [apply start_same_posts|]. intros worker.
  apply announces_after; [intros st; reflexivity|]. intros _.
  apply new_after_start_announces.
Qed.

Lemma served_request_posts_once_witness :
  exists text,
    posts (snd (handler_of Cquit 12 [] alice alice_game))
    = (posts alice_game ++ [(channel_id alice, text)])%list.
Proof.
  apply (served_request_posts_once Cquit 12 [] alice alice_game). reflexivity.
Defined.

End Announce.

(** ** A player against themselves *)

Section SelfChallenge.

Import GnubgManager.

Lemma sessions_of_app (user : string) (ws ws' : list (player_pair * nat)) :
  sessions_of user (ws ++ ws') = (sessions_of user ws ++ sessions_of user ws')%list.
Proof.
  unfold sessions_of. apply filter_app.
Qed.

(** X8.  [new @name] from the player [name] themselves is accepted like
    any other challenge, and the session it opens cannot be played nor
    left: every game command of that player, [quit] included, raises
    ([next] finds no opponent in the pair) and changes nothing. *)
Theorem self_challenge_is_stuck
  (fuel : nat) (more : list string) (sp : slack_params) (st : State) (engine : Process) :
  Z.of_nat (List.length (workers st)) <> max_games st ->
  sessions_of (user_name sp) (workers st) = [] ->
  spawner st (List.length (procs st)) = Some engine ->
  responsive fuel engine ->
  exists st',
    new fuel (("@" ++ user_name sp) :: more) sp st = (Ok (Response None), st')
    /\ workers st'
       = (workers st ++ [((user_name sp, user_name sp), List.length (procs st))])%list
    /\ forall c fuel' params',
         policy c <> Ungated ->
         handler_of c fuel' params' sp st' = (Raised RuntimeError, st').
Proof.
  intros Hcap Hfree Hsp Hr.
  destruct resolve_table as [_ [_ [Hat _]]].
  destruct (new_run fuel (("@" ++ user_name sp) :: more) sp st (user_name sp) engine
              Hcap Hfree (Hat _ _) Hsp Hr) as [p' [st' [E [W _]]]].
  exists st'. split; [exact E|]. split; [exact W|].
  intros c fuel' params' Hpol.
  destruct (gated_shape c Hpol) as [tr [f [Hf _]]]. rewrite Hf.
  apply (self_session_raises tr f fuel' params' sp st'
           (user_name sp, user_name sp) (List.length (procs st)) []).
  - rewrite W, sessions_of_app, Hfree. unfold sessions_of, is_in. simpl.
    now rewrite String.eqb_refl.
  - unfold next_other. simpl. now rewrite String.eqb_refl.
Qed.

Lemma self_challenge_is_stuck_witness :
  exists st',
    new 1 (("@" ++ user_name alice) :: []) alice (server 2 mute) = (Ok (Response None), st')
    /\ workers st'
       = (workers (server 2 mute)
            ++ [((user_name alice, user_name alice), List.length (procs (server 2 mute)))])%list
    /\ forall c fuel' params',
         policy c <> Ungated ->
         handler_of c fuel' params' alice st' = (Raised RuntimeError, st').
Proof.
  apply (self_challenge_is_stuck 1 [] alice (server 2 mute) mute).
  - simpl. lia.
  - reflexivity.
  - reflexivity.
  - apply (responsive_tape_of [] 1 mute); [reflexivity | simpl; lia].
Defined.

End SelfChallenge.

(** ** The dispatcher *)

Section Dispatcher.

Lemma commands_have_methods (name : string) :
  existsb (fun c : string * (list string * string) => fst c =? name) GnubgManager.COMMANDS
  = true ->
  exists c, cmd_named name = Some c /\ cmd_name c = name.
Proof.
  unfold GnubgManager.COMMANDS, cmd_named. cbn [existsb fst].
  intros H.
  repeat match type of H with
         | (?s =? name) || _ = true =>
             let E := fresh "E" in
             rewrite (String.eqb_sym s name) in H;
             destruct (name =? s) eqn:E;
             [ apply String.eqb_eq in E; subst name; eexists; split; reflexivity
             | rewrite orb_false_l in H ]
         end.
  discriminate H.
Qed.

Lemma required_params_filled (values : list (string * string))
  (filled : list (string * string)) :
  required_params REQUIRED_SLACK_PARAMS values [] = inr filled ->
  exists uid uname chan,
    Form.get "user_id" values = Some uid
    /\ Form.get "user_name" values = Some uname
    /\ Form.get "channel_id" values = Some chan
    /\ slack_params_of filled = mkSlack uid uname chan.
Proof.
  unfold REQUIRED_SLACK_PARAMS. cbn [required_params].
  destruct (Form.get "user_id" values) as [uid|]; [|discriminate].
  destruct (Form.get "user_name" values) as [uname|]; [|discriminate].
  destruct (Form.get "channel_id" values) as [chan|]; [|discriminate].
  intros H. inversion H; subst. exists uid, uname, chan. repeat split; reflexivity.
Qed.

(** X9.  The dispatcher either turns the request down itself, with a 403
    or a 400 and the state untouched, or runs the handler that bears the
    name of the first word of the text, on the other words and on the
    three Slack fields of the form, the token being the configured one.
    It never fails to find the method of a command, and a state that
    the server comes to by serving its requests one after the other
    stays one. *)
Theorem dispatcher_refuses_or_hands_over
  (slash_token : string) (values : list (string * string)) (fuel : nat) (st : State) :
  ((turned_down (fst (slackgammon slash_token values fuel st))
    /\ snd (slackgammon slash_token values fuel st) = st)
   \/ exists c params uid uname chan,
        Form.get "token" values = Some slash_token
        /\ Form.get "user_id" values = Some uid
        /\ Form.get "user_name" values = Some uname
        /\ Form.get "channel_id" values = Some chan
        /\ Py.split (Form.get_default "text" "" values) = cmd_name c :: params
        /\ slackgammon slash_token values fuel st
           = (Handled (fst (handler_of c fuel params (mkSlack uid uname chan) st)),
              snd (handler_of c fuel params (mkSlack uid uname chan) st)))
  /\ fst (slackgammon slash_token values fuel st) <> AttributeError
  /\ (reachable st -> reachable (snd (slackgammon slash_token values fuel st))).
Proof.
  assert (Down : forall msg,
             (turned_down (Handled (Ok (HTTPForbidden msg)))
              /\ turned_down (Handled (Ok (HTTPBadRequest msg))))).
  { intros msg. split; exists msg; auto. }
  unfold slackgammon.
  destruct (Form.get "token" values) as [token|] eqn:Etok;
    [|split; [left; split; [apply Down | reflexivity] | split; [discriminate | auto]]].
  destruct (token =? slash_token) eqn:Eeq; cbn [negb];
    [|split; [left; split; [apply Down | reflexivity] | split; [discriminate | auto]]].
  apply String.eqb_eq in Eeq. subst token.
  destruct (required_params REQUIRED_SLACK_PARAMS values []) as [k|filled] eqn:Ereq;
    [split; [left; split; [apply Down | reflexivity] | split; [discriminate | auto]]|].
  destruct (required_params_filled values filled Ereq)
    as [uid [uname [chan [Hu [Hn [Hc Hsp]]]]]].
  destruct (Py.split (Form.get_default "text" "" values)) as [|name params] eqn:Etext;
    [split; [left; split; [apply Down | reflexivity] | split; [discriminate | auto]]|].
  destruct (existsb _ GnubgManager.COMMANDS) eqn:Ecmd; cbn [negb];
    [|split; [left; split; [apply Down | reflexivity] | split; [discriminate | auto]]].
  destruct (commands_have_methods name Ecmd) as [c [Hc1 Hc2]].
  rewrite Hc1, Hsp.
  destruct (handler_of c fuel params (mkSlack uid uname chan) st) as [r st'] eqn:Eh.
  split; [|split; [discriminate|]].
  - right. exists c, params, uid, uname, chan. rewrite Hc2, Eh. repeat split; auto.
  - intros Hr. cbn [snd].
    replace st' with (snd (handler_of c fuel params (mkSlack uid uname chan) st))
      by now rewrite Eh.
    now apply reach_request.
Qed.

(** A no-break space separates the words of the text like a space: the
    request is handed to [new] with the parameter [@bob]. *)
Lemma dispatcher_splits_on_nbsp :
  Py.split ("new" ++ NBSP ++ "@bob") = ["new"; "@bob"]
  /\ fst (slackgammon "s3cret" (request_of_alice ("new" ++ NBSP ++ "@bob")) 1 (server 2 mute))
     = Handled (Ok (Response None))
  /\ workers (snd (slackgammon "s3cret" (request_of_alice ("new" ++ NBSP ++ "@bob")) 1
                     (server 2 mute)))
     = [(("alice", "bob"), 0)].
Proof.
  repeat split; vm_compute; reflexivity.
Qed.

End Dispatcher.

(** ** From the text of a request to the line for the engine *)

Section CommandLine.

Lemma append_empty (s : string) : s ++ "" = s.
Proof.
  induction s as [|c s IH]; simpl; [reflexivity | now rewrite IH].
Qed.

Lemma append_assoc (a b c : string) : (a ++ b) ++ c = a ++ (b ++ c).
Proof.
  induction a as [|x a IH]; simpl; [reflexivity | now rewrite IH].
Qed.

Lemma unbroken_app (a b : string) : unbroken (a ++ b) = unbroken a && unbroken b.
Proof.
  induction a as [|c a IH]; simpl; [reflexivity|].
  rewrite IH. now rewrite andb_assoc.
Qed.

Lemma split_from_more (u : string) :
  forall (acc s : string),
    unbroken u = true ->
    Py.split_from (Some acc) (u ++ s) = Py.split_from (Some (acc ++ u)) s.
Proof.
  induction u as [|c u IH]; intros acc s Hu; simpl.
  - now rewrite append_empty.
  - simpl in Hu. apply andb_true_iff in Hu. destruct Hu as [Hc Hu].
    apply negb_true_iff in Hc. rewrite Hc.
    rewrite (IH _ s Hu). unfold Py.snoc. now rewrite append_assoc.
Qed.

Lemma split_from_word (u s : string) :
  word u -> Py.split_from None (u ++ s) = Py.split_from (Some u) s.
Proof.
  intros [Hne Hu]. destruct u as [|c u]; [congruence|].
  simpl in *. apply andb_true_iff in Hu. destruct Hu as [Hc Hu].
  apply negb_true_iff in Hc. rewrite Hc.
  now rewrite (split_from_more u _ s Hu).
Qed.

Lemma split_join (ts : list string) :
  Forall word ts -> Py.split (Py.join " " ts) = ts.
Proof.
  unfold Py.split, Py.join.
  induction ts as [|t ts IH]; intros Hw; [reflexivity|].
  inversion Hw as [|? ? Ht Hts]; subst.
  destruct ts as [|t2 ts].
  - simpl. rewrite <- (append_empty t) at 1. rewrite (split_from_word t "" Ht).
    reflexivity.
  - change (String.concat " " (t :: t2 :: ts))
      with (t ++ String " " (String.concat " " (t2 :: ts))).
    rewrite (split_from_word t _ Ht).
    assert (E : forall rest,
               Py.split_from (Some t) (String " " rest) = t :: Py.split_from None rest)
      by reflexivity.
    rewrite E. now rewrite (IH Hts).
Qed.

Lemma split_from_words (s : string) :
  forall cur : option string,
    match cur with Some t => word t | None => True end ->
    Forall word (Py.split_from cur s).
Proof.
  assert (Snoc : forall t c, unbroken t = true -> Py.isspace c = false ->
                             word (Py.snoc t c)).
  { intros t c Ht Hc. split.
    - unfold Py.snoc. destruct t; discriminate.
    - unfold Py.snoc. rewrite unbroken_app, Ht. simpl. now rewrite Hc. }
  induction s as [|c s IH]; intros cur Hcur; simpl.
  - destruct cur; [constructor; [exact Hcur | constructor] | constructor].
  - destruct (Py.isspace c) eqn:Hc.
    + destruct cur; [constructor; [exact Hcur|]|]; now apply IH.
    + apply IH. destruct cur as [t|]; apply Snoc; auto. apply Hcur.
Qed.

Lemma chars_app (a b : string) : chars (a ++ b) = (chars a ++ chars b)%list.
Proof.
  induction a as [|c a IH]; simpl; [reflexivity | now rewrite IH].
Qed.

Lemma unbroken_chars (t : string) (c : ascii) :
  unbroken t = true -> In c (chars t) -> Py.isspace c = false.
Proof.
  induction t as [|x t IH]; simpl; [contradiction|].
  intros H [->|Hin]; apply andb_true_iff in H; destruct H as [Hx Ht].
  - now apply negb_true_iff.
  - now apply IH.
Qed.

Lemma join_chars (ts : list string) (c : ascii) :
  Forall word ts -> In c (chars (Py.join " " ts)) -> Py.isspace c = false \/ c = " "%char.
Proof.
  unfold Py.join. induction ts as [|t ts IH]; intros Hw Hin; [contradiction|].
  inversion Hw as [|? ? [_ Ht] Hts]; subst.
  destruct ts as [|t2 ts].
  - left. eapply unbroken_chars; eauto.
  - change (String.concat " " (t :: t2 :: ts))
      with (t ++ String " " (String.concat " " (t2 :: ts))) in Hin.
    rewrite chars_app in Hin. apply in_app_or in Hin.
    destruct Hin as [Hin|[<-|Hin]]; [left; eapply unbroken_chars; eauto | now right | auto].
Qed.

(** X10.  The words of the text of a request ([split]) are put together
    again by [run_command] with single blanks ([join]): the line has
    exactly those words, and no line feed in it, so that one request
    makes one line for the engine. *)
Theorem command_line_is_the_words (text name : string) (params : list string) :
  Py.split text = name :: params ->
  Py.split (command_line name params) = name :: params
  /\ ~ In LF_char (chars (command_line name params)).
Proof.
  intros Hs.
  assert (Hw : Forall word (name :: params)).
  { rewrite <- Hs. apply split_from_words. exact I. }
  unfold command_line. split; [now apply split_join|].
  intros Hin. destruct (join_chars _ _ Hw Hin) as [H|H]; discriminate H.
Qed.

Lemma command_line_is_the_words_witness :
  Py.split (command_line "move" ["24"; "18"]) = ["move"; "24"; "18"]
  /\ ~ In LF_char (chars (command_line "move" ["24"; "18"])).
Proof.
  apply (command_line_is_the_words ("  move  24" ++ LF ++ " 18 ")). reflexivity.
Defined.

End CommandLine.

(** ** What a game command and [new] do to the engine *)

Section Outcome.

Import GnubgManager.

Lemma generic_body (c : cmd) :
  policy c <> Ungated -> c <> Cquit ->
  handler_of c
  = game_required (match policy c with TurnGated => true | _ => false end)
                  (run_command (cmd_name c)).
Proof.
  destruct c; simpl; intros H1 H2; try congruence; reflexivity.
Qed.

(** X11.  A game command other than [quit], from a caller whose session is
    with somebody else, whose engine lets the drains end and names in its
    answer to the turn query a player the command accepts: the answer is
    200 and the dict is as before; the engine has been sent the turn
    query, the line of the command, the turn query again, and, exactly
    when the answer to this second query begins with "No game", [quit] and
    [y], after which it is gone; otherwise it is neither exited nor killed
    by the request. *)
Theorem generic_command_outcome
  (c : cmd) (fuel : nat) (params : list string) (sp : slack_params) (st : State)
  (players : player_pair) (h : nat) (rest : list (player_pair * nat))
  (opponent : string) (p : Process) (lines : list string) (turn : string)
  (more : list string) :
  policy c <> Ungated -> c <> Cquit ->
  sessions_of (user_name sp) (workers st) = (players, h) :: rest ->
  next_other players (user_name sp) = Some opponent ->
  nth_error (procs st) h = Some p ->
  responsive fuel p ->
  next_response fuel p = Some lines ->
  Py.split (Py.join "" lines) = turn :: more ->
  (policy c = TurnGated -> turn = user_name sp) ->
  exists p' st',
    handler_of c fuel params sp st = (Ok (Response None), st')
    /\ workers st' = workers st
    /\ procs st' = replace_nth h p' (procs st)
    /\ stdin_log p'
       = (stdin_log p
            ++ [sent "show turn"; sent (command_line (cmd_name c) params); sent "show turn"]
            ++ (if retires fuel (command_line (cmd_name c) params) (asked fuel "show turn" p)
                then [sent "quit"; sent "y"] else []))%list
    /\ (retires fuel (command_line (cmd_name c) params) (asked fuel "show turn" p) = true ->
        terminated p' = true)
    /\ (retires fuel (command_line (cmd_name c) params) (asked fuel "show turn" p) = false ->
        exited p' = exited p /\ killed p' = killed p).
Proof.
  intros Hpol Hq Hs Ho Hp Hr Hl Ht Hturn.
  rewrite (generic_body c Hpol Hq),
    (game_required_at _ _ _ _ _ _ _ _ _ _ _ _ Hs Ho Hp Hl), Ht.
  assert (Hgo : (match policy c with TurnGated => true | _ => false end)
                && negb (turn =? user_name sp) = false).
  { destruct (policy c); try reflexivity.
    rewrite (Hturn eq_refl), String.eqb_refl. reflexivity. }
  rewrite Hgo.
  set (p1 := asked fuel "show turn" p).
  assert (Hp1 : nth_error (procs (put h p1 st)) h = Some p1) by (eapply put_lookup; eauto).
  assert (Hr1 : responsive fuel p1) by now apply asked_responsive.
  destruct (run_command_run (cmd_name c) fuel params sp (user_name sp) opponent h
              (put h p1 st) p1 Hp1 Hr1) as [p' [st' [E [W [P [_ [L [T1 T2]]]]]]]].
  destruct (asked_fields fuel "show turn" p) as [L1 [X1 [_ K1]]]. fold p1 in L1, X1, K1.
  exists p', st'. unfold command_line.
  split; [exact E|]. split; [exact W|].
  split; [rewrite P; unfold put; cbn [procs set_procs]; apply replace_nth_twice|].
  split; [rewrite L, L1, <- app_assoc; reflexivity|].
  split; [exact T1|].
  intros Hno. destruct (T2 Hno) as [A B]. rewrite A, B, X1, K1. auto.
Qed.

Lemma generic_command_outcome_witness :
  exists p' st',
    handler_of Cresign 12 [] alice alice_game = (Ok (Response None), st')
    /\ workers st' = workers alice_game
    /\ procs st' = replace_nth 0 p' (procs alice_game)
    /\ stdin_log p'
       = (stdin_log alice_engine
            ++ [sent "show turn"; sent (command_line (cmd_name Cresign) []); sent "show turn"]
            ++ (if retires 12 (command_line (cmd_name Cresign) [])
                           (asked 12 "show turn" alice_engine)
                then [sent "quit"; sent "y"] else []))%list
    /\ (retires 12 (command_line (cmd_name Cresign) []) (asked 12 "show turn" alice_engine)
        = true -> terminated p' = true)
    /\ (retires 12 (command_line (cmd_name Cresign) []) (asked 12 "show turn" alice_engine)
        = false -> exited p' = exited alice_engine /\ killed p' = killed alice_engine).
Proof.
  apply (generic_command_outcome Cresign 12 [] alice alice_game ("alice", "gnubg") 0 []
           "gnubg" alice_engine ["alice is on roll." ++ LF] "alice" ["is"; "on"; "roll."]).
  - discriminate.
  - discriminate.
  - reflexivity.
  - reflexivity.
  - reflexivity.
  - exact alice_engine_responsive.
  - reflexivity.
  - reflexivity.
  - reflexivity.
Defined.

(** X12.  What [new] tells the engine it has started, when the engine lets
    the drains end: the name of the caller for player 1; for an opponent
    other than gnubg, that player 0 is human and the opponent's name;
    then to start a game; nothing else.  (An opponent asked for as
    [@gnubg] resolves to gnubg, so player 0 stays with the engine.) *)
Theorem new_opening_protocol
  (fuel : nat) (params : list string) (sp : slack_params) (st : State)
  (challenged : string) (engine : Process) :
  Z.of_nat (List.length (workers st)) <> max_games st ->
  sessions_of (user_name sp) (workers st) = [] ->
  resolve_challenged params = Some challenged ->
  spawner st (List.length (procs st)) = Some engine ->
  responsive fuel engine ->
  exists p' st',
    new fuel params sp st = (Ok (Response None), st')
    /\ procs st' = (procs st ++ [p'])%list
    /\ stdin_log p'
       = (sent ("set player 1 name " ++ user_name sp)
          :: (if challenged =? "gnubg" then []
              else [sent "set player 0 human"; sent ("set player 0 name " ++ challenged)])
          ++ [sent "new game"])%list.
Proof.
  intros Hcap Hfree Hres Hsp Hr.
  destruct (new_run fuel params sp st challenged engine Hcap Hfree Hres Hsp Hr)
    as [p' [st' [E [_ [P [L _]]]]]].
  exists p', st'. split; [exact E|]. split; [exact P|].
  rewrite L. unfold opening_lines. now destruct (challenged =? "gnubg").
Qed.

Lemma new_opening_protocol_witness :
  exists p' st',
    new 1 ["@bob"] alice (server 2 mute) = (Ok (Response None), st')
    /\ procs st' = (procs (server 2 mute) ++ [p'])%list
    /\ stdin_log p'
       = (sent ("set player 1 name " ++ user_name alice)
          :: (if "bob" =? "gnubg" then []
              else [sent "set player 0 human"; sent ("set player 0 name " ++ "bob")])
          ++ [sent "new game"])%list.
Proof.
  apply (new_opening_protocol 1 ["@bob"] alice (server 2 mute) "bob" mute).
  - simpl. lia.
  - reflexivity.
  - reflexivity.
  - reflexivity.
  - apply (responsive_tape_of [] 1 mute); [reflexivity | simpl; lia].
Defined.

End Outcome.

(** ** Room for a new game *)

Section Room.

Import GnubgManager.

Lemma quit_body_deletes (fuel : nat) (params : list string) (sp : slack_params)
  (player opponent : string) (worker : nat) (st : State) (r : response) :
  fst (quit_body fuel params sp player opponent worker st) = Ok r ->
  exists k,
    Dict.del k (workers st)
    = Some (workers (snd (quit_body fuel params sp player opponent worker st))).
Proof.
  remember (quit_body fuel params sp player opponent worker st) as res eqn:E.
  unfold quit_body in E. unfold bind at 1 in E.
  pose proof (keeps_on_proc worker (GnubgWorker.quit fuel) st) as W.
  revert E W.
  destruct (on_proc worker (GnubgWorker.quit fuel) st) as [[[]|e|] st1];
    cbn [fst snd]; intros E W; try (subst res; discriminate).
  unfold bind at 1 in E. cbv beta zeta in E. rewrite W in E.
  destruct (Dict.del _ (workers st)) as [ws|] eqn:Ed; [|subst res; discriminate].
  intros _. exists (if Dict.mem (player, opponent) (workers st)
                    then (player, opponent) else (opponent, player)).
  rewrite Ed. subst res. unfold bind, IncomingWebhook.post, ret. reflexivity.
Qed.

Lemma quit_served_deletes (fuel : nat) (params : list string) (sp : slack_params)
  (st : State) :
  fst (quit fuel params sp st) = Ok (Response None) ->
  exists k, Dict.del k (workers st) = Some (workers (snd (quit fuel params sp st))).
Proof.
  remember (quit fuel params sp st) as res eqn:E.
  unfold quit in E. rewrite game_required_lookup in E.
  destruct (sessions_of (user_name sp) (workers st)) as [|[players h] rest];
    [subst res; discriminate|].
  destruct (next_other players (user_name sp)) as [opponent|]; [|subst res; discriminate].
  unfold after_lookup in E. unfold bind at 1 in E.
  pose proof (keeps_on_proc h (GnubgWorker.command fuel "show turn") st) as W.
  revert E W.
  destruct (on_proc h (GnubgWorker.command fuel "show turn") st) as [[lines|e|] st1];
    cbn [fst snd]; intros E W; try (subst res; discriminate).
  destruct (Py.split (Py.join "" lines)) as [|turn more]; [subst res; discriminate|].
  cbn [andb] in E. subst res. rewrite <- W. apply quit_body_deletes.
Qed.

Lemma new_full_only_at_limit (fuel : nat) (params : list string) (sp : slack_params)
  (st : State) (msg : string) :
  fst (new fuel params sp st) = Ok (HTTPServiceUnavailable msg) ->
  Z.of_nat (List.length (workers st)) = max_games st.
Proof.
  intros H.
  destruct (Z.of_nat (List.length (workers st)) =? max_games st)%Z eqn:Hcap;
    [now apply Z.eqb_eq|].
  destruct (existsb (fun psw : player_pair * nat => is_in (user_name sp) (fst psw))
                    (workers st)) eqn:Hfree.
  - rewrite (new_in_conflict _ _ _ _ Hcap Hfree) in H. discriminate H.
  - destruct (new_outcomes fuel params sp st Hcap Hfree _ H) as [E|[_ [m E]]];
      discriminate E.
Qed.

(** X13.  A [quit] that is served makes room: when the number of sessions
    was within the limit, it is below the limit afterwards, and no [new]
    that follows is turned down for the limit of games. *)
Theorem quit_makes_room
  (fuel : nat) (params : list string) (sp : slack_params) (st : State) :
  (Z.of_nat (List.length (workers st)) <= max_games st)%Z ->
  fst (quit fuel params sp st) = Ok (Response None) ->
  List.length (workers st) = S (List.length (workers (snd (quit fuel params sp st))))
  /\ forall fuel' params' caller msg,
       fst (new fuel' params' caller (snd (quit fuel params sp st)))
       <> Ok (HTTPServiceUnavailable msg).
Proof.
  intros Hle Hok.
  destruct (quit_served_deletes fuel params sp st Hok) as [k Hd].
  apply del_length in Hd. split; [exact Hd|].
  intros fuel' params' caller msg H.
  apply new_full_only_at_limit in H.
  destruct (handler_config Cquit fuel params sp st) as [Hm _]. simpl in Hm.
  rewrite Hm in H. lia.
Qed.

Lemma quit_makes_room_witness :
  List.length (workers alice_game)
  = S (List.length (workers (snd (quit 12 [] alice alice_game))))
  /\ forall fuel' params' caller msg,
       fst (new fuel' params' caller (snd (quit 12 [] alice alice_game)))
       <> Ok (HTTPServiceUnavailable msg).
Proof.
  apply quit_makes_room.
  - vm_compute. discriminate.
  - reflexivity.
Defined.

End Room.

(** ** What a request can raise *)

Section Raising.

Import GnubgManager.

Lemma calm_ret {A} (h : nat) (a : A) : calm h (ret a).
Proof. intros st Hh. split; [discriminate | exact Hh]. Qed.

Lemma calm_bind {A B} (h : nat) (m : M State A) (k : A -> M State B) :
  calm h m -> (forall a, calm h (k a)) -> calm h (bind m k).
Proof.
  intros Hm Hk st Hh. unfold bind. destruct (Hm st Hh) as [Hr Hl].
  destruct (m st) as [[a|e|] st1]; cbn [fst snd] in *.
  - now apply Hk.
  - exfalso. now apply (Hr e).
  - split; [discriminate | exact Hl].
Qed.

Lemma calm_post (h : nat) (message channel : string) :
  calm h (IncomingWebhook.post message channel).
Proof. intros st Hh. split; [discriminate | exact Hh]. Qed.

Lemma calm_on_proc {A} (h : nat) (f : M Process A) :
  quiet f -> calm h (on_proc h f).
Proof.
  intros Hq st Hh. unfold on_proc.
  destruct (nth_error (procs st) h) as [p|] eqn:E.
  - specialize (Hq p). destruct (f p) as [r p']. cbn [fst snd] in *.
    split; [exact Hq | simpl; now rewrite replace_nth_length].
  - apply nth_error_None in E. lia.
Qed.

Lemma command_quiet (fuel : nat) (c : string) : quiet (GnubgWorker.command fuel c).
Proof.
  intros p e. rewrite command_eq. destruct (next_response fuel p); discriminate.
Qed.

Lemma readlines_quiet (fuel : nat) : quiet (GnubgWorker.readlines fuel).
Proof.
  intros p e. unfold GnubgWorker.readlines.
  destruct (StreamReadlines.collect fuel p) as [[lines|] p']; discriminate.
Qed.

Lemma quit_quiet (fuel : nat) : quiet (GnubgWorker.quit fuel).
Proof.
  intros p e. unfold GnubgWorker.quit, bind.
  pose proof (command_quiet fuel "quit" p) as Q1.
  destruct (GnubgWorker.command fuel "quit" p) as [[l1|e1|] p1]; cbn [fst snd] in *;
    [|exfalso; now apply (Q1 e1)|discriminate].
  pose proof (command_quiet fuel "y" p1) as Q2.
  destruct (GnubgWorker.command fuel "y" p1) as [[l2|e2|] p2]; cbn [fst snd] in *;
    [|exfalso; now apply (Q2 e2)|discriminate].
  unfold GnubgWorker.wait_for_wait, GnubgWorker.kill, ret.
  destruct (terminated p2) eqn:T; cbn [fst snd]; [discriminate|].
  destruct (exits_in_grace p2); cbn [fst snd]; [discriminate|].
  rewrite T. discriminate.
Qed.

Lemma run_command_calm (name : string) (fuel : nat) (params : list string)
  (sp : slack_params) (player opponent : string) (h : nat) :
  calm h (run_command name fuel params sp player opponent h).
Proof.
  unfold run_command.
  apply calm_bind; [apply calm_on_proc, command_quiet|]. intros l1.
  apply calm_bind; [apply calm_post|]. intros _.
  apply calm_bind; [apply calm_on_proc, command_quiet|]. intros l2.
  destruct (Py.startswith _ _); [|apply calm_ret].
  apply calm_bind; [apply calm_on_proc, quit_quiet | intros _; apply calm_ret].
Qed.

Lemma new_after_start_calm (fuel : nat) (sp : slack_params) (challenged : string)
  (h : nat) :
  calm h (new_after_start fuel sp challenged h).
Proof.
  unfold new_after_start.
  apply calm_bind; [apply calm_on_proc, command_quiet|]. intros _.
  apply calm_bind.
  { destruct (negb (challenged =? "gnubg")); [|apply calm_ret].
    apply calm_bind; [apply calm_on_proc, command_quiet|]. intros _.
    apply calm_bind; [apply calm_on_proc, command_quiet|]. intros _. apply calm_ret. }
  intros _. apply calm_bind; [apply calm_on_proc, command_quiet|]. intros out.
  apply calm_bind; [apply calm_post | intros _; apply calm_ret].
Qed.

Lemma quit_body_calm (fuel : nat) (params : list string) (sp : slack_params)
  (opponent : string) (h : nat) (st : State) (ws' : list (player_pair * nat))
  (e : exn) :
  h < List.length (procs st) ->
  Dict.del (if Dict.mem (user_name sp, opponent) (workers st)
            then (user_name sp, opponent) else (opponent, user_name sp)) (workers st)
  = Some ws' ->
  fst (quit_body fuel params sp (user_name sp) opponent h st) <> Raised e.
Proof.
  intros Hh Hd. unfold quit_body. unfold bind at 1.
  destruct (calm_on_proc h (GnubgWorker.quit fuel) (quit_quiet fuel) st Hh) as [Q _].
  pose proof (keeps_on_proc h (GnubgWorker.quit fuel) st) as W.
  destruct (on_proc h (GnubgWorker.quit fuel) st) as [[[]|e1|] st1];
    cbn [fst snd] in *; [|exfalso; now apply (Q e1)|discriminate].
  unfold bind at 1. cbv beta zeta. rewrite W.
  match goal with
  | |- context [Dict.del ?k ?w] =>
      replace (Dict.del k w) with (Some ws') by (symmetry; exact Hd)
  end.
  unfold bind, IncomingWebhook.post, ret. discriminate.
Qed.

Lemma reachable_sound (st : State) : reachable st -> workers_sound st.
Proof.
  induction 1 as [max sp|st c fuel params caller _ IH].
  - split; constructor.
  - now apply handler_sound.
Qed.

(** X14.  When the requests are served one after the other and every
    bounded read returns a line or times out, a request raises nothing
    but: for a game command or [quit], the [RuntimeError] of a session of
    the caller with themselves and the [IndexError] of an answer to the
    turn query without a token; for [new], the error of an engine that
    cannot be started.  In particular [del] then always finds its key,
    [kill] is never sent to a process that is gone, and no worker is
    without a process. *)
Theorem requests_raise_only
  (c : cmd) (fuel : nat) (params : list string) (sp : slack_params) (st : State)
  (e : exn) :
  reachable st ->
  fst (handler_of c fuel params sp st) = Raised e ->
  (policy c <> Ungated /\ (e = RuntimeError \/ e = IndexError))
  \/ (c = Cnew /\ e = OSError).
Proof.
  intros Hreach Hraise. destruct (reachable_sound st Hreach) as [Hvalid _].
  destruct (policy c) eqn:Epol.
  1, 2: left; split; [congruence|];
    assert (Hpol : policy c <> Ungated) by congruence;
    destruct (gated_shape c Hpol) as [tr [f [Hf Hb]]];
    rewrite Hf, game_required_lookup in Hraise;
    destruct (sessions_of (user_name sp) (workers st)) as [|[players h] rest] eqn:Hs;
    [discriminate Hraise|];
    (assert (Hh : h < List.length (procs st));
     [ assert (I : In (players, h) (sessions_of (user_name sp) (workers st)))
         by (rewrite Hs; now left);
       apply filter_In in I; destruct I as [I _];
       rewrite Forall_forall in Hvalid; exact (Hvalid _ I) |]);
    destruct (next_other players (user_name sp)) as [opponent|] eqn:Ho;
    [|inversion Hraise; auto];
    unfold after_lookup in Hraise; unfold bind at 1 in Hraise;
    destruct (calm_on_proc h _ (command_quiet fuel "show turn") st Hh) as [Q L];
    pose proof (keeps_on_proc h (GnubgWorker.command fuel "show turn") st) as W;
    revert Hraise Q L W;
    destruct (on_proc h (GnubgWorker.command fuel "show turn") st) as [[lines|e1|] st1];
    cbn [fst snd]; intros Hraise Q L W;
    [|exfalso; now apply (Q e1)|discriminate Hraise];
    destruct (Py.split (Py.join "" lines)) as [|turn more];
    [inversion Hraise; auto|];
    destruct (tr && negb (turn =? user_name sp)); [discriminate Hraise|];
    exfalso;
    (destruct Hb as [[name ->] | ->];
     [ exact (proj1 (run_command_calm name fuel params sp (user_name sp) opponent h st1 L)
                 e Hraise)
     | destruct (quit_key_present (user_name sp) opponent (workers st) players h rest Hs Ho)
         as [ws' Hd];
       rewrite <- W in Hd;
       exact (quit_body_calm fuel params sp opponent h st1 ws' e L Hd Hraise) ]).
  right. destruct (ungated_cases c Epol) as [-> | [-> | ->]]; try discriminate Hraise.
  split; [reflexivity|]. simpl in Hraise. unfold new in Hraise.
  destruct (Z.of_nat (List.length (workers st)) =? max_games st)%Z; [discriminate Hraise|].
  destruct (existsb _ (workers st)); [discriminate Hraise|].
  destruct (resolve_challenged params) as [challenged|]; [|discriminate Hraise].
  change (bind (GnubgWorker.start fuel) _)
    with (worker <- GnubgWorker.start fuel ;;
          (fun st' => (Ok tt, set_workers
                                (Dict.set (user_name sp, challenged) worker (workers st')) st'))
          ;;; new_after_start fuel sp challenged worker) in Hraise.
  unfold bind at 1 in Hraise. unfold GnubgWorker.start in Hraise.
  destruct (spawner st (List.length (procs st))) as [engine|];
    [|inversion Hraise; reflexivity].
  exfalso.
  set (h := List.length (procs st)) in *.
  set (st0 := set_procs (procs st ++ [GnubgWorker.fresh engine]) st) in *.
  assert (Hh : h < List.length (procs st0))
    by (unfold st0; simpl; rewrite length_app; simpl; unfold h; lia).
  unfold bind at 1 in Hraise.
  destruct (calm_on_proc h _ (readlines_quiet fuel) st0 Hh) as [Q L].
  revert Hraise Q L.
  destruct (on_proc h (GnubgWorker.readlines fuel) st0) as [[ls|e1|] st1];
    cbn [fst snd]; intros Hraise Q L;
    [|now apply (Q e1)|discriminate Hraise].
  unfold ret at 1 in Hraise. unfold bind at 1 in Hraise. cbv beta in Hraise.
  match type of Hraise with
  | fst (_ ?s) = _ =>
      exact (proj1 (new_after_start_calm fuel sp challenged h s L) e Hraise)
  end.
Qed.

Lemma requests_raise_only_witness :
  (policy Cquit <> Ungated /\ (IndexError = RuntimeError \/ IndexError = IndexError))
  \/ (Cquit = Cnew /\ IndexError = OSError).
Proof.
  apply (requests_raise_only Cquit 1 [] alice alice_plays IndexError).
  - unfold alice_plays. apply reach_request. apply reach_start.
  - reflexivity.
Defined.

End Raising.

(** ** The limit at its edges *)

Section LimitEdges.

Import GnubgManager.

Lemma no_game_allowed (st : State) :
  reachable st -> max_games st = 0%Z -> workers st = [].
Proof.
  induction 1 as [max sp|st c fuel params caller _ IH]; intros Hmax; [reflexivity|].
  destruct (handler_config c fuel params caller st) as [Hm _].
  rewrite Hm in Hmax. specialize (IH Hmax).
  destruct (handler_count c fuel params caller st) as [Hle|[_ Hne]].
  - rewrite IH in Hle. simpl in Hle.
    destruct (workers (snd (handler_of c fuel params caller st))); [reflexivity|].
    simpl in Hle. lia.
  - rewrite IH, Hmax in Hne. simpl in Hne. congruence.
Qed.

(** X15.  The limit is tested with an equality.  With [max_games] 0 every
    [new] is turned down for the limit, in every state the server can
    reach; with a negative [max_games] no [new] ever is, so that there is
    no limit at all. *)
Theorem limit_at_its_edges
  (fuel : nat) (params : list string) (sp : slack_params) (st : State) :
  (reachable st -> max_games st = 0%Z ->
   new fuel params sp st
   = (Ok (HTTPServiceUnavailable
            "Max game limit reached. Try again after a game has finished."), st))
  /\ ((max_games st < 0)%Z ->
      forall msg, fst (new fuel params sp st) <> Ok (HTTPServiceUnavailable msg)).
Proof.
  split.
  - intros Hr Hmax. apply new_at_capacity.
    rewrite (no_game_allowed st Hr Hmax), Hmax. reflexivity.
  - intros Hneg msg H. apply new_full_only_at_limit in H. lia.
Qed.

Lemma limit_at_its_edges_witness :
  new 1 [] alice closed_server
  = (Ok (HTTPServiceUnavailable
           "Max game limit reached. Try again after a game has finished."), closed_server)
  /\ forall msg, fst (new 1 [] alice unlimited_server) <> Ok (HTTPServiceUnavailable msg).
Proof.
  split.
  - apply (proj1 (limit_at_its_edges 1 [] alice closed_server));
      [apply reach_start | reflexivity].
  - apply (proj2 (limit_at_its_edges 1 [] alice unlimited_server)). reflexivity.
Defined.

End LimitEdges.

(** ** A game opened and left *)

Section OpenAndLeave.

Import GnubgManager.

Lemma collect_tape (fuel : nat) (p : Process) :
  tape (snd (StreamReadlines.collect fuel p)) = tape p.
Proof.
  exact (asked_tape fuel "" p).
Qed.

Lemma opened_tape (fuel : nat) (user challenged : string) (engine : Process) :
  tape (opened fuel user challenged engine) = tape engine.
Proof.
  unfold opened. cbv zeta. rewrite asked_tape.
  destruct (negb (challenged =? "gnubg")); rewrite ?asked_tape, collect_tape; reflexivity.
Qed.

(** [new], with the engine it leaves behind written out *)
Lemma new_run_opened (fuel : nat) (params : list string) (sp : slack_params) (st : State)
  (challenged : string) (engine : Process) :
  Z.of_nat (List.length (workers st)) <> max_games st ->
  sessions_of (user_name sp) (workers st) = [] ->
  resolve_challenged params = Some challenged ->
  spawner st (List.length (procs st)) = Some engine ->
  responsive fuel engine ->
  exists st',
    new fuel params sp st = (Ok (Response None), st')
    /\ workers st'
       = (workers st ++ [((user_name sp, challenged), List.length (procs st))])%list
    /\ procs st' = (procs st ++ [opened fuel (user_name sp) challenged engine])%list.
Proof.
  intros Hcap Hfree Hres Hsp Hr.
  assert (Hfree' : existsb (fun psw : player_pair * nat => is_in (user_name sp) (fst psw))
                           (workers st) = false).
  { destruct (existsb _ (workers st)) eqn:E; [|reflexivity].
    apply existsb_sessions in E. contradiction. }
  apply Z.eqb_neq in Hcap.
  unfold new. rewrite Hcap, Hfree', Hres.
  unfold bind at 1. unfold GnubgWorker.start. rewrite Hsp.
  set (h := List.length (procs st)).
  set (p0 := GnubgWorker.fresh engine).
  assert (Hr0 : responsive fuel p0) by (apply (responsive_tape fuel engine); auto).
  set (st0 := set_procs (procs st ++ [p0]) st).
  destruct (collect_responsive fuel p0 Hr0) as [banner Eb].
  set (p1 := snd (StreamReadlines.collect fuel p0)).
  assert (Eb' : StreamReadlines.collect fuel p0 = (Some banner, p1))
    by (unfold p1; rewrite Eb; reflexivity).
  assert (E0 : (on_proc h (GnubgWorker.readlines fuel) ;;; ret h) st0
               = (Ok h, set_procs (procs st ++ [p1]) st0)).
  { unfold bind.
    assert (Hp : nth_error (procs st0) h = Some p0) by apply nth_error_last.
    rewrite (on_proc_at _ _ _ _ Hp). unfold GnubgWorker.readlines. rewrite Eb'.
    cbn [fst snd]. unfold ret, put. simpl procs at 1.
    unfold h. now rewrite replace_nth_last. }
  rewrite E0. clear E0.
  assert (Hr1 : responsive fuel p1)
    by (apply (responsive_tape fuel p0); [apply collect_tape | auto]).
  unfold bind at 1. cbv beta.
  set (st1 := set_workers _ _).
  assert (W1 : workers st1 = (workers st ++ [((user_name sp, challenged), h)])%list)
    by (unfold st1; simpl; now apply set_fresh).
  assert (P1 : procs st1 = (procs st ++ [p1])%list) by reflexivity.
  set (c1 := "set player 1 name " ++ user_name sp).
  destruct (command_in_last fuel c1 st1 (procs st) p1 P1 Hr1) as [l1 E1].
  unfold bind at 1. fold h in E1. rewrite E1. clear E1.
  set (p2 := asked fuel c1 p1).
  assert (Hr2 : responsive fuel p2) by now apply asked_responsive.
  set (st2 := set_procs (procs st ++ [p2]) st1).
  unfold opened. cbv zeta. fold p0. fold p1. fold c1. fold p2.
  destruct (negb (challenged =? "gnubg")).
  - destruct (command_in_last fuel "set player 0 human" st2 (procs st) p2 eq_refl Hr2)
      as [l2 E2].
    set (p3 := asked fuel "set player 0 human" p2) in *.
    assert (Hr3 : responsive fuel p3) by now apply asked_responsive.
    set (st3 := set_procs (procs st ++ [p3]) st2) in *.
    set (c3 := "set player 0 name " ++ challenged).
    destruct (command_in_last fuel c3 st3 (procs st) p3 eq_refl Hr3) as [l3 E3].
    set (p4 := asked fuel c3 p3) in *.
    assert (Hr4 : responsive fuel p4) by now apply asked_responsive.
    set (st4 := set_procs (procs st ++ [p4]) st3) in *.
    destruct (command_in_last fuel "new game" st4 (procs st) p4 eq_refl Hr4) as [l4 E4].
    fold h in E2, E3, E4.
    unfold bind. rewrite E2, E3. unfold ret at 1. rewrite E4.
    unfold IncomingWebhook.post, ret.
    eexists. split; [reflexivity|]. split; [exact W1 | reflexivity].
  - destruct (command_in_last fuel "new game" st2 (procs st) p2 eq_refl Hr2) as [l4 E4].
    fold h in E4.
    unfold bind. unfold ret at 1. rewrite E4.
    unfold IncomingWebhook.post, ret.
    eexists. split; [reflexivity|]. split; [exact W1 | reflexivity].
Qed.

Lemma del_fresh_last (user challenged : string) (h : nat) (ws : list (player_pair * nat)) :
  sessions_of user ws = [] ->
  Dict.mem (user, challenged) (ws ++ [((user, challenged), h)]) = true
  /\ Dict.del (user, challenged) (ws ++ [((user, challenged), h)]) = Some ws.
Proof.
  intros Hfree. split.
  - apply (in_mem _ h). apply in_or_app. right. now left.
  - induction ws as [|[k v] ws IH]; simpl.
    + now rewrite key_eqb_refl.
    + unfold sessions_of in Hfree. simpl in Hfree.
      destruct (is_in user k) eqn:Hin; [discriminate|].
      assert (K : Dict.key_eqb k (user, challenged) = false).
      { apply (key_eqb_outsider _ _ user); [exact Hin|].
        unfold is_in. simpl. now rewrite String.eqb_refl. }
      rewrite K, (IH Hfree). reflexivity.
Qed.

(** X16.  A game that is opened and then left leaves the dict as it was.
    When [new] is served for a caller against somebody else and the
    engine answers the turn query that follows with at least one token,
    the caller has exactly the new session, their [quit] is served, and
    after it the sessions are those from before the [new]. *)
Theorem new_then_quit_restores_sessions
  (fuel : nat) (params params' : list string) (sp : slack_params) (st : State)
  (challenged : string) (engine : Process) (lines : list string) :
  Z.of_nat (List.length (workers st)) <> max_games st ->
  sessions_of (user_name sp) (workers st) = [] ->
  resolve_challenged params = Some challenged ->
  challenged <> user_name sp ->
  spawner st (List.length (procs st)) = Some engine ->
  responsive fuel engine ->
  next_response fuel (opened fuel (user_name sp) challenged engine) = Some lines ->
  blank (Py.join "" lines) = false ->
  exists st1 st2,
    new fuel params sp st = (Ok (Response None), st1)
    /\ sessions_of (user_name sp) (workers st1)
       = [((user_name sp, challenged), List.length (procs st))]
    /\ quit fuel params' sp st1 = (Ok (Response None), st2)
    /\ workers st2 = workers st.
Proof.
  intros Hcap Hfree Hres Hne Hsp Hr Hl Hb.
  destruct (new_run_opened fuel params sp st challenged engine Hcap Hfree Hres Hsp Hr)
    as [st1 [E1 [W1 P1]]].
  set (h := List.length (procs st)) in *.
  set (p := opened fuel (user_name sp) challenged engine) in *.
  assert (Hs : sessions_of (user_name sp) (workers st1)
               = [((user_name sp, challenged), h)]).
  { rewrite W1, sessions_of_app, Hfree. unfold sessions_of, is_in. simpl.
    now rewrite String.eqb_refl. }
  assert (Ho : next_other (user_name sp, challenged) (user_name sp) = Some challenged).
  { unfold next_other. simpl. rewrite String.eqb_refl. simpl.
    apply String.eqb_neq in Hne. now rewrite Hne. }
  assert (Hp : nth_error (procs st1) h = Some p) by (rewrite P1; apply nth_error_last).
  destruct (Py.split (Py.join "" lines)) as [|turn more] eqn:Ht.
  { apply split_blank in Ht. congruence. }
  assert (Hrp : responsive fuel p)
    by (apply (responsive_tape fuel engine); [apply opened_tape | exact Hr]).
  set (p1 := asked fuel "show turn" p).
  assert (Hp1 : nth_error (procs (put h p1 st1)) h = Some p1) by (eapply put_lookup; eauto).
  assert (Hr1 : responsive fuel p1) by now apply asked_responsive.
  destruct (del_fresh_last (user_name sp) challenged h (workers st) Hfree) as [Hm Hd].
  assert (Hd' : Dict.del (if Dict.mem (user_name sp, challenged) (workers (put h p1 st1))
                          then (user_name sp, challenged)
                          else (challenged, user_name sp)) (workers (put h p1 st1))
                = Some (workers st)).
  { change (workers (put h p1 st1)) with (workers st1). rewrite W1.
    fold h. now rewrite Hm. }
  destruct (quit_body_run fuel params' sp (user_name sp) challenged h (put h p1 st1) p1
              (workers st) Hp1 Hr1 Hd') as [p' [st2 [E2 [W2 _]]]].
  exists st1, st2. split; [exact E1|]. split; [exact Hs|]. split; [|exact W2].
  unfold quit. rewrite (game_required_at _ _ _ _ _ _ _ _ _ _ _ _ Hs Ho Hp Hl), Ht.
  exact E2.
Qed.

Lemma new_then_quit_restores_sessions_witness :
  exists st1 st2,
    new 12 [] alice (server 2 gnubg_engine) = (Ok (Response None), st1)
    /\ sessions_of (user_name alice) (workers st1)
       = [((user_name alice, "gnubg"), List.length (procs (server 2 gnubg_engine)))]
    /\ quit 12 [] alice st1 = (Ok (Response None), st2)
    /\ workers st2 = workers (server 2 gnubg_engine).
Proof.
  apply (new_then_quit_restores_sessions 12 [] [] alice (server 2 gnubg_engine)
           "gnubg" gnubg_engine ["alice is on roll." ++ LF]).
  - simpl. lia.
  - reflexivity.
  - reflexivity.
  - discriminate.
  - reflexivity.
  - apply (responsive_tape_of gnubg_script); [reflexivity | simpl; lia].
  - reflexivity.
  - reflexivity.
Defined.

End OpenAndLeave.
